(** * Classification/utils.py: a shallow embedding and its properties

    The module prepares the California housing table with pandas
    ([preprocess_features], [preprocess_targets]), builds TensorFlow feature
    columns ([construct_feature_columns]), wraps frames into a dataset
    ([my_input_fn]) and trains a linear estimator in ten periods
    ([train_linear_regressor_model], [train_linear_classifier_model]).

    Python values are modelled as follows.
    - A float64 is a primitive binary64 [float] (with one NaN); [/], [>] and
      [sqrt] are the IEEE operations numpy and [math] apply.
    - A Python [int] is a [Z]; [int / int] is Python 3's true division, which
      gives a float.
    - A pandas DataFrame is a row index and an ordered list of labelled
      float64 columns; frames are objects on a heap, so that a write through
      one reference is seen through every other reference.
    - A raised exception is the [Raise] outcome of a computation; the module
      has no [try], so every exception leaves the function that met it.
    - TensorFlow, scikit-learn and matplotlib are outside the module: the
      estimator and the metrics are the operations of an interface, and the
      calls the module makes of them, of [print] and of the plot are
      recorded, in order, in a trace. *)

From Stdlib Require Import ZArith QArith Floats.
From stdpp Require Import gmap strings list.

Local Open Scope Z_scope.

(** ** Python exceptions and outcomes *)

Inductive exn : Type :=
  | KeyError (missing : list string)
  | ValueError (msg : string)
  | IndexError (msg : string)
  | ZeroDivisionError
  | OverflowError
  | LibraryError (origin : string)
  | OutsideModel (what : string).

Inductive outcome (A : Type) : Type :=
  | Ok (a : A)
  | Raise (e : exn).
Arguments Ok {A} a.
Arguments Raise {A} e.

Definition is_ok {A} (o : outcome A) : bool :=
  match o with Ok _ => true | Raise _ => false end.

(** A computation reads and writes a state [S] and returns or raises.  The
    state written before an exception stays written, as in Python. *)
Definition Py (S A : Type) : Type := S → S * outcome A.

Definition ret {S A} (a : A) : Py S A := λ s, (s, Ok a).
Definition bind {S A B} (c : Py S A) (k : A → Py S B) : Py S B :=
  λ s, match c s with
       | (s', Ok a) => k a s'
       | (s', Raise e) => (s', Raise e)
       end.
Definition lift {S A} (o : outcome A) : Py S A := λ s, (s, o).

Notation "'let!' x ':=' c 'in' k" := (bind c (λ x, k))
  (at level 10, x name, c at level 100, k at level 200,
   format "'[v' 'let!'  x  ':='  c  'in' '/' k ']'").
Notation "'let!' ' x ':=' c 'in' k" := (bind c (λ x, k))
  (at level 10, x strict pattern, c at level 100, k at level 200,
   format "'[v' 'let!'  ' x  ':='  c  'in' '/' k ']'").
Notation "c ';;;' k" := (bind c (λ _, k))
  (at level 100, k at level 200, right associativity).

(** [for x in xs: acc = body(acc, x)] *)
Fixpoint for_each {S A B} (xs : list A) (body : B → A → Py S B) (acc : B)
  : Py S B :=
  match xs with
  | [] => ret acc
  | x :: xs' => let! acc' := body acc x in for_each xs' body acc'
  end.

(** ** float64 *)

Definition float_of_bool (b : bool) : float := if b then 1%float else 0%float.

(** [a > b] on float64: false as soon as one side is NaN. *)
Definition float_gt (a b : float) : bool := PrimFloat.ltb b a.

(** The float64 nearest to an integer (ties to even), as [float(n)] gives
    for an [int] in range. *)
Definition Z_to_float (n : Z) : float :=
  SF2Prim (binary_normalize prec emax n 0 false).

(** The exact value of a finite float64, as a rational. *)
Definition float_to_Q (x : float) : option Q :=
  match Prim2SF x with
  | S754_zero _ => Some 0%Q
  | S754_finite s m e =>
      let v := match e with
               | Zneg p => Qmake (Zpos m) (2 ^ p)%positive
               | _ => inject_Z (Zpos m * 2 ^ e)
               end in
      Some (if s then Qopp v else v)
  | _ => None
  end.

(** Python 3 [a / b] on two [int]s: the float64 nearest to the exact quotient
    (CPython's [long_true_divide]), [ZeroDivisionError] for [b = 0],
    [OverflowError] when the quotient is beyond the float64 range. *)
Definition int_truediv (a b : Z) : outcome float :=
  match b with
  | 0 => Raise ZeroDivisionError
  | _ =>
      let sign := xorb (a <? 0) (b <? 0) in
      match a with
      | 0 => Ok (SF2Prim (S754_zero sign))
      | _ =>
          let '(q, e, l) :=
            SFdiv_core_binary prec emax (Z.abs a) 0 (Z.abs b) 0 in
          match binary_round_aux prec emax sign q e l with
          | S754_infinity _ => Raise OverflowError
          | r => Ok (SF2Prim r)
          end
      end
  end.

(** [math.sqrt]: [ValueError] below zero, NaN for NaN. *)
Definition math_sqrt (x : float) : outcome float :=
  if PrimFloat.ltb x 0%float then Raise (ValueError "math domain error")
  else Ok (PrimFloat.sqrt x).

(** ** pandas: Series and DataFrame

    A Series is a row index and one value per row.  A DataFrame is a row
    index and its columns in order, each a label and the float64 values of
    the rows; every column of a frame has one value per row ([frame_wf]).
    The frames this module is written for hold the California housing table,
    where every label it asks for names one column ([has_columns]). *)

Record Series (A : Type) : Type := mkSeries
  { s_index : list Z; s_values : list A }.
Arguments mkSeries {A} s_index s_values.
Arguments s_index {A} s.
Arguments s_values {A} s.

Record DataFrame : Type := mkFrame
  { df_index : list Z; df_columns : list (string * list float) }.

Definition labels (df : DataFrame) : list string := (df_columns df).*1.

Definition frame_wf (df : DataFrame) : Prop :=
  Forall (λ c, length c.2 = length (df_index df)) (df_columns df).

(** The columns carrying a label, in frame order. *)
Definition columns_named (name : string) (cols : list (string * list float))
  : list (string * list float) :=
  filter (λ c, c.1 = name) cols.

(** The values of the column carrying [name], when exactly one does. *)
Definition column (df : DataFrame) (name : string) : option (list float) :=
  match columns_named name (df_columns df) with
  | [c] => Some c.2
  | _ => None
  end.

(** The frame contains the columns [names]: each names one column. *)
Definition has_columns (df : DataFrame) (names : list string) : Prop :=
  Forall (λ name, is_Some (column df name)) names.

(** Frames live on a heap; a Python variable holds a reference. *)
Abbreviation loc := positive (only parsing).
Abbreviation Heap := (gmap loc DataFrame) (only parsing).

Definition deref (r : loc) : Py Heap DataFrame :=
  λ h, match h !! r with
       | Some df => (h, Ok df)
       | None => (h, Raise (OutsideModel "dangling reference"))
       end.

Definition alloc (df : DataFrame) : Py Heap loc :=
  λ h, let r := fresh (dom h) in (<[r := df]> h, Ok r).

Definition store (r : loc) (df : DataFrame) : Py Heap unit :=
  λ h, (<[r := df]> h, Ok tt).

(** [pd.DataFrame()] *)
Definition pd_DataFrame : Py Heap loc := alloc (mkFrame [] []).

(** [df[name]]: the column as a Series over the frame's index; [KeyError]
    when no column carries the label.  (For a label carried by several
    columns pandas returns a frame; that case is outside the model.) *)
Definition frame_getitem (df : DataFrame) (name : string)
  : outcome (Series float) :=
  match columns_named name (df_columns df) with
  | [] => Raise (KeyError [name])
  | [c] => Ok (mkSeries (df_index df) c.2)
  | _ => Raise (OutsideModel "label carried by several columns")
  end.

Definition df_getitem (r : loc) (name : string) : Py Heap (Series float) :=
  let! df := deref r in lift (frame_getitem df name).

(** [df[[n1, ..., nk]]]: a new frame with, for each requested label in turn,
    the columns carrying it; [KeyError] with the labels that no column
    carries. *)
Definition frame_getitem_list (df : DataFrame) (names : list string)
  : outcome DataFrame :=
  match filter (λ n, n ∉ labels df) names with
  | [] => Ok (mkFrame (df_index df)
                (names ≫= λ n, columns_named n (df_columns df)))
  | missing => Raise (KeyError missing)
  end.

Definition df_getitem_list (r : loc) (names : list string) : Py Heap loc :=
  let! df := deref r in
  let! sel := lift (frame_getitem_list df names) in
  alloc sel.

(** [df.copy()]: a new object with the same index and columns. *)
Definition df_copy (r : loc) : Py Heap loc :=
  let! df := deref r in alloc df.

(** [a / b] on two Series.  pandas aligns the operands on their labels; two
    columns of one frame have the same index and are divided row by row,
    which is the only case the module produces. *)
Definition series_truediv (a b : Series float) : outcome (Series float) :=
  if decide (s_index a = s_index b)
  then Ok (mkSeries (s_index a) (zip_with PrimFloat.div (s_values a) (s_values b)))
  else Raise (OutsideModel "alignment of two different indexes").

(** [s > threshold] and [s.astype(float)] *)
Definition series_gt (s : Series float) (threshold : float) : Series bool :=
  mkSeries (s_index s) ((λ v, float_gt v threshold) <$> s_values s).

Definition series_astype_float (s : Series bool) : Series float :=
  mkSeries (s_index s) (float_of_bool <$> s_values s).

(** The value of a Series at a row label. *)
Definition series_at (s : Series float) (label : Z) : option float :=
  (list_find (λ p, p.1 = label) (zip (s_index s) (s_values s))) ≫= λ ip, Some ip.2.2.

(** [s.reindex(target)]: the values in the order of [target], NaN where [s]
    has no such label; [ValueError] when the labels of [s] repeat. *)
Definition series_reindex (s : Series float) (target : list Z)
  : outcome (list float) :=
  if decide (s_index s = target) then Ok (s_values s)
  else if decide (NoDup (s_index s))
  then Ok ((λ l, default PrimFloat.nan (series_at s l)) <$> target)
  else Raise (ValueError "cannot reindex on an axis with duplicate labels").

(** Writing the values of a column: every column carrying the label takes
    them; a new label is added as the last column. *)
Definition set_column (name : string) (vals : list float)
  (cols : list (string * list float)) : list (string * list float) :=
  if decide (name ∈ cols.*1)
  then (λ c, if decide (c.1 = name) then (name, vals) else c) <$> cols
  else cols ++ [(name, vals)].

(** [df[name] = s].  A frame without rows takes the index of [s] (its
    columns, if any, become NaN); otherwise [s] is reindexed to the frame. *)
Definition frame_setitem (df : DataFrame) (name : string) (s : Series float)
  : outcome DataFrame :=
  match df_index df with
  | [] =>
      let blank := replicate (length (s_index s)) PrimFloat.nan in
      Ok (mkFrame (s_index s)
            (set_column name (s_values s)
               ((λ c, (c.1, blank)) <$> df_columns df)))
  | _ =>
      match series_reindex s (df_index df) with
      | Ok vals => Ok (mkFrame (df_index df) (set_column name vals (df_columns df)))
      | Raise e => Raise e
      end
  end.

Definition df_setitem (r : loc) (name : string) (s : Series float)
  : Py Heap unit :=
  let! df := deref r in
  let! df' := lift (frame_setitem df name s) in
  store r df'.

(** ** The module: features and targets *)

Definition feature_names : list string :=
  ["latitude"; "longitude"; "housing_median_age"; "total_rooms";
   "total_bedrooms"; "population"; "households"; "median_income"].

Definition preprocess_features (california_housing_df : loc) : Py Heap loc :=
  let! selected_features := df_getitem_list california_housing_df feature_names in
  let! processed_features := df_copy selected_features in
  (* Create a synthetic feature. *)
  let! total_rooms := df_getitem california_housing_df "total_rooms" in
  let! population := df_getitem california_housing_df "population" in
  let! rooms_per_person := lift (series_truediv total_rooms population) in
  df_setitem processed_features "rooms_per_person" rooms_per_person;;;
  ret processed_features.

(** The default of the [threshold] parameter, as the float64 that the
    comparison with a float64 column uses. *)
Definition default_threshold : float := 265000%float.

Definition preprocess_targets (california_housing_df : loc) (threshold : float)
  : Py Heap loc :=
  let! output_targets := pd_DataFrame in
  (* Create a boolean categorical feature representing whether the
     median_house_value is above a set threshold. *)
  let! median_house_value := df_getitem california_housing_df "median_house_value" in
  df_setitem output_targets "median_house_value_is_high"
    (series_astype_float (series_gt median_house_value threshold));;;
  ret output_targets.

(** The frame [preprocess_features] builds from a frame [df] whose rooms and
    population columns are [rooms] and [pop]. *)
Definition features_frame (df : DataFrame) (rooms pop : list float) : DataFrame :=
  mkFrame (df_index df)
    ((feature_names ≫= λ n, columns_named n (df_columns df)) ++
     [("rooms_per_person", zip_with PrimFloat.div rooms pop)]).

(** The frame [preprocess_targets] builds from the price column. *)
Definition targets_frame (index : list Z) (prices : list float)
  (threshold : float) : DataFrame :=
  mkFrame index
    [("median_house_value_is_high",
      (λ p, float_of_bool (float_gt p threshold)) <$> prices)].

(** The frame a call returns, or the exception it raises. *)
Definition returned_frame (run : gmap loc DataFrame * outcome loc)
  : outcome DataFrame :=
  match run.2 with
  | Ok r => match run.1 !! r with
            | Some df => Ok df
            | None => Raise (OutsideModel "dangling reference")
            end
  | Raise e => Raise e
  end.


(** ** TensorFlow feature columns

    [tf.feature_column.numeric_column(key)] builds a named tuple; with the
    defaults this module leaves in place its shape is [(1,)] and its dtype
    [float32] (its [default_value] and [normalizer_fn] are [None] and are left
    out).  Named tuples are compared and hashed field by field, which is what
    lets a Python [set] merge two columns built from one name. *)

Inductive DType : Type := tf_float32 | tf_float64 | tf_int64.

Record NumericColumn : Type := mkNumericColumn
  { key : string; shape : list Z; dtype : DType }.

Global Instance DType_eq_dec : EqDecision DType.
Proof. solve_decision. Defined.

Global Instance DType_countable : Countable DType :=
  inj_countable'
    (λ d, match d with tf_float32 => 0%nat | tf_float64 => 1%nat | tf_int64 => 2%nat end)
    (λ n, match n with O => tf_float32 | S O => tf_float64 | _ => tf_int64 end)
    (λ d, match d with tf_float32 | tf_float64 | tf_int64 => eq_refl end).

Global Instance NumericColumn_eq_dec : EqDecision NumericColumn.
Proof. solve_decision. Defined.

Global Instance NumericColumn_countable : Countable NumericColumn :=
  inj_countable'
    (λ c, (key c, shape c, dtype c))
    (λ t, mkNumericColumn t.1.1 t.1.2 t.2)
    (λ c, match c with mkNumericColumn _ _ _ => eq_refl end).

Definition numeric_column (key : string) : NumericColumn :=
  mkNumericColumn key [1] tf_float32.

(** [set([numeric_column(f) for f in input_features])].  Iterating a frame
    yields its labels, so the argument is the list of names iterated. *)
Definition construct_feature_columns (input_features : list string)
  : gset NumericColumn :=
  list_to_set (numeric_column <$> input_features).

(** ** The input pipeline *)

Inductive Dataset : Type :=
  | from_tensor_slices (features : list (string * list float)) (targets : DataFrame)
  | ds_batch (ds : Dataset) (batch_size : Z)
  | ds_repeat (ds : Dataset) (count : option Z)
  | ds_shuffle (ds : Dataset) (buffer_size : Z).

(** The tensors [ds.make_one_shot_iterator().get_next()] stands for. *)
Inductive Tensors : Type := get_next (ds : Dataset).

Definition my_input_fn (features targets : DataFrame) (batch_size : Z)
  (shuffle : bool) (num_epochs : option Z) : Tensors :=
  (* Convert pandas data into a dict of np arrays. *)
  let features := df_columns features in
  (* Construct a dataset, and configure batching/repeating. *)
  let ds := from_tensor_slices features targets in
  let ds := ds_repeat (ds_batch ds batch_size) num_epochs in
  (* Shuffle the data, if specified. *)
  let ds := if shuffle then ds_shuffle ds 10000 else ds in
  (* Return the next batch of data. *)
  get_next ds.

(** ** The estimator framework, the metrics and the plot *)

Inductive EstimatorKind : Type := LinearRegressor | LinearClassifier.

Inductive Optimizer : Type :=
  | GradientDescentOptimizer (learning_rate : float)
  | clip_gradients_by_norm (optimizer : Optimizer) (clip_norm : float).

(** An estimator object: what its constructor was given, and the parameters
    fitted so far. *)
Record Estimator (Params : Type) : Type := mkEstimator
  { est_kind : EstimatorKind;
    est_feature_columns : gset NumericColumn;
    est_optimizer : Optimizer;
    est_params : Params }.
Arguments mkEstimator {Params}.
Arguments est_kind {Params}.
Arguments est_feature_columns {Params}.
Arguments est_optimizer {Params}.
Arguments est_params {Params}.

(** One item of [estimator.predict(...)]: a dict from output name to array. *)
Abbreviation Prediction := (gmap string (list float)) (only parsing).

(** What the module calls and does not define.  Every operation may raise. *)
Class Library : Type := {
  Params : Type;
  (* tf.estimator.LinearRegressor(...), tf.estimator.LinearClassifier(...) *)
  estimator_init : EstimatorKind → gset NumericColumn → Optimizer → outcome Params;
  (* estimator.train(input_fn=..., steps=...): the parameters after the call *)
  estimator_train : Estimator Params → (unit → Tensors) → float → outcome Params;
  (* estimator.predict(input_fn), consumed to its end *)
  estimator_predict : Estimator Params → (unit → Tensors) → outcome (list Prediction);
  (* sklearn.metrics.mean_squared_error(y_true, y_pred) *)
  mean_squared_error : list float → DataFrame → outcome float;
  (* sklearn.metrics.log_loss(y_true, y_pred) *)
  log_loss : DataFrame → list (list float) → outcome float
}.

Inductive Line : Type :=
  | Text (s : string)
  (* "  period {:2d} : {:.2f}".format(period, value) *)
  | PeriodLine (period : Z) (value : float).

Inductive PlotCall : Type :=
  | plt_figure
  | plt_ylabel (s : string)
  | plt_xlabel (s : string)
  | plt_title (s : string)
  | plt_tight_layout
  | plt_plot (ys : list float) (label : string)
  | plt_legend.

Section Training.
Context {L : Library}.

(** The calls that leave the module, in the order they are made. *)
Inductive Event : Type :=
  | Call_estimator (kind : EstimatorKind) (feature_columns : gset NumericColumn)
      (optimizer : Optimizer)
  | Call_train (est : Estimator Params) (input_fn : unit → Tensors) (steps : float)
  | Call_predict (est : Estimator Params) (input_fn : unit → Tensors)
  | Call_mean_squared_error (y_true : list float) (y_pred : DataFrame)
  | Call_log_loss (y_true : DataFrame) (y_pred : list (list float))
  | Call_print (line : Line)
  | Call_plt (call : PlotCall).

Definition emit (ev : Event) : Py (list Event) unit :=
  λ trace, (trace ++ [ev], Ok tt).

Definition new_estimator (kind : EstimatorKind)
  (feature_columns : gset NumericColumn) (optimizer : Optimizer)
  : Py (list Event) (Estimator Params) :=
  emit (Call_estimator kind feature_columns optimizer);;;
  let! params := lift (estimator_init kind feature_columns optimizer) in
  ret (mkEstimator kind feature_columns optimizer params).

(** [est.train(...)] changes the object in place: the variable that holds
    it holds the trained estimator afterwards. *)
Definition train (est : Estimator Params) (input_fn : unit → Tensors)
  (steps : float) : Py (list Event) (Estimator Params) :=
  emit (Call_train est input_fn steps);;;
  let! params := lift (estimator_train est input_fn steps) in
  ret (mkEstimator (est_kind est) (est_feature_columns est) (est_optimizer est) params).

Definition predict (est : Estimator Params) (input_fn : unit → Tensors)
  : Py (list Event) (list Prediction) :=
  emit (Call_predict est input_fn);;;
  lift (estimator_predict est input_fn).

Definition metrics_mean_squared_error (y_true : list float) (y_pred : DataFrame)
  : Py (list Event) float :=
  emit (Call_mean_squared_error y_true y_pred);;;
  lift (mean_squared_error y_true y_pred).

Definition metrics_log_loss (y_true : DataFrame) (y_pred : list (list float))
  : Py (list Event) float :=
  emit (Call_log_loss y_true y_pred);;;
  lift (log_loss y_true y_pred).

Definition print (line : Line) : Py (list Event) unit := emit (Call_print line).
Definition plt (call : PlotCall) : Py (list Event) unit := emit (Call_plt call).

(** [item[name]] on a dict and [array[0]] *)
Definition dict_getitem (item : Prediction) (name : string) : outcome (list float) :=
  match item !! name with
  | Some v => Ok v
  | None => Raise (KeyError [name])
  end.

Definition array_first (a : list float) : outcome float :=
  match a with
  | x :: _ => Ok x
  | [] => Raise (IndexError "index 0 is out of bounds")
  end.

(** [[f(item) for item in items]] *)
Fixpoint comprehension {A B} (f : A → outcome B) (items : list A)
  : outcome (list B) :=
  match items with
  | [] => Ok []
  | item :: rest =>
      match f item with
      | Ok b => match comprehension f rest with
                | Ok bs => Ok (b :: bs)
                | Raise e => Raise e
                end
      | Raise e => Raise e
      end
  end.

(** [range(a, b)] *)
Definition range (a b : Z) : list Z :=
  (λ i, a + Z.of_nat i) <$> seq 0 (Z.to_nat (b - a)).

Definition periods : Z := 10.

(** The variables the loop of [train_linear_regressor_model] updates:
    [linear_regressor], [training_rmse], [validation_rmse]. *)
Definition LoopState : Type := Estimator Params * list float * list float.

Definition regressor_period (steps_per_period : float)
  (training_input_fn predict_training_input_fn predict_validation_input_fn
     : unit → Tensors)
  (training_targets validation_targets : DataFrame)
  (vars : LoopState) (period : Z) : Py (list Event) LoopState :=
  let '(linear_regressor, training_rmse, validation_rmse) := vars in
  (* Training the model, starting from the prior state *)
  let! linear_regressor :=
    train linear_regressor training_input_fn steps_per_period in
  (* Take a break and compute predictions. *)
  let! training_predictions :=
    predict linear_regressor predict_training_input_fn in
  let! training_predictions :=
    lift (comprehension
            (λ item, match dict_getitem item "predictions" with
                     | Ok a => array_first a
                     | Raise e => Raise e
                     end) training_predictions) in
  let! validation_predictions :=
    predict linear_regressor predict_validation_input_fn in
  let! validation_predictions :=
    lift (comprehension
            (λ item, match dict_getitem item "predictions" with
                     | Ok a => array_first a
                     | Raise e => Raise e
                     end) validation_predictions) in
  (* Compute training and validation loss. *)
  let! training_mse :=
    metrics_mean_squared_error training_predictions training_targets in
  let! training_root_mean_squared_error := lift (math_sqrt training_mse) in
  let! validation_mse :=
    metrics_mean_squared_error validation_predictions validation_targets in
  let! validation_root_mean_squared_error := lift (math_sqrt validation_mse) in
  (* Occasionally print the current loss. *)
  print (PeriodLine period training_root_mean_squared_error);;;
  (* Add the loss metrics from this period to our list. *)
  ret (linear_regressor,
       training_rmse ++ [training_root_mean_squared_error],
       validation_rmse ++ [validation_root_mean_squared_error]).

Definition train_linear_regressor_model (learning_rate : float) (steps : Z)
  (batch_size : Z)
  (training_examples training_targets validation_examples validation_targets
     : DataFrame)
  : Py (list Event) (Estimator Params) :=
  let! steps_per_period := lift (int_truediv steps periods) in
  (* Create a linear regressor object. *)
  let my_optimizer := GradientDescentOptimizer learning_rate in
  let my_optimizer := clip_gradients_by_norm my_optimizer 5 in
  let! linear_regressor :=
    new_estimator LinearRegressor
      (construct_feature_columns (labels training_examples)) my_optimizer in
  (* Create input functions *)
  let training_input_fn := λ _ : unit,
    my_input_fn training_examples training_targets batch_size true None in
  let predict_training_input_fn := λ _ : unit,
    my_input_fn training_examples training_targets 1 false (Some 1) in
  let predict_validation_input_fn := λ _ : unit,
    my_input_fn validation_examples validation_targets 1 false (Some 1) in
  (* Train the model, but do so inside a loop so that we can periodically
     assess loss metrics. *)
  print (Text "Training model...");;;
  print (Text "RMSE (on training data):");;;
  let training_rmse := [] in
  let validation_rmse := [] in
  let! '(linear_regressor, training_rmse, validation_rmse) :=
    for_each (range 0 periods)
      (regressor_period steps_per_period training_input_fn
         predict_training_input_fn predict_validation_input_fn
         training_targets validation_targets)
      (linear_regressor, training_rmse, validation_rmse) in
  print (Text "Model training finished.");;;
  (* Output a graph of loss metrics over periods. *)
  plt (plt_ylabel "RMSE");;;
  plt (plt_xlabel "Periods");;;
  plt (plt_title "Root Mean Squared Error vs. Periods");;;
  plt plt_tight_layout;;;
  plt (plt_plot training_rmse "training");;;
  plt (plt_plot validation_rmse "validation");;;
  plt plt_legend;;;
  ret linear_regressor.

(** Logistic regression: [linear_classifier], [training_log_losses],
    [validation_log_losses]. *)
Definition classifier_period (steps_per_period : float)
  (training_input_fn predict_training_input_fn predict_validation_input_fn
     : unit → Tensors)
  (training_targets validation_targets : DataFrame)
  (vars : LoopState) (period : Z) : Py (list Event) LoopState :=
  let '(linear_classifier, training_log_losses, validation_log_losses) := vars in
  (* Training the model, starting from the prior state *)
  let! linear_classifier :=
    train linear_classifier training_input_fn steps_per_period in
  (* Take a break and compute predictions. *)
  let! training_probabilities :=
    predict linear_classifier predict_training_input_fn in
  let! training_probabilities :=
    lift (comprehension (λ item, dict_getitem item "probabilities")
            training_probabilities) in
  let! validation_probabilities :=
    predict linear_classifier predict_validation_input_fn in
  let! validation_probabilities :=
    lift (comprehension (λ item, dict_getitem item "probabilities")
            validation_probabilities) in
  (* Compute training and validation loss. *)
  let! training_log_loss :=
    metrics_log_loss training_targets training_probabilities in
  let! validation_log_loss :=
    metrics_log_loss validation_targets validation_probabilities in
  (* Occasionally print the current loss. *)
  print (PeriodLine period training_log_loss);;;
  (* Add the loss metrics from this period to our list. *)
  ret (linear_classifier,
       training_log_losses ++ [training_log_loss],
       validation_log_losses ++ [validation_log_loss]).

Definition train_linear_classifier_model (learning_rate : float) (steps : Z)
  (batch_size : Z)
  (training_examples training_targets validation_examples validation_targets
     : DataFrame)
  : Py (list Event) (Estimator Params) :=
  let! steps_per_period := lift (int_truediv steps periods) in
  (* Create a linear classifier object. *)
  let my_optimizer := GradientDescentOptimizer learning_rate in
  let my_optimizer := clip_gradients_by_norm my_optimizer 5 in
  let! linear_classifier :=
    new_estimator LinearClassifier
      (construct_feature_columns (labels training_examples)) my_optimizer in
  (* Create input functions *)
  let training_input_fn := λ _ : unit,
    my_input_fn training_examples training_targets batch_size true None in
  let predict_training_input_fn := λ _ : unit,
    my_input_fn training_examples training_targets 1 false (Some 1) in
  let predict_validation_input_fn := λ _ : unit,
    my_input_fn validation_examples validation_targets 1 false (Some 1) in
  (* Train the model, but do so inside a loop so that we can periodically
     assess loss metrics. *)
  print (Text "Training model...");;;
  print (Text "LogLoss (on training data):");;;
  let training_log_losses := [] in
  let validation_log_losses := [] in
  let! '(linear_classifier, training_log_losses, validation_log_losses) :=
    for_each (range 0 periods)
      (classifier_period steps_per_period training_input_fn
         predict_training_input_fn predict_validation_input_fn
         training_targets validation_targets)
      (linear_classifier, training_log_losses, validation_log_losses) in
  print (Text "Model training finished.");;;
  (* Output a graph of loss metrics over periods. *)
  plt plt_figure;;;
  plt (plt_ylabel "LogLoss");;;
  plt (plt_xlabel "Periods");;;
  plt (plt_title "LogLoss vs. Periods");;;
  plt plt_tight_layout;;;
  plt (plt_plot training_log_losses "training");;;
  plt (plt_plot validation_log_losses "validation");;;
  plt plt_legend;;;
  ret linear_classifier.

(** *** Reading a trace *)

Inductive Step : Type :=
  | Construct | TrainStep | PredictStep | ScoreStep | LogStep | PlotStep.

Definition step_of (ev : Event) : Step :=
  match ev with
  | Call_estimator _ _ _ => Construct
  | Call_train _ _ _ => TrainStep
  | Call_predict _ _ => PredictStep
  | Call_mean_squared_error _ _ | Call_log_loss _ _ => ScoreStep
  | Call_print _ => LogStep
  | Call_plt _ => PlotStep
  end.

(** The [steps] argument of every call of [train], in order. *)
Definition train_requests (trace : list Event) : list float :=
  omap (λ ev, match ev with Call_train _ _ steps => Some steps | _ => None end) trace.

(** The lines printed and the calls made on the plot, in order. *)
Definition printed (trace : list Event) : list Line :=
  omap (λ ev, match ev with Call_print line => Some line | _ => None end) trace.

Definition plotted (trace : list Event) : list PlotCall :=
  omap (λ ev, match ev with Call_plt call => Some call | _ => None end) trace.

Definition raised {A} (o : outcome A) : option exn :=
  match o with Ok _ => None | Raise e => Some e end.

(** The exception a recorded call raised, if it raised. *)
Definition call_failure (ev : Event) : option exn :=
  match ev with
  | Call_estimator kind feature_columns optimizer =>
      raised (estimator_init kind feature_columns optimizer)
  | Call_train est input_fn steps => raised (estimator_train est input_fn steps)
  | Call_predict est input_fn => raised (estimator_predict est input_fn)
  | Call_mean_squared_error y_true y_pred => raised (mean_squared_error y_true y_pred)
  | Call_log_loss y_true y_pred => raised (log_loss y_true y_pred)
  | Call_print _ | Call_plt _ => None
  end.

(** The estimator after [n] more calls of [train] with one input and one
    number of steps. *)
Fixpoint fitted_after (n : nat) (est : Estimator Params)
  (input_fn : unit → Tensors) (steps : float) : outcome (Estimator Params) :=
  match n with
  | O => Ok est
  | S n' =>
      match estimator_train est input_fn steps with
      | Ok params =>
          fitted_after n'
            (mkEstimator (est_kind est) (est_feature_columns est)
               (est_optimizer est) params)
            input_fn steps
      | Raise e => Raise e
      end
  end.

(** A run in which no call of the library raises, every prediction item has
    a non-empty ['predictions'] array and a ['probabilities'] array, and no
    mean squared error is below zero. *)
Record library_returns : Prop := {
  init_returns : ∀ kind feature_columns optimizer,
    is_ok (estimator_init kind feature_columns optimizer) = true;
  train_returns : ∀ est input_fn steps,
    is_ok (estimator_train est input_fn steps) = true;
  predict_returns : ∀ est input_fn,
    ∃ items, estimator_predict est input_fn = Ok items
      ∧ Forall (λ item : Prediction,
                  (∃ x xs, item !! "predictions" = Some (x :: xs))
                  ∧ is_Some (item !! "probabilities")) items;
  mean_squared_error_returns : ∀ y_true y_pred,
    ∃ mse, mean_squared_error y_true y_pred = Ok mse
      ∧ PrimFloat.ltb mse 0%float = false;
  log_loss_returns : ∀ y_true y_pred, is_ok (log_loss y_true y_pred) = true
}.

(** What [n] periods leave behind: the events [evs] they add to the trace,
    the estimator [est] and the two histories [training] and [validation]. *)
Definition periods_done (n : nat) (steps_per_period : float)
  (training_input_fn : unit → Tensors) (est0 : Estimator Params)
  (evs : list Event) (est : Estimator Params) (training validation : list float)
  : Prop :=
  step_of <$> evs
    = mjoin (replicate n
               [TrainStep; PredictStep; PredictStep; ScoreStep; ScoreStep; LogStep])
  ∧ train_requests evs = replicate n steps_per_period
  ∧ printed evs = zip_with PeriodLine (range 0 (Z.of_nat n)) training
  ∧ plotted evs = []
  ∧ length training = n
  ∧ length validation = n
  ∧ fitted_after n est0 training_input_fn steps_per_period = Ok est.

(** A computation that catches nothing: run after calls that all returned,
    it either returns after calls that all returned, or raises, and then a
    call that raised can only have raised the exception that comes out. *)
Definition propagates {A} (c : Py (list Event) A) : Prop :=
  ∀ t, Forall (λ ev, call_failure ev = None) t →
    match c t with
    | (t', Ok _) => Forall (λ ev, call_failure ev = None) t'
    | (t', Raise e) => ∀ ev e', ev ∈ t' → call_failure ev = Some e' → e' = e
    end.

End Training.
Arguments library_returns : clear implicits.

(** The sum of the exact values of a list of finite floats. *)
Definition exact_sum (xs : list float) : option Q :=
  foldr (λ x acc, match float_to_Q x, acc with
                  | Some q, Some a => Some (Qred (q + a))
                  | _, _ => None
                  end) (Some 0%Q) xs.

(** Python's [sum(xs)] on floats: float64 additions from the left, from 0. *)
Definition float_sum (xs : list float) : float :=
  foldl PrimFloat.add 0%float xs.


(** ** Sample data

    Three rows in the shape of the California housing table, shuffled (the
    row labels are not in order); the second block has no inhabitants, the
    third is priced at the default threshold. *)

Definition sample_housing : DataFrame :=
  mkFrame [7; 3; 5]
    [("longitude", [-114.5; -114.25; -114.75]%float);
     ("latitude", [34.25; 34.5; 33.75]%float);
     ("housing_median_age", [15; 19; 17]%float);
     ("total_rooms", [5612; 7650; 720]%float);
     ("total_bedrooms", [1283; 1901; 174]%float);
     ("population", [1015; 0; 320]%float);
     ("households", [472; 463; 117]%float);
     ("median_income", [1.5; 1.75; 1.625]%float);
     ("median_house_value", [66900; 280100; 265000]%float)].

(** A heap on which the caller holds [sample_housing] at reference [1]. *)
Definition sample_heap : gmap loc DataFrame := {[ 1%positive := sample_housing ]}.

(** The prices of [sample_housing] next to other columns, on another heap. *)
Definition sample_prices : DataFrame :=
  mkFrame [7; 3; 5]
    [("median_house_value", [66900; 280100; 265000]%float);
     ("ocean_proximity", [1; 2; 3]%float)].

Definition sample_heap' : gmap loc DataFrame :=
  {[ 4%positive := sample_prices; 9%positive := sample_housing ]}.

(** A stand-in for the estimator framework: the fitted parameters count the
    calls of [train], three rows are predicted as 2.0 with probabilities
    (0.25, 0.75), and the metrics are constant. *)
Definition sample_targets : DataFrame :=
  mkFrame [7; 3; 5] [("median_house_value_is_high", [0; 1; 0]%float)].

Definition toy_items : list (gmap string (list float)) :=
  replicate 3 {[ "predictions" := [2%float];
                 "probabilities" := [0.25; 0.75]%float ]}.

Definition toy_library : Library := {|
  Params := nat;
  estimator_init _ _ _ := Ok 0%nat;
  estimator_train est _ _ := Ok (S (est_params est));
  estimator_predict _ _ := Ok toy_items;
  mean_squared_error _ _ := Ok 4%float;
  log_loss _ _ := Ok 0.5%float
|}.

(** A stand-in whose training fails, as training that diverges does. *)
Definition diverging_library : Library := {|
  Params := nat;
  estimator_init _ _ _ := Ok 0%nat;
  estimator_train _ _ _ := Raise (LibraryError "NanLossDuringTrainingError");
  estimator_predict _ _ := Ok toy_items;
  mean_squared_error _ _ := Ok 4%float;
  log_loss _ _ := Ok 0.5%float
|}.

(** The sample table without its [population] column. *)
Definition sample_unpopulated : DataFrame :=
  mkFrame [7; 3; 5]
    (filter (λ c, c.1 ≠ "population") (df_columns sample_housing)).
(** ** Definitions for further properties *)

(** ** More on the two frames *)

(** The frame [preprocess_features] returns, read off the columns of its
    argument. *)
Definition features_of (df : DataFrame) : DataFrame :=
  mkFrame (df_index df)
    (((λ name, (name, default [] (column df name))) <$> feature_names) ++
     [("rooms_per_person",
       zip_with PrimFloat.div (default [] (column df "total_rooms"))
         (default [] (column df "population")))]).

(** What a caller does with one table: the features, then the targets. *)
Definition sample_selected : DataFrame :=
  mkFrame [7; 3; 5]
    (filter (λ c, c.1 ≠ "median_house_value") (df_columns sample_housing)
     ++ [("ocean_proximity", [1; 2; 3]%float)]).

(** ** More on the training functions *)

(** The input a training function builds for [train]: batches of
    [batch_size] rows of the training frames, repeated without end, the
    batches shuffled through a buffer of 10000. *)
Definition training_pipeline (training_examples training_targets : DataFrame)
  (batch_size : Z) : Tensors :=
  get_next
    (ds_shuffle
       (ds_repeat
          (ds_batch
             (from_tensor_slices (df_columns training_examples) training_targets)
             batch_size)
          None)
       10000).

(** The input it builds for [predict]: the rows of the frames one by one, in
    order, once. *)
Definition prediction_pipeline (examples targets : DataFrame) : Tensors :=
  get_next
    (ds_repeat
       (ds_batch (from_tensor_slices (df_columns examples) targets) 1)
       (Some 1)).

Section TrainingMore.
Context {L : Library}.

(** Every event a computation adds to a trace satisfies [P]. *)
Definition keeps (P : Event → Prop) {A} (c : Py (list Event) A) : Prop :=
  ∀ t, Forall P t → Forall P (c t).1.

(** The calls a training function of the given kind may make on its
    arguments. *)
Definition expected_call (kind : EstimatorKind) (learning_rate : float)
  (steps batch_size : Z)
  (training_examples training_targets validation_examples validation_targets
     : DataFrame)
  (ev : Event) : Prop :=
  match ev with
  | Call_estimator k feature_columns optimizer =>
      k = kind
      ∧ feature_columns = construct_feature_columns (labels training_examples)
      ∧ optimizer
        = clip_gradients_by_norm (GradientDescentOptimizer learning_rate) 5
  | Call_train _ input_fn steps_per_period =>
      input_fn tt = training_pipeline training_examples training_targets batch_size
      ∧ int_truediv steps periods = Ok steps_per_period
  | Call_predict _ input_fn =>
      input_fn tt = prediction_pipeline training_examples training_targets
      ∨ input_fn tt = prediction_pipeline validation_examples validation_targets
  | Call_mean_squared_error _ y_pred =>
      kind = LinearRegressor
      ∧ (y_pred = training_targets ∨ y_pred = validation_targets)
  | Call_log_loss y_true _ =>
      kind = LinearClassifier
      ∧ (y_true = training_targets ∨ y_true = validation_targets)
  | Call_print _ | Call_plt _ => True
  end.


(** An estimator with new parameters. *)
Definition trained (est : Estimator Params) (params : Params) : Estimator Params :=
  mkEstimator (est_kind est) (est_feature_columns est) (est_optimizer est) params.

(** The estimator a variable holds after the calls of [train] of a trace
    were made on it. *)
Fixpoint estimator_after (est : Estimator Params) (evs : list Event)
  : Estimator Params :=
  match evs with
  | [] => est
  | Call_train _ input_fn steps :: rest =>
      match estimator_train est input_fn steps with
      | Ok params => estimator_after (trained est params) rest
      | Raise _ => estimator_after est rest
      end
  | _ :: rest => estimator_after est rest
  end.

(** Every call of [train] and of [predict] in the trace is made on the
    estimator as the calls of [train] before it left it. *)
Fixpoint threaded (est : Estimator Params) (evs : list Event) : Prop :=
  match evs with
  | [] => True
  | Call_train e input_fn steps :: rest =>
      e = est
      ∧ match estimator_train est input_fn steps with
        | Ok params => threaded (trained est params) rest
        | Raise _ => threaded est rest
        end
  | Call_predict e _ :: rest => e = est ∧ threaded est rest
  | _ :: rest => threaded est rest
  end.

(** What the metric calls of a trace returned, in order. *)
Definition scores (trace : list Event) : list float :=
  omap (λ ev, match ev with
              | Call_mean_squared_error y_true y_pred =>
                  match mean_squared_error y_true y_pred with
                  | Ok x => Some x
                  | Raise _ => None
                  end
              | Call_log_loss y_true y_pred =>
                  match log_loss y_true y_pred with
                  | Ok x => Some x
                  | Raise _ => None
                  end
              | _ => None
              end) trace.

(** A computation that makes no call after one that raised: run after calls
    that all returned, it returns after calls that all returned, or raises
    with at most its last call having raised. *)
Definition stops_at_failure {A} (c : Py (list Event) A) : Prop :=
  ∀ t, Forall (λ ev, call_failure ev = None) t →
    match c t with
    | (t', Ok _) => Forall (λ ev, call_failure ev = None) t'
    | (t', Raise _) => Forall (λ ev, call_failure ev = None) (removelast t')
    end.

End TrainingMore.

(** Two histories read period by period: training, validation, training,
    validation, and so on. *)
Definition interleave (training validation : list float) : list float :=
  mjoin (zip_with (λ a b, [a; b]) training validation).

(** A stand-in whose second prediction item is an empty dict. *)
Definition careless_library : Library := {|
  Params := nat;
  estimator_init _ _ _ := Ok 0%nat;
  estimator_train est _ _ := Ok (S (est_params est));
  estimator_predict _ _ :=
    Ok [ {[ "predictions" := [2%float]; "probabilities" := [0.25; 0.75]%float ]};
         ∅ ];
  mean_squared_error _ _ := Ok 4%float;
  log_loss _ _ := Ok 0.5%float
|}.

(** * Properties *)

(** ** The state monad *)

Lemma bind_ok {S A B} (c : Py S A) (k : A → Py S B) s s' a :
  c s = (s', Ok a) → bind c k s = k a s'.
Proof. intros E. unfold bind. by rewrite E. Qed.

Lemma bind_raise {S A B} (c : Py S A) (k : A → Py S B) s s' e :
  c s = (s', Raise e) → bind c k s = (s', Raise e).
Proof. intros E. unfold bind. by rewrite E. Qed.

(** ** Columns of a frame *)

Lemma columns_named_absent name (cols : list (string * list float)) :
  name ∉ cols.*1 → columns_named name cols = [].
Proof.
  unfold columns_named. induction cols as [|[n v] cols IH]; [done|].
  rewrite fmap_cons, not_elem_of_cons. intros [Hne Hnot]. simpl in Hne.
  rewrite filter_cons_False by (simpl; congruence). auto.
Qed.

Lemma columns_named_label name (cols : list (string * list float)) c :
  c ∈ columns_named name cols → c.1 = name ∧ c ∈ cols.
Proof. unfold columns_named. rewrite list_elem_of_filter. tauto. Qed.

Lemma column_named df name vals :
  column df name = Some vals → columns_named name (df_columns df) = [(name, vals)].
Proof.
  unfold column. intros H.
  destruct (columns_named name (df_columns df)) as [|[n v] [|]] eqn:E; try done.
  simpl in H. injection H as ->. f_equal.
  assert ((n, vals) ∈ columns_named name (df_columns df)) as Hin
    by (rewrite E; apply list_elem_of_here).
  apply columns_named_label in Hin as [Hn _]. simpl in Hn. by subst.
Qed.

Lemma column_label df name vals : column df name = Some vals → name ∈ labels df.
Proof.
  intros H%column_named.
  assert ((name, vals) ∈ columns_named name (df_columns df)) as Hin
    by (rewrite H; apply list_elem_of_here).
  apply columns_named_label in Hin as [_ Hin].
  unfold labels. apply list_elem_of_fmap. by exists (name, vals).
Qed.

Lemma frame_getitem_column df name vals :
  column df name = Some vals →
  frame_getitem df name = Ok (mkSeries (df_index df) vals).
Proof. intros H%column_named. unfold frame_getitem. by rewrite H. Qed.

Lemma frame_getitem_missing df name :
  name ∉ labels df → frame_getitem df name = Raise (KeyError [name]).
Proof.
  intros H. unfold frame_getitem. by rewrite columns_named_absent.
Qed.

Lemma has_columns_elem df names name :
  has_columns df names → name ∈ names → is_Some (column df name).
Proof. unfold has_columns. rewrite Forall_forall. auto. Qed.

Lemma has_columns_labels df names : has_columns df names → names ⊆ labels df.
Proof.
  intros H n Hn. destruct (has_columns_elem _ _ _ H Hn) as [v Hv].
  by eapply column_label.
Qed.

(** The labels of a selection are the requested labels. *)
Lemma selection_labels df names :
  has_columns df names →
  (names ≫= λ n, columns_named n (df_columns df)).*1 = names.
Proof.
  induction 1 as [|n names [v Hv] _ IH]; [done|].
  rewrite bind_cons, fmap_app, (column_named _ _ _ Hv).
  simpl. by f_equal.
Qed.

Lemma selection_Forall (P : string * list float → Prop) cols names :
  Forall P cols → Forall P (names ≫= λ n, columns_named n cols).
Proof.
  rewrite !Forall_forall. intros H c Hc.
  apply list_elem_of_bind in Hc as (n & Hc & _).
  apply columns_named_label in Hc as [_ Hc]. auto.
Qed.

Lemma frame_getitem_list_present df names :
  names ⊆ labels df →
  frame_getitem_list df names =
    Ok (mkFrame (df_index df) (names ≫= λ n, columns_named n (df_columns df))).
Proof.
  intros Hsub. unfold frame_getitem_list.
  replace (filter (λ n, n ∉ labels df) names) with (@nil string); [done|].
  symmetry. induction names as [|n names IH]; [done|].
  rewrite filter_cons_False.
  - apply IH. intros x Hx. apply Hsub. by apply list_elem_of_further.
  - intros Hn. apply Hn, Hsub, list_elem_of_here.
Qed.

Lemma frame_getitem_list_missing df names n :
  n ∈ names → n ∉ labels df →
  ∃ missing, frame_getitem_list df names = Raise (KeyError missing) ∧ n ∈ missing.
Proof.
  intros Hin Hnot. unfold frame_getitem_list.
  assert (n ∈ filter (λ n, n ∉ labels df) names) as Hf
    by (by apply list_elem_of_filter).
  destruct (filter (λ n, n ∉ labels df) names) as [|m ms] eqn:E.
  - by apply elem_of_nil in Hf.
  - eauto.
Qed.

Lemma set_column_new name vals (cols : list (string * list float)) :
  name ∉ cols.*1 → set_column name vals cols = cols ++ [(name, vals)].
Proof. intros H. unfold set_column. by rewrite decide_False. Qed.

(** Writing a Series that has the index of the frame stores its values. *)
Lemma blank_columns (cols : list (string * list float)) :
  Forall (λ c, length c.2 = 0%nat) cols →
  (λ c : string * list float, (c.1, @nil float)) <$> cols = cols.
Proof.
  induction 1 as [|[n v] cols Hv _ IH]; [done|].
  rewrite fmap_cons, IH. simpl in *. by destruct v.
Qed.

Lemma frame_setitem_same_index df name s :
  s_index s = df_index df →
  Forall (λ c, length c.2 = length (df_index df)) (df_columns df) →
  frame_setitem df name s =
    Ok (mkFrame (df_index df) (set_column name (s_values s) (df_columns df))).
Proof.
  intros Hidx Hlen. unfold frame_setitem.
  destruct (df_index df) as [|i idx] eqn:E.
  - rewrite Hidx. cbn [length replicate]. by rewrite blank_columns.
  - unfold series_reindex. by rewrite decide_True.
Qed.

(** ** The heap *)

Lemma deref_Some (h : Heap) r df : h !! r = Some df → deref r h = (h, Ok df).
Proof. intros H. unfold deref. by rewrite H. Qed.

Lemma fresh_ne (h : Heap) r df : h !! r = Some df → r ≠ fresh (dom h).
Proof.
  intros H ->. apply (is_fresh (dom h)). apply elem_of_dom. eauto.
Qed.

Lemma alloc_preserves (h : Heap) df r old :
  h !! r = Some old → <[fresh (dom h) := df]> h !! r = Some old.
Proof.
  intros H. rewrite lookup_insert_ne; [done|].
  apply not_eq_sym. by eapply fresh_ne.
Qed.

Lemma alloc_run (h : Heap) df :
  alloc df h = (<[fresh (dom h) := df]> h, Ok (fresh (dom h))).
Proof. done. Qed.

Lemma df_getitem_run (h : Heap) r df name :
  h !! r = Some df → df_getitem r name h = (h, frame_getitem df name).
Proof.
  intros H. unfold df_getitem. by rewrite (bind_ok _ _ _ _ _ (deref_Some _ _ _ H)).
Qed.

Lemma df_getitem_list_run (h : Heap) r df names :
  h !! r = Some df →
  df_getitem_list r names h =
    match frame_getitem_list df names with
    | Ok sel => (<[fresh (dom h) := sel]> h, Ok (fresh (dom h)))
    | Raise e => (h, Raise e)
    end.
Proof.
  intros H. unfold df_getitem_list.
  rewrite (bind_ok _ _ _ _ _ (deref_Some _ _ _ H)).
  unfold bind, lift. by destruct (frame_getitem_list df names).
Qed.

Lemma df_copy_run (h : Heap) r df :
  h !! r = Some df →
  df_copy r h = (<[fresh (dom h) := df]> h, Ok (fresh (dom h))).
Proof.
  intros H. unfold df_copy. by rewrite (bind_ok _ _ _ _ _ (deref_Some _ _ _ H)).
Qed.

Lemma df_setitem_run (h : Heap) r df name s :
  h !! r = Some df →
  df_setitem r name s h =
    match frame_setitem df name s with
    | Ok df' => (<[r := df']> h, Ok tt)
    | Raise e => (h, Raise e)
    end.
Proof.
  intros H. unfold df_setitem.
  rewrite (bind_ok _ _ _ _ _ (deref_Some _ _ _ H)).
  unfold bind, lift, store. by destruct (frame_setitem df name s).
Qed.

(** ** [preprocess_targets], step by step *)

Lemma frame_setitem_blank name s :
  frame_setitem (mkFrame [] []) name s =
    Ok (mkFrame (s_index s) [(name, s_values s)]).
Proof. done. Qed.

Lemma preprocess_targets_run (h : Heap) r df threshold :
  h !! r = Some df →
  preprocess_targets r threshold h =
    let r' := fresh (dom h) in
    match frame_getitem df "median_house_value" with
    | Ok s => (<[r' := targets_frame (s_index s) (s_values s) threshold]> h, Ok r')
    | Raise e => (<[r' := mkFrame [] []]> h, Raise e)
    end.
Proof.
  intros H. unfold preprocess_targets, pd_DataFrame.
  rewrite (bind_ok _ _ _ _ _ (alloc_run _ _)).
  set (r' := fresh (dom h)). set (h1 := <[r' := _]> h).
  assert (h1 !! r = Some df) as H1 by by apply alloc_preserves.
  unfold bind at 1. rewrite (df_getitem_run _ _ _ _ H1). simpl.
  destruct (frame_getitem df "median_house_value") as [s|e]; [|done].
  assert (h1 !! r' = Some (mkFrame [] [])) as Hr' by apply lookup_insert_eq.
  unfold bind. rewrite (df_setitem_run _ _ _ _ _ Hr'), frame_setitem_blank.
  unfold ret, h1. rewrite insert_insert_eq.
  unfold targets_frame. simpl. by rewrite <- list_fmap_compose.
Qed.

(** ** [preprocess_features], step by step *)

Lemma preprocess_features_run (h : Heap) r df rooms pop :
  h !! r = Some df → frame_wf df → has_columns df feature_names →
  column df "total_rooms" = Some rooms →
  column df "population" = Some pop →
  let sel := mkFrame (df_index df)
               (feature_names ≫= λ n, columns_named n (df_columns df)) in
  let h1 := <[fresh (dom h) := sel]> h in
  let r' := fresh (dom h1) in
  preprocess_features r h = (<[r' := features_frame df rooms pop]> h1, Ok r').
Proof.
  intros H Hlen Hhas Hrooms Hpop sel h1 r'.
  unfold preprocess_features.
  unfold bind at 1.
  rewrite (df_getitem_list_run _ _ _ _ H),
    (frame_getitem_list_present _ _ (has_columns_labels _ _ Hhas)).
  fold sel h1.
  assert (h1 !! fresh (dom h) = Some sel) as Hsel by apply lookup_insert_eq.
  unfold bind at 1. rewrite (df_copy_run _ _ _ Hsel). fold r'.
  set (h2 := <[r' := sel]> h1).
  assert (h2 !! r = Some df) as H2.
  { by do 2 apply alloc_preserves. }
  unfold bind at 1.
  rewrite (df_getitem_run _ _ _ _ H2), (frame_getitem_column _ _ _ Hrooms).
  unfold bind at 1.
  rewrite (df_getitem_run _ _ _ _ H2), (frame_getitem_column _ _ _ Hpop).
  unfold bind at 1, lift, series_truediv. simpl.
  rewrite decide_True by done.
  assert (h2 !! r' = Some sel) as Hr' by apply lookup_insert_eq.
  unfold bind. rewrite (df_setitem_run _ _ _ _ _ Hr').
  rewrite frame_setitem_same_index; [|done|by apply selection_Forall].
  unfold ret, h2. rewrite insert_insert_eq. do 2 f_equal.
  unfold features_frame. f_equal. simpl s_values.
  apply set_column_new. simpl df_columns.
  rewrite selection_labels by done. compute_done.
Qed.

Lemma features_frame_labels df rooms pop :
  has_columns df feature_names →
  labels (features_frame df rooms pop) = feature_names ++ ["rooms_per_person"].
Proof.
  intros Hhas. unfold labels, features_frame. cbn [df_columns].
  by rewrite fmap_app, selection_labels.
Qed.

Lemma features_frame_ratio df rooms pop :
  has_columns df feature_names →
  column (features_frame df rooms pop) "rooms_per_person"
  = Some (zip_with PrimFloat.div rooms pop).
Proof.
  intros Hhas. unfold column, features_frame. cbn [df_columns].
  unfold columns_named at 1. rewrite filter_app.
  fold (columns_named "rooms_per_person"
          (feature_names ≫= λ n, columns_named n (df_columns df))).
  rewrite columns_named_absent; [done|].
  rewrite selection_labels by done. compute_done.
Qed.

Lemma returned_frame_targets (h : Heap) r df threshold :
  h !! r = Some df →
  returned_frame (preprocess_targets r threshold h) =
    match frame_getitem df "median_house_value" with
    | Ok s => Ok (targets_frame (s_index s) (s_values s) threshold)
    | Raise e => Raise e
    end.
Proof.
  intros H. rewrite (preprocess_targets_run _ _ _ _ H). cbv zeta.
  destruct (frame_getitem df "median_house_value") as [s|e]; [|done].
  unfold returned_frame. cbn [fst snd]. by rewrite lookup_insert_eq.
Qed.

(** ** float64 comparison *)

Lemma SFltb_irrefl x : SFltb x x = false.
Proof.
  unfold SFltb. destruct x as [[]|[]| |[] m e]; simpl; try done.
  all: by rewrite Z.compare_refl, Pos.compare_cont_refl.
Qed.

Lemma float_gt_irrefl x : float_gt x x = false.
Proof. unfold float_gt. rewrite ltb_spec. apply SFltb_irrefl. Qed.

Lemma float_gt_nan x : float_gt PrimFloat.nan x = false.
Proof.
  unfold float_gt. rewrite ltb_spec. unfold SFltb.
  replace (Prim2SF PrimFloat.nan) with S754_nan by done.
  by destruct (Prim2SF x) as [[]|[]| |[] m e].
Qed.

Lemma float_of_bool_01 b : float_of_bool b = 0%float ∨ float_of_bool b = 1%float.
Proof. destruct b; auto. Qed.

(** ** Properties of the two frames *)

(** C1. On a frame with a [median_house_value] column, [preprocess_targets]
    returns a new frame over the same rows whose single column
    [median_house_value_is_high] holds, row by row, 1.0 where the price is
    strictly above the threshold and 0.0 elsewhere (in particular at a price
    equal to the threshold and at a NaN price); every value is 0.0 or 1.0,
    one threshold serves all rows, and its default is 265000. *)
Theorem preprocess_targets_is_high
  (h : Heap) (r : loc) (df : DataFrame) (prices : list float) (threshold : float) :
  h !! r = Some df →
  column df "median_house_value" = Some prices →
  ∃ (r' : loc) (flags : list float),
    preprocess_targets r threshold h
      = (<[r' := mkFrame (df_index df) [("median_house_value_is_high", flags)]]> h,
         Ok r')
    ∧ h !! r' = None
    ∧ length flags = length prices
    ∧ (∀ i p, prices !! i = Some p →
         flags !! i = Some (if float_gt p threshold then 1%float else 0%float))
    ∧ Forall (λ v, v = 0%float ∨ v = 1%float) flags
    ∧ (∀ i, prices !! i = Some threshold → flags !! i = Some 0%float)
    ∧ (∀ i, prices !! i = Some PrimFloat.nan → flags !! i = Some 0%float)
    ∧ default_threshold = 265000%float.
Proof.
  intros H Hcol.
  exists (fresh (dom h)), ((λ p, float_of_bool (float_gt p threshold)) <$> prices).
  rewrite (preprocess_targets_run _ _ _ _ H), (frame_getitem_column _ _ _ Hcol).
  assert (∀ i p, prices !! i = Some p →
            ((λ p, float_of_bool (float_gt p threshold)) <$> prices) !! i
            = Some (if float_gt p threshold then 1%float else 0%float)) as Hrow.
  { intros i p Hp. rewrite list_lookup_fmap, Hp. simpl. by destruct (float_gt _ _). }
  repeat split.
  - apply not_elem_of_dom, is_fresh.
  - apply length_fmap.
  - exact Hrow.
  - apply Forall_fmap, Forall_true. intros p. apply float_of_bool_01.
  - intros i Hi. by rewrite (Hrow _ _ Hi), float_gt_irrefl.
  - intros i Hi. by rewrite (Hrow _ _ Hi), float_gt_nan.
Qed.

Lemma preprocess_targets_is_high_witness :
  ∃ (r' : loc) (flags : list float),
    preprocess_targets 1%positive default_threshold sample_heap
      = (<[r' := mkFrame [7; 3; 5] [("median_house_value_is_high", flags)]]> sample_heap,
         Ok r')
    ∧ flags = [0; 1; 0]%float.
Proof.
  destruct (preprocess_targets_is_high sample_heap 1%positive sample_housing
              [66900; 280100; 265000]%float default_threshold)
    as (r' & flags & Hrun & _ & Hlen & Hrow & _); [reflexivity | reflexivity |].
  exists r', flags. split; [exact Hrun|].
  pose proof (Hrow 0%nat _ eq_refl) as H0.
  pose proof (Hrow 1%nat _ eq_refl) as H1.
  pose proof (Hrow 2%nat _ eq_refl) as H2.
  destruct flags as [|a [|b [|c [|]]]]; try discriminate Hlen.
  simpl in H0, H1, H2. by simplify_eq.
Defined.

(** C2. On a well-formed frame with the expected housing columns, the
    [rooms_per_person] column of the frame [preprocess_features] returns has
    one value per row, and at every row it is the float64 quotient of that
    row's [total_rooms] by its [population]. *)
Theorem rooms_per_person_is_ratio (h : Heap) (r : loc) (df : DataFrame) :
  h !! r = Some df → frame_wf df → has_columns df feature_names →
  ∃ (h' : Heap) (r' : loc) (out : DataFrame) (rooms pop ratio : list float),
    preprocess_features r h = (h', Ok r')
    ∧ h' !! r' = Some out
    ∧ column df "total_rooms" = Some rooms
    ∧ column df "population" = Some pop
    ∧ column out "rooms_per_person" = Some ratio
    ∧ df_index out = df_index df
    ∧ length ratio = length (df_index df)
    ∧ (∀ i a b, rooms !! i = Some a → pop !! i = Some b →
         ratio !! i = Some (a / b)%float).
Proof.
  intros H Hlen Hhas.
  destruct (has_columns_elem _ _ "total_rooms" Hhas) as [rooms Hrooms];
    [compute_done|].
  destruct (has_columns_elem _ _ "population" Hhas) as [pop Hpop];
    [compute_done|].
  eexists _, _, (features_frame df rooms pop), rooms, pop, _.
  split; [exact (preprocess_features_run _ _ _ _ _ H Hlen Hhas Hrooms Hpop)|].
  split; [apply lookup_insert_eq|].
  do 2 (split; [done|]).
  split; [by apply features_frame_ratio|].
  split; [done|].
  assert (∀ name vals, column df name = Some vals →
            length vals = length (df_index df)) as Hl.
  { intros name vals Hc. apply column_named in Hc.
    unfold frame_wf in Hlen. rewrite Forall_forall in Hlen.
    apply (Hlen (name, vals)).
    eapply columns_named_label. rewrite Hc. apply list_elem_of_here. }
  split.
  - rewrite length_zip_with, (Hl _ _ Hrooms), (Hl _ _ Hpop). lia.
  - intros i a b Ha Hb. rewrite lookup_zip_with, Ha. simpl. by rewrite Hb.
Qed.

Lemma rooms_per_person_is_ratio_witness :
  ∃ (h' : Heap) (r' : loc) (out : DataFrame),
    preprocess_features 1%positive sample_heap = (h', Ok r')
    ∧ h' !! r' = Some out
    ∧ column out "rooms_per_person"
      = Some [(5612 / 1015)%float; PrimFloat.infinity; 2.25%float].
Proof.
  destruct (rooms_per_person_is_ratio sample_heap 1%positive sample_housing)
    as (h' & r' & out & rooms & pop & ratio & Hrun & Hout & Hr & Hp & Hc & _ & Hlen & Hrow).
  - reflexivity.
  - unfold frame_wf. compute_done.
  - unfold has_columns. compute_done.
  - exists h', r', out. split; [exact Hrun|]. split; [exact Hout|].
    rewrite Hc. f_equal.
    vm_compute in Hr. vm_compute in Hp. simplify_eq.
    pose proof (Hrow 0%nat _ _ eq_refl eq_refl) as H0.
    pose proof (Hrow 1%nat _ _ eq_refl eq_refl) as H1.
    pose proof (Hrow 2%nat _ _ eq_refl eq_refl) as H2.
    destruct ratio as [|a [|b [|c [|]]]]; try discriminate Hlen.
    simpl in H0, H1, H2. by simplify_eq.
Defined.

(** C8. On a well-formed frame with the required columns, the frame
    [preprocess_features] returns has exactly nine columns: the eight
    selected ones, in the order of the selection, and [rooms_per_person];
    whatever else the input holds, no other label appears. *)
Theorem preprocess_features_columns (h : Heap) (r : loc) (df : DataFrame) :
  h !! r = Some df → frame_wf df → has_columns df feature_names →
  ∃ (h' : Heap) (r' : loc) (out : DataFrame),
    preprocess_features r h = (h', Ok r')
    ∧ h' !! r' = Some out
    ∧ labels out =
        ["latitude"; "longitude"; "housing_median_age"; "total_rooms";
         "total_bedrooms"; "population"; "households"; "median_income";
         "rooms_per_person"]
    ∧ length (df_columns out) = 9%nat
    ∧ (∀ name, name ∈ labels df → name ∉ feature_names →
         name ≠ "rooms_per_person" → name ∉ labels out).
Proof.
  intros H Hlen Hhas.
  destruct (has_columns_elem _ _ "total_rooms" Hhas) as [rooms Hrooms];
    [compute_done|].
  destruct (has_columns_elem _ _ "population" Hhas) as [pop Hpop];
    [compute_done|].
  assert (labels (features_frame df rooms pop)
          = feature_names ++ ["rooms_per_person"]) as Hlab
    by by apply features_frame_labels.
  eexists _, _, (features_frame df rooms pop).
  split; [exact (preprocess_features_run _ _ _ _ _ H Hlen Hhas Hrooms Hpop)|].
  split; [apply lookup_insert_eq|].
  split; [exact Hlab|].
  split.
  - rewrite <- (length_fmap fst). fold (labels (features_frame df rooms pop)).
    by rewrite Hlab.
  - intros name _ Hn Hr. rewrite Hlab, elem_of_app, list_elem_of_singleton. tauto.
Qed.

Lemma preprocess_features_columns_witness :
  ∃ (h' : Heap) (r' : loc) (out : DataFrame),
    preprocess_features 1%positive sample_heap = (h', Ok r')
    ∧ h' !! r' = Some out
    ∧ length (df_columns out) = 9%nat
    ∧ "median_house_value" ∉ labels out.
Proof.
  destruct (preprocess_features_columns sample_heap 1%positive sample_housing)
    as (h' & r' & out & Hrun & Hout & _ & Hlen & Hother).
  - reflexivity.
  - unfold frame_wf. compute_done.
  - unfold has_columns. compute_done.
  - exists h', r', out. repeat split; [exact Hrun | exact Hout | exact Hlen |].
    apply Hother; compute_done.
Defined.

(** C7. [preprocess_features] writes to no frame that existed before the
    call, the caller's [california_housing_df] included, whether it returns
    or raises: the only frame it writes to is the copy it made, and the
    reference it returns is to that new frame. *)
Theorem preprocess_features_keeps_input
  (h : Heap) (r l : loc) (before : DataFrame) :
  h !! l = Some before →
  (preprocess_features r h).1 !! l = Some before
  ∧ (preprocess_features r h).2 ≠ Ok l.
Proof.
  intros Hl. destruct (preprocess_features r h) as [h' out] eqn:E.
  cbn [fst snd]. revert E. unfold preprocess_features.
  destruct (h !! r) as [df|] eqn:Hr.
  2: { assert (df_getitem_list r feature_names h
               = (h, Raise (OutsideModel "dangling reference"))) as E
         by (unfold df_getitem_list, bind, deref; by rewrite Hr).
       rewrite (bind_raise _ _ _ _ _ E). by intros [= <- <-]. }
  unfold bind at 1. rewrite (df_getitem_list_run _ _ _ _ Hr).
  destruct (frame_getitem_list df feature_names) as [sel|e];
    [|by intros [= <- <-]].
  set (h1 := <[fresh (dom h) := sel]> h).
  assert (h1 !! l = Some before) as Hl1 by by apply alloc_preserves.
  assert (h1 !! fresh (dom h) = Some sel) as Hsel by apply lookup_insert_eq.
  unfold bind at 1. rewrite (df_copy_run _ _ _ Hsel).
  set (r' := fresh (dom h1)). set (h2 := <[r' := sel]> h1).
  assert (h2 !! l = Some before) as Hl2 by by apply alloc_preserves.
  assert (h2 !! r = Some df) as Hr2 by by do 2 apply alloc_preserves.
  assert (l ≠ r') as Hne by by eapply fresh_ne.
  unfold bind at 1. rewrite (df_getitem_run _ _ _ _ Hr2).
  destruct (frame_getitem df "total_rooms") as [rooms|e];
    [|by intros [= <- <-]].
  unfold bind at 1. rewrite (df_getitem_run _ _ _ _ Hr2).
  destruct (frame_getitem df "population") as [pop|e];
    [|by intros [= <- <-]].
  unfold bind at 1, lift.
  destruct (series_truediv rooms pop) as [ratio|e];
    [|by intros [= <- <-]].
  assert (h2 !! r' = Some sel) as Hr' by apply lookup_insert_eq.
  unfold bind. rewrite (df_setitem_run _ _ _ _ _ Hr').
  destruct (frame_setitem sel "rooms_per_person" ratio) as [new|e];
    [|by intros [= <- <-]].
  unfold ret. intros [= <- <-]. split; [|congruence].
  by rewrite lookup_insert_ne.
Qed.

Lemma preprocess_features_keeps_input_witness :
  (preprocess_features 1%positive sample_heap).1 !! 1%positive = Some sample_housing
  ∧ (preprocess_features 1%positive sample_heap).2 ≠ Ok 1%positive.
Proof.
  apply (preprocess_features_keeps_input sample_heap 1%positive 1%positive).
  reflexivity.
Defined.

(** C10. The frame [preprocess_targets] returns (or the exception it raises)
    is a function of the [median_house_value] column and the threshold alone:
    two frames with equal [median_house_value] columns, anywhere on any two
    heaps, give equal results under one threshold. *)
Theorem preprocess_targets_depends_on_prices_only
  (h1 h2 : Heap) (r1 r2 : loc) (df1 df2 : DataFrame) (threshold : float) :
  h1 !! r1 = Some df1 → h2 !! r2 = Some df2 →
  frame_getitem df1 "median_house_value" = frame_getitem df2 "median_house_value" →
  returned_frame (preprocess_targets r1 threshold h1)
  = returned_frame (preprocess_targets r2 threshold h2).
Proof.
  intros H1 H2 Heq.
  by rewrite (returned_frame_targets _ _ _ _ H1), (returned_frame_targets _ _ _ _ H2), Heq.
Qed.

Lemma preprocess_targets_depends_on_prices_only_witness :
  returned_frame (preprocess_targets 1%positive default_threshold sample_heap)
  = returned_frame (preprocess_targets 4%positive default_threshold sample_heap').
Proof.
  apply (preprocess_targets_depends_on_prices_only
           sample_heap sample_heap' 1%positive 4%positive
           sample_housing sample_prices default_threshold);
    reflexivity.
Defined.

(** ** Feature columns *)

Global Instance numeric_column_inj : Inj (=) (=) numeric_column.
Proof. by intros a b [= ->]. Qed.

Lemma elem_of_construct_feature_columns c input_features :
  c ∈ construct_feature_columns input_features
  ↔ ∃ name, name ∈ input_features ∧ c = numeric_column name.
Proof.
  unfold construct_feature_columns.
  rewrite elem_of_list_to_set, list_elem_of_fmap. naive_solver.
Qed.

(** C9. [construct_feature_columns] returns a set: a column is in it exactly
    when it is the numeric column of a listed name, each listed name has one
    column and no second with the same key, the set has as many columns as
    the list has distinct names, and a list with repeated names gives the set
    of the list with the repetitions removed. *)
Theorem construct_feature_columns_collapses (input_features : list string) :
  (∀ c, c ∈ construct_feature_columns input_features
        ↔ ∃ name, name ∈ input_features ∧ c = numeric_column name)
  ∧ (∀ name, name ∈ input_features →
       ∀ c, c ∈ construct_feature_columns input_features ∧ key c = name
            ↔ c = numeric_column name)
  ∧ size (construct_feature_columns input_features)
    = length (remove_dups input_features)
  ∧ construct_feature_columns input_features
    = construct_feature_columns (remove_dups input_features).
Proof.
  assert (construct_feature_columns input_features
          = construct_feature_columns (remove_dups input_features)) as Hdedup.
  { apply set_eq. intros c. rewrite !elem_of_construct_feature_columns.
    by setoid_rewrite elem_of_remove_dups. }
  split; [intros c; apply elem_of_construct_feature_columns|].
  split; [|split; [|exact Hdedup]].
  - intros name Hin c. rewrite elem_of_construct_feature_columns. split.
    + intros [(n & _ & ->) Hkey]. simpl in Hkey. by subst.
    + intros ->. split; [eauto|done].
  - rewrite Hdedup. unfold construct_feature_columns.
    rewrite size_list_to_set, length_fmap; [done|].
    apply NoDup_fmap_2; [apply _|apply NoDup_remove_dups].
Qed.

Lemma construct_feature_columns_collapses_witness :
  size (construct_feature_columns ["population"; "households"; "population"]) = 2%nat
  ∧ construct_feature_columns ["population"; "households"; "population"]
    = construct_feature_columns ["households"; "population"].
Proof.
  destruct (construct_feature_columns_collapses
              ["population"; "households"; "population"])
    as (_ & _ & Hsize & Hdedup).
  split; [exact Hsize | exact Hdedup].
Defined.

(** ** float64 arithmetic

    The facts below are about the binary64 format itself: how many binary
    digits a mantissa has, when rounding changes nothing, and why ten times
    an integer divided by ten is that integer. *)

Lemma digits2_pos_size p : digits2_pos p = Pos.size p.
Proof. induction p; simpl; congruence. Qed.

Lemma Zdigits2_log2 p : Zdigits2 (Zpos p) = Z.log2 (Zpos p) + 1.
Proof.
  unfold Zdigits2. rewrite digits2_pos_size.
  destruct p; simpl; lia.
Qed.

(** [d] digits: [2^(d-1) <= n < 2^d] *)
Lemma Zdigits2_bounds p : 2 ^ (Zdigits2 (Zpos p) - 1) ≤ Zpos p < 2 ^ Zdigits2 (Zpos p).
Proof.
  rewrite Zdigits2_log2. replace (Z.log2 (Zpos p) + 1 - 1) with (Z.log2 (Zpos p)) by lia.
  apply Z.log2_spec. lia.
Qed.

Lemma Zdigits2_unique p d : 2 ^ (d - 1) ≤ Zpos p < 2 ^ d → Zdigits2 (Zpos p) = d.
Proof.
  intros H. rewrite Zdigits2_log2.
  assert (0 ≤ d - 1).
  { destruct (Z.le_gt_cases 0 (d - 1)) as [|Hneg]; [done|].
    assert (d ≤ 0) by lia. assert (2 ^ d ≤ 2 ^ 0) by (apply Z.pow_le_mono_r; lia).
    simpl in *. lia. }
  rewrite (Z.log2_unique (Zpos p) (d - 1)); [lia|done|].
  by replace (Z.succ (d - 1)) with d by lia.
Qed.

Lemma Zdigits2_pos p : 1 ≤ Zdigits2 (Zpos p).
Proof. simpl. lia. Qed.

Lemma Zdigits2_mul_pow2 p s : 0 ≤ s → ∀ q, Zpos q = Zpos p * 2 ^ s →
  Zdigits2 (Zpos q) = Zdigits2 (Zpos p) + s.
Proof.
  intros Hs q Hq. apply Zdigits2_unique. rewrite Hq.
  pose proof (Zdigits2_bounds p) as [Hlo Hhi].
  pose proof (Zdigits2_pos p).
  replace (Zdigits2 (Zpos p) + s - 1) with ((Zdigits2 (Zpos p) - 1) + s) by lia.
  rewrite !Z.pow_add_r by lia.
  assert (0 < 2 ^ s) by (apply Z.pow_pos_nonneg; lia).
  split; [apply Z.mul_le_mono_nonneg_r; lia | apply Z.mul_lt_mono_pos_r; lia].
Qed.

Lemma fexp_normal d e : 53 + -1074 ≤ d + e → fexp prec emax (d + e) = d + e - 53.
Proof. intros H. unfold fexp, SpecFloat.emin, prec, emax. lia. Qed.

Lemma shr_fexp_exact (m : positive) e :
  Zdigits2 (Zpos m) = 53 → -1074 ≤ e →
  shr_fexp prec emax (Zpos m) e loc_Exact = (Build_shr_record (Zpos m) false false, e).
Proof.
  intros Hd He. unfold shr_fexp. rewrite Hd, fexp_normal by lia.
  replace (53 + e - 53 - e) with 0 by lia. done.
Qed.

(** A mantissa of 53 digits with an exponent in range is already rounded. *)
Lemma binary_round_aux_exact s (m : positive) e :
  Zdigits2 (Zpos m) = 53 → -1074 ≤ e ≤ 971 →
  binary_round_aux prec emax s (Zpos m) e loc_Exact = S754_finite s m e.
Proof.
  intros Hd He. unfold binary_round_aux.
  rewrite shr_fexp_exact by lia. cbn [shr_m loc_of_shr_record round_nearest_even].
  rewrite shr_fexp_exact by lia. cbn [shr_m].
  replace (e <=? emax - prec) with true; [done|].
  symmetry. apply Z.leb_le. unfold emax, prec. lia.
Qed.

(** One digit more, the last one 0: the last digit is dropped. *)
Lemma binary_round_aux_exact_double s (m : positive) e :
  Zdigits2 (Zpos m) = 53 → -1074 ≤ e ≤ 971 →
  binary_round_aux prec emax s (Zpos m~0) (e - 1) loc_Exact = S754_finite s m e.
Proof.
  intros Hd He. unfold binary_round_aux.
  assert (shr_fexp prec emax (Zpos m~0) (e - 1) loc_Exact
          = (Build_shr_record (Zpos m) false false, e)) as ->.
  { unfold shr_fexp.
    assert (Zdigits2 (Zpos m~0) = 54) as -> by (simpl in *; lia).
    rewrite fexp_normal by lia.
    replace (54 + (e - 1) - 53 - (e - 1)) with 1 by lia.
    unfold shr. simpl. f_equal. lia. }
  cbn [shr_m loc_of_shr_record round_nearest_even].
  rewrite shr_fexp_exact by lia. cbn [shr_m].
  replace (e <=? emax - prec) with true; [done|].
  symmetry. apply Z.leb_le. unfold emax, prec. lia.
Qed.

Lemma iter_xO_pow2 (p n : positive) : Zpos (Pos.iter xO p n) = Zpos p * 2 ^ Zpos n.
Proof.
  apply (Pos.iter_ind _ xO p (λ n a, Zpos a = Zpos p * 2 ^ Zpos n)).
  - lia.
  - intros k a Ha. rewrite Pos2Z.inj_succ, Z.pow_succ_r by lia.
    rewrite Pos2Z.inj_xO, Ha. lia.
Qed.

Lemma Zdigits2_le p n : 0 ≤ n → Zpos p < 2 ^ n → Zdigits2 (Zpos p) ≤ n.
Proof.
  intros Hn Hp. pose proof (Zdigits2_bounds p) as [Hlo _].
  destruct (Z.le_gt_cases (Zdigits2 (Zpos p)) n) as [|Hgt]; [done|].
  assert (2 ^ n ≤ 2 ^ (Zdigits2 (Zpos p) - 1)) by (apply Z.pow_le_mono_r; lia).
  lia.
Qed.

(** The float64 of an integer below 2^53: its 53-digit mantissa carries the
    integer exactly. *)
Lemma binary_round_integer s (p : positive) :
  Zpos p < 2 ^ 53 →
  ∃ m : positive,
    binary_round prec emax s p 0 = S754_finite s m (Zdigits2 (Zpos p) - 53)
    ∧ Zpos m = Zpos p * 2 ^ (53 - Zdigits2 (Zpos p))
    ∧ Zdigits2 (Zpos m) = 53.
Proof.
  intros Hp. pose proof (Zdigits2_le p 53 ltac:(lia) Hp) as Hd.
  pose proof (Zdigits2_pos p) as Hd1.
  set (d := Zdigits2 (Zpos p)) in *.
  unfold binary_round. change (Zpos (digits2_pos p)) with d.
  rewrite fexp_normal by lia. unfold shl_align.
  destruct (d + 0 - 53 - 0) as [|n|n] eqn:En; [| lia |].
  - exists p. replace (53 - d) with 0 by lia. rewrite Z.mul_1_r.
    replace (d - 53) with 0 by lia.
    split; [|split; [done|fold d; lia]].
    apply binary_round_aux_exact; [fold d; lia | lia].
  - exists (Pos.iter xO p n).
    assert (Zpos (Pos.iter xO p n) = Zpos p * 2 ^ (53 - d)) as Hm.
    { rewrite iter_xO_pow2. f_equal. f_equal. lia. }
    assert (Zdigits2 (Zpos (Pos.iter xO p n)) = 53) as Hdm.
    { rewrite (Zdigits2_mul_pow2 p (53 - d)); [fold d; lia | lia | done]. }
    split; [|done].
    replace (d + 0 - 53) with (d - 53) by lia.
    apply binary_round_aux_exact; [done | lia].
Qed.

Lemma div_eucl_multiple q b : b ≠ 0 → Z.div_eucl (q * b) b = (q, 0).
Proof.
  intros Hb. destruct (Z.div_eucl (q * b) b) as [q' r'] eqn:E.
  assert (q' = q * b / b) as -> by (unfold Z.div; by rewrite E).
  assert (r' = (q * b) mod b) as -> by (unfold Z.modulo; by rewrite E).
  by rewrite Z.div_mul, Z.mod_mul.
Qed.

(** Dividing ten times an integer by ten: the quotient is exact. *)
Lemma SFdiv_core_tenfold (p : positive) :
  Zpos p < 2 ^ 53 →
  let d1 := Zdigits2 (Zpos (10 * p)) in
  SFdiv_core_binary prec emax (Zpos (10 * p)) 0 10 0
  = (Zpos p * 2 ^ (57 - d1), d1 - 57, loc_Exact)
  ∧ 4 ≤ d1 ≤ 57.
Proof.
  intros Hp d1.
  assert (4 ≤ d1 ≤ 57) as Hd1.
  { pose proof (Zdigits2_bounds (10 * p)) as [Hlo Hhi]. fold d1 in Hlo, Hhi.
    split.
    - destruct (Z.le_gt_cases 4 d1) as [|Hlt]; [done|].
      assert (2 ^ d1 ≤ 2 ^ 3) by (apply Z.pow_le_mono_r; lia). lia.
    - apply Zdigits2_le; lia. }
  split; [|done].
  unfold SFdiv_core_binary. fold d1.
  change (Zdigits2 10) with 4.
  assert (Z.min (fexp prec emax (d1 + 0 - (4 + 0))) (0 - 0) = d1 - 57) as ->.
  { unfold fexp, SpecFloat.emin, prec, emax. lia. }
  set (m' := match 0 - 0 - (d1 - 57) with
             | 0 => Z.pos (10 * p)
             | Z.pos _ => Z.shiftl (Z.pos (10 * p)) (0 - 0 - (d1 - 57))
             | Z.neg _ => 0
             end).
  assert (m' = Zpos p * 2 ^ (57 - d1) * 10) as ->.
  { unfold m'. replace (0 - 0 - (d1 - 57)) with (57 - d1) by lia.
    destruct (57 - d1) as [|n|n] eqn:E; [lia| |lia].
    rewrite Z.shiftl_mul_pow2 by lia. lia. }
  by rewrite div_eucl_multiple.
Qed.

Lemma round_tenfold_quotient s (p : positive) :
  Zpos p < 2 ^ 53 →
  let '(q, e, l) := SFdiv_core_binary prec emax (Zpos (10 * p)) 0 10 0 in
  binary_round_aux prec emax s q e l = binary_round prec emax s p 0.
Proof.
  intros Hp. destruct (SFdiv_core_tenfold p Hp) as [-> Hd1].
  destruct (binary_round_integer s p Hp) as (m & -> & Hm & Hdm).
  set (d := Zdigits2 (Zpos p)) in *. set (d1 := Zdigits2 (Zpos (10 * p))) in *.
  pose proof (Zdigits2_pos p) as Hdpos. fold d in Hdpos.
  pose proof (Zdigits2_le p 53 ltac:(lia) Hp) as Hd53. fold d in Hd53.
  assert (d1 = d + 4 ∨ d1 = d + 3) as [Hd|Hd].
  { pose proof (Zdigits2_bounds p) as [Hlo Hhi]. fold d in Hlo, Hhi.
    pose proof (Zdigits2_bounds (10 * p)) as [Hlo1 Hhi1]. fold d1 in Hlo1, Hhi1.
    assert (d1 ≤ d + 4).
    { apply Zdigits2_le; [lia|]. rewrite Z.pow_add_r by lia. lia. }
    assert (d + 3 ≤ d1).
    { destruct (Z.le_gt_cases (d + 3) d1) as [|Hlt]; [done|].
      assert (2 ^ d1 ≤ 2 ^ (d + 2)) by (apply Z.pow_le_mono_r; lia).
      replace (d + 2) with ((d - 1) + 3) in * by lia.
      rewrite Z.pow_add_r in * by lia. lia. }
    lia. }
  - replace (57 - d1) with (53 - d) by lia. rewrite <- Hm.
    replace (d1 - 57) with (d - 53) by lia.
    apply binary_round_aux_exact; [done|lia].
  - replace (57 - d1) with (Z.succ (53 - d)) by lia.
    rewrite Z.pow_succ_r by lia.
    replace (Zpos p * (2 * 2 ^ (53 - d))) with (Zpos m~0) by lia.
    replace (d1 - 57) with (d - 53 - 1) by lia.
    apply binary_round_aux_exact_double; [done|lia].
Qed.

(** [10 k / 10] is the float of [k], for [k] a non-zero integer that a
    float64 holds exactly. *)
Lemma int_truediv_tenfold (k : Z) :
  k ≠ 0 → Z.abs k < 2 ^ 53 → int_truediv (10 * k) 10 = Ok (Z_to_float k).
Proof.
  intros Hk Hb. unfold int_truediv, Z_to_float.
  destruct k as [|p|p]; [done| |].
  - change (10 * Zpos p) with (Zpos (10 * p)).
    cbn [Z.abs Z.ltb Z.compare xorb binary_normalize].
    pose proof (round_tenfold_quotient false p Hb) as H.
    change (Z.abs (Zpos (10 * p))) with (Zpos (10 * p)). change (Z.abs 10) with 10.
    destruct (SFdiv_core_binary prec emax (Zpos (10 * p)) 0 10 0) as [[q e] l].
    rewrite H. by destruct (binary_round_integer false p Hb) as (m & -> & _).
  - change (10 * Zneg p) with (Zneg (10 * p)).
    cbn [Z.abs Z.ltb Z.compare xorb binary_normalize].
    pose proof (round_tenfold_quotient true p Hb) as H.
    change (Z.abs (Zneg (10 * p))) with (Zpos (10 * p)). change (Z.abs 10) with 10.
    destruct (SFdiv_core_binary prec emax (Zpos (10 * p)) 0 10 0) as [[q e] l].
    rewrite H. by destruct (binary_round_integer true p Hb) as (m & -> & _).
Qed.

Lemma Prim2SF_finite s (m : positive) e :
  Zdigits2 (Zpos m) = 53 → -1074 ≤ e ≤ 971 →
  Prim2SF (SF2Prim (S754_finite s m e)) = S754_finite s m e.
Proof.
  intros Hd He. apply Prim2SF_SF2Prim.
  unfold valid_binary, bounded, canonical_mantissa.
  change (Zpos (digits2_pos m)) with (Zdigits2 (Zpos m)).
  rewrite Hd, fexp_normal by lia.
  apply andb_true_iff. split; [apply Z.eqb_eq; lia|].
  apply Z.leb_le. unfold emax, prec. lia.
Qed.

Lemma div_zero_undefined (x z : float) :
  z = 0%float ∨ z = (-0)%float →
  (x / z)%float = PrimFloat.nan
  ∨ (x / z)%float = PrimFloat.infinity
  ∨ (x / z)%float = PrimFloat.neg_infinity.
Proof.
  intros Hz.
  assert (∃ s, Prim2SF z = S754_zero s) as [sz Hsz]
    by (destruct Hz as [->| ->]; eexists; reflexivity).
  assert (Prim2SF (x / z) = S754_nan ∨ ∃ s, Prim2SF (x / z) = S754_infinity s) as H.
  { rewrite div_spec, Hsz. unfold SF64div, SFdiv.
    destruct (Prim2SF x) as [s|s| |s m e]; eauto. }
  destruct H as [H|[[] H]].
  - left. apply Prim2SF_inj. by rewrite H.
  - right. right. apply Prim2SF_inj. by rewrite H.
  - right. left. apply Prim2SF_inj. by rewrite H.
Qed.

(** Dividing five times an integer by ten: the quotient, half the integer,
    is exact too. *)
Lemma SFdiv_core_fivefold (p : positive) :
  Zpos (5 * p) < 2 ^ 53 →
  let d1 := Zdigits2 (Zpos (5 * p)) in
  SFdiv_core_binary prec emax (Zpos (5 * p)) 0 10 0
  = (Zpos p * 2 ^ (56 - d1), d1 - 57, loc_Exact)
  ∧ 3 ≤ d1 ≤ 53.
Proof.
  intros Hp d1.
  assert (3 ≤ d1 ≤ 53) as Hd1.
  { pose proof (Zdigits2_bounds (5 * p)) as [Hlo Hhi]. fold d1 in Hlo, Hhi.
    split.
    - destruct (Z.le_gt_cases 3 d1) as [|Hlt]; [done|].
      assert (2 ^ d1 ≤ 2 ^ 2) by (apply Z.pow_le_mono_r; lia). lia.
    - apply Zdigits2_le; lia. }
  split; [|done].
  unfold SFdiv_core_binary. fold d1.
  change (Zdigits2 10) with 4.
  assert (Z.min (fexp prec emax (d1 + 0 - (4 + 0))) (0 - 0) = d1 - 57) as ->.
  { unfold fexp, SpecFloat.emin, prec, emax. lia. }
  set (m' := match 0 - 0 - (d1 - 57) with
             | 0 => Z.pos (5 * p)
             | Z.pos _ => Z.shiftl (Z.pos (5 * p)) (0 - 0 - (d1 - 57))
             | Z.neg _ => 0
             end).
  assert (m' = Zpos p * 2 ^ (56 - d1) * 10) as ->.
  { unfold m'. replace (0 - 0 - (d1 - 57)) with (57 - d1) by lia.
    destruct (57 - d1) as [|n|n] eqn:E; [lia| |lia].
    rewrite Z.shiftl_mul_pow2, <- E by lia.
    replace (57 - d1) with (Z.succ (56 - d1)) by lia.
    rewrite Z.pow_succ_r by lia. lia. }
  by rewrite div_eucl_multiple.
Qed.

(** The rounded quotient of [5 p] by ten is a float64 of value [p / 2]. *)
Lemma round_fivefold_quotient s (p : positive) :
  Zpos (5 * p) < 2 ^ 53 →
  ∃ (m : positive) (e : Z),
    (let '(q, e', l) := SFdiv_core_binary prec emax (Zpos (5 * p)) 0 10 0 in
     binary_round_aux prec emax s q e' l) = S754_finite s m e
    ∧ Zdigits2 (Zpos m) = 53
    ∧ -54 ≤ e < 0
    ∧ Zpos m * 2 = Zpos p * 2 ^ (- e).
Proof.
  intros Hp. destruct (SFdiv_core_fivefold p Hp) as [-> Hd1].
  set (d1 := Zdigits2 (Zpos (5 * p))) in *. set (d := Zdigits2 (Zpos p)).
  pose proof (Zdigits2_pos p) as Hdpos. fold d in Hdpos.
  assert (d1 = d + 3 ∨ d1 = d + 2) as Hd.
  { pose proof (Zdigits2_bounds p) as [Hlo Hhi]. fold d in Hlo, Hhi.
    pose proof (Zdigits2_bounds (5 * p)) as [Hlo1 Hhi1]. fold d1 in Hlo1, Hhi1.
    assert (d1 ≤ d + 3).
    { apply Zdigits2_le; [lia|]. rewrite Z.pow_add_r by lia. lia. }
    assert (d + 2 ≤ d1).
    { destruct (Z.le_gt_cases (d + 2) d1) as [|Hlt]; [done|].
      assert (2 ^ d1 ≤ 2 ^ (d + 1)) by (apply Z.pow_le_mono_r; lia).
      replace (d + 1) with ((d - 1) + 2) in * by lia.
      rewrite Z.pow_add_r in * by lia. lia. }
    lia. }
  assert (∀ n, 0 ≤ n → ∃ m : positive, Zpos m = Zpos p * 2 ^ n) as Hshift.
  { intros n Hn. assert (0 < 2 ^ n) by (apply Z.pow_pos_nonneg; lia).
    destruct (Zpos p * 2 ^ n) as [|m|m] eqn:E; [lia| |lia]. by exists m. }
  destruct Hd as [Hd|Hd].
  - destruct (Hshift (56 - d1)) as [m Hm]; [lia|].
    exists m, (d1 - 57). rewrite <- Hm.
    assert (Zdigits2 (Zpos m) = 53) as Hdm.
    { rewrite (Zdigits2_mul_pow2 p (56 - d1)); [fold d; lia | lia | done]. }
    split; [apply binary_round_aux_exact; [done|lia]|].
    split; [done|]. split; [lia|].
    rewrite Hm. replace (- (d1 - 57)) with (Z.succ (56 - d1)) by lia.
    rewrite Z.pow_succ_r by lia. lia.
  - destruct (Hshift (55 - d1)) as [m Hm]; [lia|].
    exists m, (d1 - 56).
    assert (Zdigits2 (Zpos m) = 53) as Hdm.
    { rewrite (Zdigits2_mul_pow2 p (55 - d1)); [fold d; lia | lia | done]. }
    replace (Zpos p * 2 ^ (56 - d1)) with (Zpos m~0).
    2: { replace (56 - d1) with (Z.succ (55 - d1)) by lia.
         rewrite Z.pow_succ_r by lia. lia. }
    replace (d1 - 57) with (d1 - 56 - 1) by lia.
    split; [apply binary_round_aux_exact_double; [done|lia]|].
    split; [done|]. split; [lia|].
    rewrite Hm. replace (- (d1 - 56)) with (Z.succ (55 - d1)) by lia.
    rewrite Z.pow_succ_r by lia. lia.
Qed.

(** [5 k / 10] is a float64 whose exact value is [5 k / 10], for [5 k] a
    non-zero integer below 2^53 in magnitude. *)
Lemma int_truediv_fivefold (k : Z) :
  k ≠ 0 → Z.abs (5 * k) < 2 ^ 53 →
  ∃ x q, int_truediv (5 * k) 10 = Ok x
         ∧ float_to_Q x = Some q
         ∧ (q == 5 * k # 10)%Q.
Proof.
  intros Hk Hb. unfold int_truediv.
  assert (∀ s p, Zpos (5 * p) < 2 ^ 53 →
            ∃ x v,
              (let '(q, e, l) := SFdiv_core_binary prec emax (Zpos (5 * p)) 0 10 0 in
               match binary_round_aux prec emax s q e l with
               | S754_infinity _ => Raise OverflowError
               | r => Ok (SF2Prim r)
               end) = Ok x
              ∧ float_to_Q x = Some (if s then Qopp v else v)
              ∧ (v == Zpos (5 * p) # 10)%Q) as Hpos.
  { intros s p Hp.
    destruct (round_fivefold_quotient s p Hp) as (m & e & Hround & Hdm & He & Hval).
    destruct (SFdiv_core_binary prec emax (Zpos (5 * p)) 0 10 0) as [[q e'] l].
    rewrite Hround.
    destruct e as [|n|n] eqn:E; [lia|lia|].
    exists (SF2Prim (S754_finite s m (Zneg n))), (Zpos m # 2 ^ n)%Q.
    split; [reflexivity|].
    unfold float_to_Q. rewrite Prim2SF_finite by (done || lia).
    split; [reflexivity|].
    unfold Qeq. cbn [Qnum Qden]. rewrite Pos2Z.inj_pow.
    change (- Zneg n) with (Zpos n) in Hval. lia. }
  destruct k as [|p|p]; [done| |].
  - change (5 * Zpos p) with (Zpos (5 * p)) in *.
    cbn [Z.abs Z.ltb Z.compare xorb].
    change (Z.abs 10) with 10.
    destruct (Hpos false p Hb) as (x & v & E & Hq & Hv). by exists x, v.
  - change (5 * Zneg p) with (Zneg (5 * p)) in *.
    cbn [Z.abs Z.ltb Z.compare xorb].
    change (Z.abs 10) with 10.
    destruct (Hpos true p Hb) as (x & v & E & Hq & Hv).
    exists x, (Qopp v). split; [done|]. split; [done|].
    rewrite Hv. done.
Qed.

(** On small integers, where [float(a)] and [float(b)] are exact, the
    quotient of [int_truediv] is the float64 division of the two floats
    (the path CPython takes for such operands). *)
Lemma int_truediv_small_ints :
  forallb (λ a,
    forallb (λ b,
      match int_truediv a b with
      | Ok x => PrimFloat.Leibniz.eqb x (Z_to_float a / Z_to_float b)
      | Raise _ => Z.eqb b 0
      end) (seqZ (-50) 101)) (seqZ (-100) 201) = true.
Proof. vm_compute. reflexivity. Qed.

(** ** Loops *)

(** An invariant that every iteration re-establishes holds after the loop,
    and the loop returns. *)
Lemma for_each_rule {S A B} (I : nat → S → B → Prop) (xs : list A)
  (body : B → A → Py S B) :
  (∀ i x s acc, xs !! i = Some x → I i s acc →
     ∃ s' acc', body acc x s = (s', Ok acc') ∧ I (Datatypes.S i) s' acc') →
  ∀ s acc, I 0%nat s acc →
    ∃ s' acc', for_each xs body acc s = (s', Ok acc') ∧ I (length xs) s' acc'.
Proof.
  revert I. induction xs as [|x xs IH]; intros I Hbody s acc H0.
  - exists s, acc. by split.
  - destruct (Hbody 0%nat x s acc eq_refl H0) as (s1 & acc1 & E1 & H1).
    destruct (IH (λ i, I (Datatypes.S i)) (λ i, Hbody (Datatypes.S i)) s1 acc1 H1)
      as (s' & acc' & E & H').
    exists s', acc'. split; [|done].
    cbn [for_each]. by rewrite (bind_ok _ _ _ _ _ E1).
Qed.

Lemma range_lookup (a b : Z) (i : nat) (x : Z) :
  range a b !! i = Some x → x = a + Z.of_nat i.
Proof.
  unfold range. rewrite list_lookup_fmap.
  destruct (seq 0 (Z.to_nat (b - a)) !! i) as [j|] eqn:E; [|done].
  apply lookup_seq in E as [-> _]. by intros [= <-].
Qed.

Section TrainingProofs.
Context {L : Library}.

(** ** Calls of the library, one at a time *)

Lemma new_estimator_run kind fc opt params (t : list Event) :
  estimator_init kind fc opt = Ok params →
  new_estimator kind fc opt t
  = (t ++ [Call_estimator kind fc opt], Ok (mkEstimator kind fc opt params)).
Proof. intros E. unfold new_estimator, bind, emit, lift, ret. by rewrite E. Qed.

Lemma train_run est input_fn steps params (t : list Event) :
  estimator_train est input_fn steps = Ok params →
  train est input_fn steps t
  = (t ++ [Call_train est input_fn steps],
     Ok (mkEstimator (est_kind est) (est_feature_columns est) (est_optimizer est) params)).
Proof. intros E. unfold train, bind, emit, lift, ret. by rewrite E. Qed.

Lemma predict_run est input_fn items (t : list Event) :
  estimator_predict est input_fn = Ok items →
  predict est input_fn t = (t ++ [Call_predict est input_fn], Ok items).
Proof. intros E. unfold predict, bind, emit, lift. by rewrite E. Qed.

Lemma mean_squared_error_run y_true y_pred mse (t : list Event) :
  mean_squared_error y_true y_pred = Ok mse →
  metrics_mean_squared_error y_true y_pred t
  = (t ++ [Call_mean_squared_error y_true y_pred], Ok mse).
Proof. intros E. unfold metrics_mean_squared_error, bind, emit, lift. by rewrite E. Qed.

Lemma log_loss_run y_true y_pred loss (t : list Event) :
  log_loss y_true y_pred = Ok loss →
  metrics_log_loss y_true y_pred t = (t ++ [Call_log_loss y_true y_pred], Ok loss).
Proof. intros E. unfold metrics_log_loss, bind, emit, lift. by rewrite E. Qed.

Lemma print_run line (t : list Event) :
  print line t = (t ++ [Call_print line], Ok tt).
Proof. done. Qed.

Lemma plt_run call (t : list Event) : plt call t = (t ++ [Call_plt call], Ok tt).
Proof. done. Qed.

Lemma lift_run {A} (o : outcome A) (t : list Event) : lift o t = (t, o).
Proof. done. Qed.

Lemma is_ok_Ok {A} (o : outcome A) : is_ok o = true → ∃ a, o = Ok a.
Proof. destruct o; [eauto|done]. Qed.

Lemma comprehension_ok {A B} (f : A → outcome B) (items : list A) :
  Forall (λ item, is_ok (f item) = true) items →
  ∃ bs, comprehension f items = Ok bs.
Proof.
  induction 1 as [|item items Hf _ [bs IH]]; [by exists []|].
  apply is_ok_Ok in Hf as [b Hb]. exists (b :: bs). simpl. by rewrite Hb, IH.
Qed.

Lemma math_sqrt_ok x :
  PrimFloat.ltb x 0%float = false → math_sqrt x = Ok (PrimFloat.sqrt x).
Proof. intros H. unfold math_sqrt. by rewrite H. Qed.

(** ** One period *)

(** With a library that returns, a period of the regressor makes its six
    calls in order and adds one value to each history. *)
Lemma regressor_period_run (Hlib : library_returns L)
  steps_per_period f_train f_ptrain f_pvalid training_targets validation_targets
  est training_rmse validation_rmse period (t : list Event) :
  ∃ params predictions_t predictions_v rmse_t rmse_v,
    let est' := mkEstimator (est_kind est) (est_feature_columns est)
                  (est_optimizer est) params in
    estimator_train est f_train steps_per_period = Ok params
    ∧ regressor_period steps_per_period f_train f_ptrain f_pvalid
        training_targets validation_targets
        (est, training_rmse, validation_rmse) period t
      = (t ++ [Call_train est f_train steps_per_period;
               Call_predict est' f_ptrain;
               Call_predict est' f_pvalid;
               Call_mean_squared_error predictions_t training_targets;
               Call_mean_squared_error predictions_v validation_targets;
               Call_print (PeriodLine period rmse_t)],
         Ok (est', training_rmse ++ [rmse_t], validation_rmse ++ [rmse_v])).
Proof.
  destruct (is_ok_Ok _ (train_returns Hlib est f_train steps_per_period))
    as [params Etrain].
  set (est' := mkEstimator (est_kind est) (est_feature_columns est)
                 (est_optimizer est) params).
  assert (∀ f, ∃ items preds,
            estimator_predict est' f = Ok items
            ∧ comprehension
                (λ item : Prediction,
                   match dict_getitem item "predictions" with
                   | Ok a => array_first a
                   | Raise e => Raise e
                   end) items = Ok preds) as Hpred.
  { intros f. destruct (predict_returns Hlib est' f) as (items & E & Hitems).
    exists items.
    destruct (comprehension_ok
                (λ item : Prediction,
                   match dict_getitem item "predictions" with
                   | Ok a => array_first a
                   | Raise e => Raise e
                   end) items) as [preds Hp]; [|by exists preds].
    eapply Forall_impl; [exact Hitems|].
    intros item [(x & xs & Hx) _]. unfold dict_getitem. by rewrite Hx. }
  destruct (Hpred f_ptrain) as (items_t & predictions_t & Ept & Ect).
  destruct (Hpred f_pvalid) as (items_v & predictions_v & Epv & Ecv).
  destruct (mean_squared_error_returns Hlib predictions_t training_targets)
    as (mse_t & Emt & Hmt).
  destruct (mean_squared_error_returns Hlib predictions_v validation_targets)
    as (mse_v & Emv & Hmv).
  exists params, predictions_t, predictions_v,
    (PrimFloat.sqrt mse_t), (PrimFloat.sqrt mse_v).
  split; [exact Etrain|].
  unfold regressor_period.
  rewrite (bind_ok _ _ _ _ _ (train_run _ _ _ _ _ Etrain)). fold est'.
  rewrite (bind_ok _ _ _ _ _ (predict_run _ _ _ _ Ept)).
  rewrite (bind_ok _ _ _ _ _ (eq_trans (lift_run _ _) (f_equal _ Ect))).
  rewrite (bind_ok _ _ _ _ _ (predict_run _ _ _ _ Epv)).
  rewrite (bind_ok _ _ _ _ _ (eq_trans (lift_run _ _) (f_equal _ Ecv))).
  rewrite (bind_ok _ _ _ _ _ (mean_squared_error_run _ _ _ _ Emt)).
  rewrite (bind_ok _ _ _ _ _ (eq_trans (lift_run _ _) (f_equal _ (math_sqrt_ok _ Hmt)))).
  rewrite (bind_ok _ _ _ _ _ (mean_squared_error_run _ _ _ _ Emv)).
  rewrite (bind_ok _ _ _ _ _ (eq_trans (lift_run _ _) (f_equal _ (math_sqrt_ok _ Hmv)))).
  rewrite (bind_ok _ _ _ _ _ (print_run _ _)).
  unfold ret. by rewrite <- !app_assoc.
Qed.

(** The same for the classifier, whose score is the log loss. *)
Lemma classifier_period_run (Hlib : library_returns L)
  steps_per_period f_train f_ptrain f_pvalid training_targets validation_targets
  est training_log_losses validation_log_losses period (t : list Event) :
  ∃ params probabilities_t probabilities_v loss_t loss_v,
    let est' := mkEstimator (est_kind est) (est_feature_columns est)
                  (est_optimizer est) params in
    estimator_train est f_train steps_per_period = Ok params
    ∧ classifier_period steps_per_period f_train f_ptrain f_pvalid
        training_targets validation_targets
        (est, training_log_losses, validation_log_losses) period t
      = (t ++ [Call_train est f_train steps_per_period;
               Call_predict est' f_ptrain;
               Call_predict est' f_pvalid;
               Call_log_loss training_targets probabilities_t;
               Call_log_loss validation_targets probabilities_v;
               Call_print (PeriodLine period loss_t)],
         Ok (est', training_log_losses ++ [loss_t], validation_log_losses ++ [loss_v])).
Proof.
  destruct (is_ok_Ok _ (train_returns Hlib est f_train steps_per_period))
    as [params Etrain].
  set (est' := mkEstimator (est_kind est) (est_feature_columns est)
                 (est_optimizer est) params).
  assert (∀ f, ∃ items probs,
            estimator_predict est' f = Ok items
            ∧ comprehension (λ item : Prediction, dict_getitem item "probabilities")
                items = Ok probs) as Hpred.
  { intros f. destruct (predict_returns Hlib est' f) as (items & E & Hitems).
    exists items.
    destruct (comprehension_ok
                (λ item : Prediction, dict_getitem item "probabilities") items)
      as [probs Hp]; [|by exists probs].
    eapply Forall_impl; [exact Hitems|].
    intros item [_ [ps Hps]]. unfold dict_getitem. by rewrite Hps. }
  destruct (Hpred f_ptrain) as (items_t & probabilities_t & Ept & Ect).
  destruct (Hpred f_pvalid) as (items_v & probabilities_v & Epv & Ecv).
  destruct (is_ok_Ok _ (log_loss_returns Hlib training_targets probabilities_t))
    as [loss_t Elt].
  destruct (is_ok_Ok _ (log_loss_returns Hlib validation_targets probabilities_v))
    as [loss_v Elv].
  exists params, probabilities_t, probabilities_v, loss_t, loss_v.
  split; [exact Etrain|].
  unfold classifier_period.
  rewrite (bind_ok _ _ _ _ _ (train_run _ _ _ _ _ Etrain)). fold est'.
  rewrite (bind_ok _ _ _ _ _ (predict_run _ _ _ _ Ept)).
  rewrite (bind_ok _ _ _ _ _ (eq_trans (lift_run _ _) (f_equal _ Ect))).
  rewrite (bind_ok _ _ _ _ _ (predict_run _ _ _ _ Epv)).
  rewrite (bind_ok _ _ _ _ _ (eq_trans (lift_run _ _) (f_equal _ Ecv))).
  rewrite (bind_ok _ _ _ _ _ (log_loss_run _ _ _ _ Elt)).
  rewrite (bind_ok _ _ _ _ _ (log_loss_run _ _ _ _ Elv)).
  rewrite (bind_ok _ _ _ _ _ (print_run _ _)).
  unfold ret. by rewrite <- !app_assoc.
Qed.

(** ** The loop *)

Lemma range_snoc (n : nat) : range 0 (Z.of_nat (S n)) = range 0 (Z.of_nat n) ++ [Z.of_nat n].
Proof.
  unfold range. rewrite !Z.sub_0_r, !Nat2Z.id, seq_S, fmap_app. done.
Qed.

Lemma length_range (n : nat) : length (range 0 (Z.of_nat n)) = n.
Proof. unfold range. by rewrite length_fmap, length_seq, Z.sub_0_r, Nat2Z.id. Qed.

Lemma fitted_after_S n est f steps :
  fitted_after (S n) est f steps
  = match estimator_train est f steps with
    | Ok params =>
        fitted_after n
          (mkEstimator (est_kind est) (est_feature_columns est)
             (est_optimizer est) params) f steps
    | Raise e => Raise e
    end.
Proof. done. Qed.

Lemma fitted_after_snoc n est0 est f steps params :
  fitted_after n est0 f steps = Ok est →
  estimator_train est f steps = Ok params →
  fitted_after (S n) est0 f steps
  = Ok (mkEstimator (est_kind est) (est_feature_columns est) (est_optimizer est) params).
Proof.
  revert est0. induction n as [|n IH]; intros est0.
  - simpl. intros [= ->] ->. done.
  - intros H1 H2. rewrite fitted_after_S in H1 |- *.
    destruct (estimator_train est0 f steps) as [p|e]; [|done].
    by apply IH.
Qed.

Lemma fitted_after_kind n est0 est f steps :
  fitted_after n est0 f steps = Ok est →
  est_kind est = est_kind est0
  ∧ est_feature_columns est = est_feature_columns est0
  ∧ est_optimizer est = est_optimizer est0.
Proof.
  revert est0. induction n as [|n IH]; intros est0; simpl.
  - by intros [= ->].
  - destruct (estimator_train est0 f steps) as [p|e]; [|done].
    intros H. by apply IH in H.
Qed.

Lemma periods_done_zero spp f est0 : periods_done 0 spp f est0 [] est0 [] [].
Proof. by repeat split. Qed.

(** One more period, given the six events it adds. *)
Lemma periods_done_step n spp f est0 evs est tr va
  params (e2 e3 e4 e5 : Event) x y :
  periods_done n spp f est0 evs est tr va →
  estimator_train est f spp = Ok params →
  step_of e2 = PredictStep → step_of e3 = PredictStep →
  step_of e4 = ScoreStep → step_of e5 = ScoreStep →
  periods_done (S n) spp f est0
    (evs ++ [Call_train est f spp; e2; e3; e4; e5;
             Call_print (PeriodLine (Z.of_nat n) x)])
    (mkEstimator (est_kind est) (est_feature_columns est) (est_optimizer est) params)
    (tr ++ [x]) (va ++ [y]).
Proof.
  intros (Hsteps & Hreq & Hprint & Hplot & Htr & Hva & Hfit) Etrain H2 H3 H4 H5.
  unfold periods_done, train_requests, printed, plotted in *.
  rewrite fmap_app, !omap_app, Hsteps, Hreq, Hprint, Hplot, !length_app, Htr, Hva.
  assert (∀ ev, step_of ev = PredictStep ∨ step_of ev = ScoreStep →
            match ev with Call_train _ _ s => Some s | _ => None end = None
            ∧ match ev with Call_print l => Some l | _ => None end = None
            ∧ match ev with Call_plt c => Some c | _ => None end = None) as Hno.
  { intros [] [|]; done. }
  destruct (Hno e2) as (A2 & B2 & C2); [auto|].
  destruct (Hno e3) as (A3 & B3 & C3); [auto|].
  destruct (Hno e4) as (A4 & B4 & C4); [auto|].
  destruct (Hno e5) as (A5 & B5 & C5); [auto|].
  replace (S n) with (n + 1)%nat at 1 2 by lia.
  repeat split.
  - cbn [fmap list_fmap step_of]. rewrite H2, H3, H4, H5.
    by rewrite replicate_add, join_app.
  - cbn [omap list_omap]. rewrite A2, A3, A4, A5. by rewrite replicate_add.
  - cbn [omap list_omap]. rewrite B2, B3, B4, B5.
    rewrite range_snoc, zip_with_app; [done|]. by rewrite length_range.
  - cbn [omap list_omap]. by rewrite C2, C3, C4, C5.
  - simpl. lia.
  - simpl. lia.
  - by apply fitted_after_snoc.
Qed.

Lemma regressor_loop_run (Hlib : library_returns L)
  spp f_train f_ptrain f_pvalid training_targets validation_targets
  est0 (n : nat) (t0 : list Event) :
  ∃ evs est training_rmse validation_rmse,
    for_each (range 0 (Z.of_nat n))
      (regressor_period spp f_train f_ptrain f_pvalid
         training_targets validation_targets)
      (est0, [], []) t0
    = (t0 ++ evs, Ok (est, training_rmse, validation_rmse))
    ∧ periods_done n spp f_train est0 evs est training_rmse validation_rmse.
Proof.
  destruct (for_each_rule
    (λ i t (acc : LoopState),
       ∃ evs, t = t0 ++ evs
              ∧ periods_done i spp f_train est0 evs acc.1.1 acc.1.2 acc.2)
    (range 0 (Z.of_nat n))
    (regressor_period spp f_train f_ptrain f_pvalid
       training_targets validation_targets)) with (s := t0) (acc := (est0, [], []) : LoopState)
    as (t' & [[est tr] va] & E & evs & -> & Hdone).
  - intros i x t [[est tr] va] Hx (evs & -> & Hdone).
    apply range_lookup in Hx. rewrite Z.add_0_l in Hx. subst x.
    destruct (regressor_period_run Hlib spp f_train f_ptrain f_pvalid
                training_targets validation_targets est tr va (Z.of_nat i)
                (t0 ++ evs))
      as (params & pt & pv & x & y & Etrain & Erun).
    eexists _, _. split; [exact Erun|].
    eexists. split; [by rewrite <- app_assoc|].
    cbn [fst snd]. by eapply periods_done_step.
  - exists []. split; [by rewrite app_nil_r|]. apply periods_done_zero.
  - rewrite length_range in Hdone. by exists evs, est, tr, va.
Qed.

Lemma classifier_loop_run (Hlib : library_returns L)
  spp f_train f_ptrain f_pvalid training_targets validation_targets
  est0 (n : nat) (t0 : list Event) :
  ∃ evs est training_log_losses validation_log_losses,
    for_each (range 0 (Z.of_nat n))
      (classifier_period spp f_train f_ptrain f_pvalid
         training_targets validation_targets)
      (est0, [], []) t0
    = (t0 ++ evs, Ok (est, training_log_losses, validation_log_losses))
    ∧ periods_done n spp f_train est0 evs est
        training_log_losses validation_log_losses.
Proof.
  destruct (for_each_rule
    (λ i t (acc : LoopState),
       ∃ evs, t = t0 ++ evs
              ∧ periods_done i spp f_train est0 evs acc.1.1 acc.1.2 acc.2)
    (range 0 (Z.of_nat n))
    (classifier_period spp f_train f_ptrain f_pvalid
       training_targets validation_targets)) with (s := t0) (acc := (est0, [], []) : LoopState)
    as (t' & [[est tr] va] & E & evs & -> & Hdone).
  - intros i x t [[est tr] va] Hx (evs & -> & Hdone).
    apply range_lookup in Hx. rewrite Z.add_0_l in Hx. subst x.
    destruct (classifier_period_run Hlib spp f_train f_ptrain f_pvalid
                training_targets validation_targets est tr va (Z.of_nat i)
                (t0 ++ evs))
      as (params & pt & pv & x & y & Etrain & Erun).
    eexists _, _. split; [exact Erun|].
    eexists. split; [by rewrite <- app_assoc|].
    cbn [fst snd]. by eapply periods_done_step.
  - exists []. split; [by rewrite app_nil_r|]. apply periods_done_zero.
  - rewrite length_range in Hdone. by exists evs, est, tr, va.
Qed.

(** ** The two training functions, from the first call to the return *)

Lemma train_linear_regressor_model_run (Hlib : library_returns L)
  learning_rate steps batch_size training_examples training_targets
  validation_examples validation_targets spp (t0 : list Event) :
  int_truediv steps periods = Ok spp →
  let fc := construct_feature_columns (labels training_examples) in
  let opt := clip_gradients_by_norm (GradientDescentOptimizer learning_rate) 5 in
  let f_train := λ _ : unit,
    my_input_fn training_examples training_targets batch_size true None in
  ∃ params0 evs est training_rmse validation_rmse,
    estimator_init LinearRegressor fc opt = Ok params0
    ∧ train_linear_regressor_model learning_rate steps batch_size
        training_examples training_targets validation_examples validation_targets t0
      = (t0 ++ [Call_estimator LinearRegressor fc opt;
                Call_print (Text "Training model...");
                Call_print (Text "RMSE (on training data):")]
            ++ evs
            ++ [Call_print (Text "Model training finished.");
                Call_plt (plt_ylabel "RMSE");
                Call_plt (plt_xlabel "Periods");
                Call_plt (plt_title "Root Mean Squared Error vs. Periods");
                Call_plt plt_tight_layout;
                Call_plt (plt_plot training_rmse "training");
                Call_plt (plt_plot validation_rmse "validation");
                Call_plt plt_legend],
         Ok est)
    ∧ periods_done 10 spp f_train (mkEstimator LinearRegressor fc opt params0)
        evs est training_rmse validation_rmse.
Proof.
  intros Hspp fc opt f_train.
  destruct (is_ok_Ok _ (init_returns Hlib LinearRegressor fc opt)) as [params0 Einit].
  set (est0 := mkEstimator LinearRegressor fc opt params0).
  set (t1 := t0 ++ [Call_estimator LinearRegressor fc opt;
                    Call_print (Text "Training model...");
                    Call_print (Text "RMSE (on training data):")]).
  destruct (regressor_loop_run Hlib spp f_train
              (λ _ : unit, my_input_fn training_examples training_targets 1 false (Some 1))
              (λ _ : unit, my_input_fn validation_examples validation_targets 1 false (Some 1))
              training_targets validation_targets est0 10 t1)
    as (evs & est & tr & va & Eloop & Hdone).
  exists params0, evs, est, tr, va. split; [exact Einit|]. split; [|exact Hdone].
  unfold train_linear_regressor_model.
  rewrite (bind_ok _ _ _ _ _ (eq_trans (lift_run _ _) (f_equal _ Hspp))).
  rewrite (bind_ok _ _ _ _ _ (new_estimator_run _ _ _ _ _ Einit)).
  rewrite (bind_ok _ _ _ _ _ (print_run _ _)).
  rewrite (bind_ok _ _ _ _ _ (print_run _ _)).
  rewrite <- !app_assoc. cbn [app]. fold t1.
  change periods with (Z.of_nat 10).
  rewrite (bind_ok _ _ _ _ _ Eloop).
  repeat (first [ rewrite (bind_ok _ _ _ _ _ (print_run _ _))
                | rewrite (bind_ok _ _ _ _ _ (plt_run _ _)) ]).
  unfold ret, t1. by rewrite <- !app_assoc.
Qed.

Lemma train_linear_classifier_model_run (Hlib : library_returns L)
  learning_rate steps batch_size training_examples training_targets
  validation_examples validation_targets spp (t0 : list Event) :
  int_truediv steps periods = Ok spp →
  let fc := construct_feature_columns (labels training_examples) in
  let opt := clip_gradients_by_norm (GradientDescentOptimizer learning_rate) 5 in
  let f_train := λ _ : unit,
    my_input_fn training_examples training_targets batch_size true None in
  ∃ params0 evs est training_log_losses validation_log_losses,
    estimator_init LinearClassifier fc opt = Ok params0
    ∧ train_linear_classifier_model learning_rate steps batch_size
        training_examples training_targets validation_examples validation_targets t0
      = (t0 ++ [Call_estimator LinearClassifier fc opt;
                Call_print (Text "Training model...");
                Call_print (Text "LogLoss (on training data):")]
            ++ evs
            ++ [Call_print (Text "Model training finished.");
                Call_plt plt_figure;
                Call_plt (plt_ylabel "LogLoss");
                Call_plt (plt_xlabel "Periods");
                Call_plt (plt_title "LogLoss vs. Periods");
                Call_plt plt_tight_layout;
                Call_plt (plt_plot training_log_losses "training");
                Call_plt (plt_plot validation_log_losses "validation");
                Call_plt plt_legend],
         Ok est)
    ∧ periods_done 10 spp f_train (mkEstimator LinearClassifier fc opt params0)
        evs est training_log_losses validation_log_losses.
Proof.
  intros Hspp fc opt f_train.
  destruct (is_ok_Ok _ (init_returns Hlib LinearClassifier fc opt)) as [params0 Einit].
  set (est0 := mkEstimator LinearClassifier fc opt params0).
  set (t1 := t0 ++ [Call_estimator LinearClassifier fc opt;
                    Call_print (Text "Training model...");
                    Call_print (Text "LogLoss (on training data):")]).
  destruct (classifier_loop_run Hlib spp f_train
              (λ _ : unit, my_input_fn training_examples training_targets 1 false (Some 1))
              (λ _ : unit, my_input_fn validation_examples validation_targets 1 false (Some 1))
              training_targets validation_targets est0 10 t1)
    as (evs & est & tr & va & Eloop & Hdone).
  exists params0, evs, est, tr, va. split; [exact Einit|]. split; [|exact Hdone].
  unfold train_linear_classifier_model.
  rewrite (bind_ok _ _ _ _ _ (eq_trans (lift_run _ _) (f_equal _ Hspp))).
  rewrite (bind_ok _ _ _ _ _ (new_estimator_run _ _ _ _ _ Einit)).
  rewrite (bind_ok _ _ _ _ _ (print_run _ _)).
  rewrite (bind_ok _ _ _ _ _ (print_run _ _)).
  rewrite <- !app_assoc. cbn [app]. fold t1.
  change periods with (Z.of_nat 10).
  rewrite (bind_ok _ _ _ _ _ Eloop).
  repeat (first [ rewrite (bind_ok _ _ _ _ _ (print_run _ _))
                | rewrite (bind_ok _ _ _ _ _ (plt_run _ _)) ]).
  unfold ret, t1. by rewrite <- !app_assoc.
Qed.

(** ** Exceptions are not caught *)

Lemma propagates_ret {A} (a : A) : propagates (ret a).
Proof. by intros t Ht. Qed.

Lemma propagates_lift {A} (o : outcome A) : propagates (lift o).
Proof.
  intros t Ht. unfold lift. destruct o as [a|e]; [done|].
  intros ev e' Hev Hfail. rewrite Forall_forall in Ht.
  rewrite (Ht _ Hev) in Hfail. done.
Qed.

Lemma propagates_bind {A B} (c : Py (list Event) A) (k : A → Py (list Event) B) :
  propagates c → (∀ a, propagates (k a)) → propagates (bind c k).
Proof.
  intros Hc Hk t Ht. unfold bind. specialize (Hc t Ht).
  destruct (c t) as [t' [a|e]]; [by apply Hk|done].
Qed.

Lemma propagates_for_each {A B} (xs : list A) (body : B → A → Py (list Event) B) acc :
  (∀ acc x, propagates (body acc x)) → propagates (for_each xs body acc).
Proof.
  intros Hbody. revert acc. induction xs as [|x xs IH]; intros acc; simpl.
  - apply propagates_ret.
  - apply propagates_bind; [apply Hbody|apply IH].
Qed.

(** A recorded call whose outcome is the outcome of the computation. *)
Lemma propagates_call {A} (ev : Event) (o : outcome A) :
  call_failure ev = raised o → propagates (emit ev;;; lift o).
Proof.
  intros Hev t Ht. unfold bind, emit, lift. destruct o as [a|e]; simpl in Hev.
  - apply Forall_app. split; [done|]. by apply Forall_singleton.
  - intros ev' e' Hin Hfail. apply elem_of_app in Hin as [Hin|Hin].
    + rewrite Forall_forall in Ht. rewrite (Ht _ Hin) in Hfail. done.
    + apply list_elem_of_singleton in Hin. subst ev'. congruence.
Qed.

Lemma propagates_emit (ev : Event) : call_failure ev = None → propagates (emit ev).
Proof.
  intros Hev t Ht. unfold emit. apply Forall_app. split; [done|].
  by apply Forall_singleton.
Qed.

Lemma propagates_new_estimator kind fc opt : propagates (new_estimator kind fc opt).
Proof.
  intros t Ht. pose proof (propagates_call (Call_estimator kind fc opt)
                             (estimator_init kind fc opt) eq_refl t Ht) as H.
  unfold new_estimator. unfold bind, emit, lift, ret in *.
  by destruct (estimator_init kind fc opt).
Qed.

Lemma propagates_train est f steps : propagates (train est f steps).
Proof.
  intros t Ht. pose proof (propagates_call (Call_train est f steps)
                             (estimator_train est f steps) eq_refl t Ht) as H.
  unfold train. unfold bind, emit, lift, ret in *.
  by destruct (estimator_train est f steps).
Qed.

Lemma propagates_predict est f : propagates (predict est f).
Proof. by apply propagates_call. Qed.

Lemma propagates_mean_squared_error a b : propagates (metrics_mean_squared_error a b).
Proof. by apply propagates_call. Qed.

Lemma propagates_log_loss a b : propagates (metrics_log_loss a b).
Proof. by apply propagates_call. Qed.

Lemma propagates_print line : propagates (print line).
Proof. by apply propagates_emit. Qed.

Lemma propagates_plt call : propagates (plt call).
Proof. by apply propagates_emit. Qed.

Ltac propagate :=
  repeat match goal with
    | |- propagates (ret _) => apply propagates_ret
    | |- propagates (lift _) => apply propagates_lift
    | |- propagates (new_estimator _ _ _) => apply propagates_new_estimator
    | |- propagates (train _ _ _) => apply propagates_train
    | |- propagates (predict _ _) => apply propagates_predict
    | |- propagates (metrics_mean_squared_error _ _) =>
        apply propagates_mean_squared_error
    | |- propagates (metrics_log_loss _ _) => apply propagates_log_loss
    | |- propagates (print _) => apply propagates_print
    | |- propagates (plt _) => apply propagates_plt
    | |- propagates (bind (for_each _ _ _) _) =>
        apply propagates_bind;
        [apply propagates_for_each; intros ? ?|intros [[? ?] ?]]
    | |- propagates (bind _ _) => apply propagates_bind; [|intros ?]
    end.

Lemma propagates_regressor_period spp f1 f2 f3 tt vt vars period :
  propagates (regressor_period spp f1 f2 f3 tt vt vars period).
Proof. destruct vars as [[est tr] va]. unfold regressor_period. propagate. Qed.

Lemma propagates_classifier_period spp f1 f2 f3 tt vt vars period :
  propagates (classifier_period spp f1 f2 f3 tt vt vars period).
Proof. destruct vars as [[est tr] va]. unfold classifier_period. propagate. Qed.

Lemma propagates_train_linear_regressor_model lr steps bs te tt ve vt :
  propagates (train_linear_regressor_model lr steps bs te tt ve vt).
Proof.
  unfold train_linear_regressor_model. propagate.
  apply propagates_regressor_period.
Qed.

Lemma propagates_train_linear_classifier_model lr steps bs te tt ve vt :
  propagates (train_linear_classifier_model lr steps bs te tt ve vt).
Proof.
  unfold train_linear_classifier_model. propagate.
  apply propagates_classifier_period.
Qed.

(** From an empty trace: a call that raised decides the outcome. *)
Lemma propagates_outcome {A} (c : Py (list Event) A) t out ev e :
  propagates c → c [] = (t, out) → ev ∈ t → call_failure ev = Some e →
  out = Raise e.
Proof.
  intros Hc Hrun Hev Hfail. specialize (Hc [] (Forall_nil_2 _)).
  rewrite Hrun in Hc. destruct out as [a|e0].
  - rewrite Forall_forall in Hc. rewrite (Hc _ Hev) in Hfail. done.
  - f_equal. symmetry. by eapply Hc.
Qed.

(** The requests of a run are those of its periods. *)
Lemma train_requests_run (pre evs post : list Event) :
  train_requests pre = [] → train_requests post = [] →
  train_requests ([] ++ pre ++ evs ++ post) = train_requests evs.
Proof.
  intros Hpre Hpost. unfold train_requests in *.
  by rewrite !omap_app, Hpre, Hpost, app_nil_r.
Qed.

(** ** Properties of the training functions *)

(** X16. Where the docstring's reading of [steps] is met: when [steps] is a
    non-zero multiple of 10 below 2^53 in magnitude, and the library
    returns, both training functions return after ten calls of [train], each
    asked for the whole number [steps / 10] of steps, and the ten requests
    sum to [steps]. *)
Theorem training_steps_split_when_tenfold (Hlib : library_returns L)
  (learning_rate : float) (k batch_size : Z)
  (training_examples training_targets validation_examples validation_targets
     : DataFrame) :
  k ≠ 0 → Z.abs (10 * k) < 2 ^ 53 →
  ∃ t_reg est_reg t_cls est_cls,
    train_linear_regressor_model learning_rate (10 * k) batch_size
      training_examples training_targets validation_examples validation_targets []
    = (t_reg, Ok est_reg)
    ∧ train_linear_classifier_model learning_rate (10 * k) batch_size
        training_examples training_targets validation_examples validation_targets []
      = (t_cls, Ok est_cls)
    ∧ train_requests t_reg = replicate 10 (Z_to_float k)
    ∧ train_requests t_cls = replicate 10 (Z_to_float k)
    ∧ (∃ q, float_to_Q (Z_to_float k) = Some q ∧ (q == inject_Z k)%Q)
    ∧ (∃ total, exact_sum (replicate 10 (Z_to_float k)) = Some total
                ∧ (total == inject_Z (10 * k))%Q).
Proof.
  intros Hk Hb.
  assert (int_truediv (10 * k) periods = Ok (Z_to_float k)) as Hspp
    by (apply int_truediv_tenfold; lia).
  destruct (int_truediv_fivefold (2 * k)) as (spp & q & Hspp' & Eq & Hq); [lia..|].
  replace (5 * (2 * k)) with (10 * k) in Hspp', Hq by lia.
  change 10 with periods in Hspp' at 2. rewrite Hspp in Hspp'.
  injection Hspp' as <-.
  destruct (train_linear_regressor_model_run Hlib learning_rate (10 * k) batch_size
              training_examples training_targets validation_examples
              validation_targets _ [] Hspp)
    as (p1 & evs1 & est1 & tr1 & va1 & _ & E1 & (_ & Hreq1 & _)).
  destruct (train_linear_classifier_model_run Hlib learning_rate (10 * k) batch_size
              training_examples training_targets validation_examples
              validation_targets _ [] Hspp)
    as (p2 & evs2 & est2 & tr2 & va2 & _ & E2 & (_ & Hreq2 & _)).
  eexists _, est1, _, est2. split; [exact E1|]. split; [exact E2|].
  rewrite !train_requests_run, Hreq1, Hreq2 by done.
  do 2 (split; [done|]). split.
  - exists q. split; [done|]. rewrite Hq. unfold Qeq. cbn. lia.
  - assert (∀ n : nat, ∃ q', exact_sum (replicate n (Z_to_float k)) = Some q'
                             ∧ (q' == inject_Z (Z.of_nat n) * q)%Q) as Hn.
    { induction n as [|n (q' & Eq' & Hq')].
      - exists 0%Q. split; [done|]. by rewrite Qmult_0_l.
      - exists (Qred (q + q')). cbn [replicate exact_sum foldr].
        fold (exact_sum (replicate n (Z_to_float k))). rewrite Eq, Eq'.
        split; [done|]. rewrite Qred_correct, Hq', Nat2Z.inj_succ.
        unfold Z.succ. rewrite inject_Z_plus. ring. }
    destruct (Hn 10%nat) as (total & Et & Ht). exists total. split; [done|].
    rewrite Ht, Hq. unfold Qeq. cbn. lia.
Qed.

(** C4. The two histories of each training function start empty, every
    period adds exactly one value to each, after [n] periods each holds [n]
    values, and the histories handed to the plot at the end hold one value
    per period, ten in all. *)
Theorem metric_histories_one_per_period (Hlib : library_returns L)
  (learning_rate : float) (steps batch_size : Z)
  (training_examples training_targets validation_examples validation_targets
     : DataFrame) :
  is_ok (int_truediv steps periods) = true →
  (∃ t est training_rmse validation_rmse,
     train_linear_regressor_model learning_rate steps batch_size
       training_examples training_targets validation_examples validation_targets []
     = (t, Ok est)
     ∧ plotted t = [plt_ylabel "RMSE"; plt_xlabel "Periods";
                    plt_title "Root Mean Squared Error vs. Periods";
                    plt_tight_layout;
                    plt_plot training_rmse "training";
                    plt_plot validation_rmse "validation";
                    plt_legend]
     ∧ length training_rmse = Z.to_nat periods
     ∧ length validation_rmse = Z.to_nat periods)
  ∧ (∃ t est training_log_losses validation_log_losses,
       train_linear_classifier_model learning_rate steps batch_size
         training_examples training_targets validation_examples validation_targets []
       = (t, Ok est)
       ∧ plotted t = [plt_figure; plt_ylabel "LogLoss"; plt_xlabel "Periods";
                      plt_title "LogLoss vs. Periods";
                      plt_tight_layout;
                      plt_plot training_log_losses "training";
                      plt_plot validation_log_losses "validation";
                      plt_legend]
       ∧ length training_log_losses = Z.to_nat periods
       ∧ length validation_log_losses = Z.to_nat periods)
  ∧ Z.to_nat periods = 10%nat
  ∧ (∀ spp f1 f2 f3 tt vt est0 t0 (n : nat),
       ∃ t' est training validation,
         for_each (range 0 (Z.of_nat n)) (regressor_period spp f1 f2 f3 tt vt)
           (est0, [], []) t0 = (t', Ok (est, training, validation))
         ∧ length training = n ∧ length validation = n)
  ∧ (∀ spp f1 f2 f3 tt vt est0 t0 (n : nat),
       ∃ t' est training validation,
         for_each (range 0 (Z.of_nat n)) (classifier_period spp f1 f2 f3 tt vt)
           (est0, [], []) t0 = (t', Ok (est, training, validation))
         ∧ length training = n ∧ length validation = n)
  ∧ (∀ spp f1 f2 f3 tt vt est training validation period t,
       ∃ t' est' x y,
         regressor_period spp f1 f2 f3 tt vt (est, training, validation) period t
         = (t', Ok (est', training ++ [x], validation ++ [y])))
  ∧ (∀ spp f1 f2 f3 tt vt est training validation period t,
       ∃ t' est' x y,
         classifier_period spp f1 f2 f3 tt vt (est, training, validation) period t
         = (t', Ok (est', training ++ [x], validation ++ [y]))).
Proof.
  intros [spp Hspp]%is_ok_Ok.
  destruct (train_linear_regressor_model_run Hlib learning_rate steps batch_size
              training_examples training_targets validation_examples
              validation_targets _ [] Hspp)
    as (p1 & evs1 & est1 & tr1 & va1 & _ & E1 & (_ & _ & _ & Hplot1 & Htr1 & Hva1 & _)).
  destruct (train_linear_classifier_model_run Hlib learning_rate steps batch_size
              training_examples training_targets validation_examples
              validation_targets _ [] Hspp)
    as (p2 & evs2 & est2 & tr2 & va2 & _ & E2 & (_ & _ & _ & Hplot2 & Htr2 & Hva2 & _)).
  repeat split.
  - eexists _, est1, tr1, va1. split; [exact E1|].
    unfold plotted in *. by rewrite !omap_app, Hplot1.
  - eexists _, est2, tr2, va2. split; [exact E2|].
    unfold plotted in *. by rewrite !omap_app, Hplot2.
  - intros spp' f1 f2 f3 tt vt est0 t0 n.
    destruct (regressor_loop_run Hlib spp' f1 f2 f3 tt vt est0 n t0)
      as (evs & est & tr & va & E & (_ & _ & _ & _ & Htr & Hva & _)).
    by eexists _, est, tr, va.
  - intros spp' f1 f2 f3 tt vt est0 t0 n.
    destruct (classifier_loop_run Hlib spp' f1 f2 f3 tt vt est0 n t0)
      as (evs & est & tr & va & E & (_ & _ & _ & _ & Htr & Hva & _)).
    by eexists _, est, tr, va.
  - intros spp' f1 f2 f3 tt vt est tr va period t.
    destruct (regressor_period_run Hlib spp' f1 f2 f3 tt vt est tr va period t)
      as (params & pt & pv & x & y & _ & E).
    by eexists _, _, x, y.
  - intros spp' f1 f2 f3 tt vt est tr va period t.
    destruct (classifier_period_run Hlib spp' f1 f2 f3 tt vt est tr va period t)
      as (params & pt & pv & x & y & _ & E).
    by eexists _, _, x, y.
Qed.

(** C6. With a library that returns, each training function constructs its
    estimator (a [LinearRegressor], a [LinearClassifier]), announces the
    run, goes ten times through train, predict (training, validation), score
    (training, validation), log, announces the end, draws the plot and
    returns the estimator it constructed, fitted by the ten calls of [train];
    it prints one metric line per period, numbered from 0 to 9. *)
Theorem training_runs_in_order (Hlib : library_returns L)
  (learning_rate : float) (steps batch_size : Z)
  (training_examples training_targets validation_examples validation_targets
     : DataFrame) (spp : float) :
  int_truediv steps periods = Ok spp →
  let fc := construct_feature_columns (labels training_examples) in
  let opt := clip_gradients_by_norm (GradientDescentOptimizer learning_rate) 5 in
  let f_train := λ _ : unit,
    my_input_fn training_examples training_targets batch_size true None in
  let period_steps :=
    [TrainStep; PredictStep; PredictStep; ScoreStep; ScoreStep; LogStep] in
  (∃ t est params0 training_rmse,
     train_linear_regressor_model learning_rate steps batch_size
       training_examples training_targets validation_examples validation_targets []
     = (t, Ok est)
     ∧ step_of <$> t
       = [Construct; LogStep; LogStep] ++ mjoin (replicate 10 period_steps)
         ++ [LogStep] ++ replicate 7 PlotStep
     ∧ estimator_init LinearRegressor fc opt = Ok params0
     ∧ fitted_after 10 (mkEstimator LinearRegressor fc opt params0) f_train spp
       = Ok est
     ∧ est_kind est = LinearRegressor
     ∧ est_feature_columns est = fc
     ∧ est_optimizer est = opt
     ∧ printed t
       = [Text "Training model..."; Text "RMSE (on training data):"]
         ++ zip_with PeriodLine (range 0 10) training_rmse
         ++ [Text "Model training finished."]
     ∧ length training_rmse = 10%nat)
  ∧ (∃ t est params0 training_log_losses,
       train_linear_classifier_model learning_rate steps batch_size
         training_examples training_targets validation_examples validation_targets []
       = (t, Ok est)
       ∧ step_of <$> t
         = [Construct; LogStep; LogStep] ++ mjoin (replicate 10 period_steps)
           ++ [LogStep] ++ replicate 8 PlotStep
       ∧ estimator_init LinearClassifier fc opt = Ok params0
       ∧ fitted_after 10 (mkEstimator LinearClassifier fc opt params0) f_train spp
         = Ok est
       ∧ est_kind est = LinearClassifier
       ∧ est_feature_columns est = fc
       ∧ est_optimizer est = opt
       ∧ printed t
         = [Text "Training model..."; Text "LogLoss (on training data):"]
           ++ zip_with PeriodLine (range 0 10) training_log_losses
           ++ [Text "Model training finished."]
       ∧ length training_log_losses = 10%nat).
Proof.
  intros Hspp fc opt f_train period_steps.
  destruct (train_linear_regressor_model_run Hlib learning_rate steps batch_size
              training_examples training_targets validation_examples
              validation_targets _ [] Hspp)
    as (p1 & evs1 & est1 & tr1 & va1 & I1 & E1
        & (Hsteps1 & _ & Hprint1 & _ & Htr1 & _ & Hfit1)).
  destruct (train_linear_classifier_model_run Hlib learning_rate steps batch_size
              training_examples training_targets validation_examples
              validation_targets _ [] Hspp)
    as (p2 & evs2 & est2 & tr2 & va2 & I2 & E2
        & (Hsteps2 & _ & Hprint2 & _ & Htr2 & _ & Hfit2)).
  split.
  - destruct (fitted_after_kind _ _ _ _ _ Hfit1) as (K1 & K2 & K3).
    eexists _, est1, p1, tr1. split; [exact E1|].
    unfold printed in *. rewrite !fmap_app, !omap_app, Hsteps1, Hprint1.
    by repeat split.
  - destruct (fitted_after_kind _ _ _ _ _ Hfit2) as (K1 & K2 & K3).
    eexists _, est2, p2, tr2. split; [exact E2|].
    unfold printed in *. rewrite !fmap_app, !omap_app, Hsteps2, Hprint2.
    by repeat split.
Qed.

(** C5. Nothing is caught.  A call of [preprocess_features] on a frame that
    lacks a selected column raises pandas' [KeyError] naming it, and so does
    [preprocess_targets] without the price column.  A population of zero
    raises nothing: the call returns and the row holds NaN or an infinity.
    In both training functions an exception of the estimator or of a metric
    (a diverging training among them) is the outcome of the function. *)
Theorem failures_reach_the_caller :
  (∀ (h : Heap) (r : loc) (df : DataFrame) (name : string),
     h !! r = Some df → name ∈ feature_names → name ∉ labels df →
     ∃ h' missing,
       preprocess_features r h = (h', Raise (KeyError missing)) ∧ name ∈ missing)
  ∧ (∀ (h : Heap) (r : loc) (df : DataFrame) (threshold : float),
       h !! r = Some df → "median_house_value" ∉ labels df →
       ∃ h', preprocess_targets r threshold h
             = (h', Raise (KeyError ["median_house_value"])))
  ∧ (∀ (h : Heap) (r : loc) (df : DataFrame),
       h !! r = Some df → frame_wf df → has_columns df feature_names →
       ∃ (h' : Heap) (r' : loc) (out : DataFrame) (rooms pop ratio : list float),
         preprocess_features r h = (h', Ok r')
         ∧ h' !! r' = Some out
         ∧ column df "total_rooms" = Some rooms
         ∧ column df "population" = Some pop
         ∧ column out "rooms_per_person" = Some ratio
         ∧ (∀ i a z, rooms !! i = Some a → pop !! i = Some z →
              z = 0%float ∨ z = (-0)%float →
              ratio !! i = Some PrimFloat.nan
              ∨ ratio !! i = Some PrimFloat.infinity
              ∨ ratio !! i = Some PrimFloat.neg_infinity))
  ∧ (∀ learning_rate steps batch_size training_examples training_targets
       validation_examples validation_targets t out ev e,
       train_linear_regressor_model learning_rate steps batch_size
         training_examples training_targets validation_examples validation_targets []
       = (t, out) →
       ev ∈ t → call_failure ev = Some e → out = Raise e)
  ∧ (∀ learning_rate steps batch_size training_examples training_targets
       validation_examples validation_targets t out ev e,
       train_linear_classifier_model learning_rate steps batch_size
         training_examples training_targets validation_examples validation_targets []
       = (t, out) →
       ev ∈ t → call_failure ev = Some e → out = Raise e).
Proof.
  split; [|split; [|split; [|split]]].
  - intros h r df name H Hin Hnot.
    destruct (frame_getitem_list_missing df feature_names name Hin Hnot)
      as (missing & E & Hm).
    exists h, missing. split; [|done]. unfold preprocess_features.
    apply bind_raise. by rewrite (df_getitem_list_run _ _ _ _ H), E.
  - intros h r df threshold H Hnot. eexists.
    rewrite (preprocess_targets_run _ _ _ _ H). cbv zeta.
    by rewrite (frame_getitem_missing _ _ Hnot).
  - intros h r df H Hlen Hhas.
    destruct (has_columns_elem _ _ "total_rooms" Hhas) as [rooms Hrooms];
      [compute_done|].
    destruct (has_columns_elem _ _ "population" Hhas) as [pop Hpop];
      [compute_done|].
    eexists _, _, (features_frame df rooms pop), rooms, pop, _.
    split; [exact (preprocess_features_run _ _ _ _ _ H Hlen Hhas Hrooms Hpop)|].
    split; [apply lookup_insert_eq|].
    do 2 (split; [done|]).
    split; [by apply features_frame_ratio|].
    intros i a z Ha Hz Hzero. rewrite lookup_zip_with, Ha. cbn. rewrite Hz. cbn.
    destruct (div_zero_undefined a z Hzero) as [->|[->| ->]]; auto.
  - intros lr steps bs te tt ve vt t out ev e Hrun Hev Hfail.
    eapply propagates_outcome; [|exact Hrun|exact Hev|exact Hfail].
    apply propagates_train_linear_regressor_model.
  - intros lr steps bs te tt ve vt t out ev e Hrun Hev Hfail.
    eapply propagates_outcome; [|exact Hrun|exact Hev|exact Hfail].
    apply propagates_train_linear_classifier_model.
Qed.

End TrainingProofs.

(** ** The training functions on the sample data *)

Lemma toy_library_returns : library_returns toy_library.
Proof.
  split; try done.
  - intros est input_fn. exists toy_items. split; [done|].
    apply Forall_replicate. split; [by exists 2%float, []|by eexists].
  - intros y_true y_pred. by exists 4%float.
Qed.

Lemma training_steps_split_when_tenfold_witness :
  ∃ t_reg est_reg t_cls est_cls,
    train_linear_regressor_model (L := toy_library) 0.5 500 5
      sample_housing sample_targets sample_housing sample_targets []
    = (t_reg, Ok est_reg)
    ∧ train_linear_classifier_model (L := toy_library) 0.5 500 5
        sample_housing sample_targets sample_housing sample_targets []
      = (t_cls, Ok est_cls)
    ∧ train_requests t_reg = replicate 10 (Z_to_float 50)
    ∧ train_requests t_cls = replicate 10 (Z_to_float 50).
Proof.
  destruct (training_steps_split_when_tenfold (L := toy_library) toy_library_returns
              0.5 50 5 sample_housing sample_targets sample_housing sample_targets)
    as (t1 & e1 & t2 & e2 & E1 & E2 & R1 & R2 & _); [lia | lia |].
  by exists t1, e1, t2, e2.
Defined.

(** C3 fails for [steps = 1], an input the docstring allows ("a non-zero
    [int], the total number of training steps", a step being a pass on one
    batch): each of the ten calls of [train] is asked for the float64
    nearest to 1/10, which is no number of steps and is not 1/10, and the
    ten requests do not sum to 1, neither exactly nor as Python adds
    floats. *)
Lemma training_steps_not_split_at_1 :
  ∃ t est,
    train_linear_regressor_model (L := toy_library) 0.5 1 5
      sample_housing sample_targets sample_housing sample_targets []
    = (t, Ok est)
    ∧ train_requests t = replicate 10 (1 / 10)%float
    ∧ (∃ q, float_to_Q (1 / 10)%float = Some q ∧ ¬ (q == 1 # 10)%Q)
    ∧ (∃ q, exact_sum (train_requests t) = Some q ∧ ¬ (q == inject_Z 1)%Q)
    ∧ PrimFloat.eqb (float_sum (train_requests t)) 1%float = false.
Proof.
  destruct (train_linear_regressor_model_run (L := toy_library) toy_library_returns
              0.5 1 5 sample_housing sample_targets sample_housing sample_targets
              (1 / 10)%float [])
    as (p0 & evs & est & tr & va & _ & E & (_ & Hreq & _));
    [vm_compute; reflexivity|].
  eexists _, est. split; [exact E|].
  rewrite train_requests_run, Hreq by done.
  split; [done|].
  split; [eexists; split; [vm_compute; reflexivity|by vm_compute]|].
  split; [eexists; split; [vm_compute; reflexivity|by vm_compute]|].
  vm_compute. reflexivity.
Qed.

Lemma metric_histories_one_per_period_witness :
  ∃ t est training_rmse validation_rmse,
    train_linear_regressor_model (L := toy_library) 0.5 500 5
      sample_housing sample_targets sample_housing sample_targets []
    = (t, Ok est)
    ∧ plt_plot training_rmse "training" ∈ plotted t
    ∧ plt_plot validation_rmse "validation" ∈ plotted t
    ∧ length training_rmse = 10%nat
    ∧ length validation_rmse = 10%nat.
Proof.
  destruct (metric_histories_one_per_period (L := toy_library) toy_library_returns
              0.5 500 5 sample_housing sample_targets sample_housing sample_targets)
    as ((t & est & tr & va & E & Hplot & Htr & Hva) & _);
    [vm_compute; reflexivity|].
  exists t, est, tr, va. rewrite Hplot. repeat split; try assumption.
  - do 4 right. left.
  - do 5 right. left.
Defined.

Lemma training_runs_in_order_witness :
  ∃ t est,
    train_linear_classifier_model (L := toy_library) 0.5 500 5
      sample_housing sample_targets sample_housing sample_targets []
    = (t, Ok est)
    ∧ est_kind est = LinearClassifier
    ∧ length (printed t) = 13%nat.
Proof.
  destruct (training_runs_in_order (L := toy_library) toy_library_returns
              0.5 500 5 sample_housing sample_targets sample_housing sample_targets
              50%float)
    as (_ & t & est & p0 & tr & E & _ & _ & _ & Hkind & _ & _ & Hprint & Htr);
    [vm_compute; reflexivity|].
  exists t, est. split; [exact E|]. split; [exact Hkind|].
  rewrite Hprint, !length_app, length_zip_with, Htr. reflexivity.
Defined.

Lemma failures_reach_the_caller_witness :
  (∃ h' missing,
     preprocess_features 1%positive {[ 1%positive := sample_unpopulated ]}
     = (h', Raise (KeyError missing))
     ∧ "population" ∈ missing)
  ∧ (train_linear_regressor_model (L := diverging_library) 0.5 500 5
       sample_housing sample_targets sample_housing sample_targets []).2
    = Raise (LibraryError "NanLossDuringTrainingError").
Proof.
  destruct (failures_reach_the_caller (L := diverging_library))
    as (Hmissing & _ & _ & Hregressor & _).
  split.
  - apply (Hmissing _ 1%positive sample_unpopulated "population");
      [reflexivity | compute_done | compute_done].
  - eapply Hregressor.
    + apply surjective_pairing.
    + apply (list_elem_of_lookup_2 _ 3%nat). reflexivity.
    + reflexivity.
Defined.

(** * More properties *)

(** ** The frame [preprocess_features] returns, in closed form *)

(** ** The selected columns *)

Lemma selection_canonical df names :
  has_columns df names →
  (names ≫= λ n, columns_named n (df_columns df))
  = (λ name, (name, default [] (column df name))) <$> names.
Proof.
  induction 1 as [|n names [v Hv] _ IH]; [done|].
  rewrite bind_cons, fmap_cons, IH, (column_named _ _ _ Hv), Hv. done.
Qed.

Lemma features_frame_of df rooms pop :
  has_columns df feature_names →
  column df "total_rooms" = Some rooms → column df "population" = Some pop →
  features_frame df rooms pop = features_of df.
Proof.
  intros Hhas Hr Hp. unfold features_frame, features_of.
  by rewrite selection_canonical, Hr, Hp.
Qed.

Lemma returned_features (h : gmap loc DataFrame) r df :
  h !! r = Some df → frame_wf df → has_columns df feature_names →
  ∃ h' r', preprocess_features r h = (h', Ok r')
           ∧ h' !! r' = Some (features_of df)
           ∧ h !! r' = None
           ∧ h' !! r = Some df.
Proof.
  intros H Hwf Hhas.
  destruct (has_columns_elem _ _ "total_rooms" Hhas) as [rooms Hrooms];
    [compute_done|].
  destruct (has_columns_elem _ _ "population" Hhas) as [pop Hpop];
    [compute_done|].
  pose proof (preprocess_features_run _ _ _ _ _ H Hwf Hhas Hrooms Hpop) as Hrun.
  cbv zeta in Hrun. eexists _, _. split; [exact Hrun|].
  rewrite <- (features_frame_of df rooms pop) by done.
  split; [apply lookup_insert_eq|].
  set (r1 := fresh (dom h)) in *.
  set (h1 := <[r1 := _]> h) in *.
  assert (h1 !! fresh (dom h1) = None) as Hfresh
    by apply not_elem_of_dom, is_fresh.
  split.
  - unfold h1 in Hfresh at 1. apply lookup_insert_None in Hfresh. tauto.
  - rewrite lookup_insert_ne.
    + by apply alloc_preserves.
    + intros E. rewrite E in Hfresh. unfold h1 in Hfresh at 1.
      rewrite lookup_insert_ne, H in Hfresh; [done|].
      apply not_eq_sym. by eapply fresh_ne.
Qed.

(** The columns of [features_of df]. *)
Lemma column_features_of df name :
  name ∈ feature_names →
  column (features_of df) name = Some (default [] (column df name)).
Proof.
  intros Hin. unfold column, features_of. cbn [df_columns].
  unfold columns_named. rewrite filter_app.
  rewrite (filter_cons_False _ ("rooms_per_person", _)).
  2: { cbn. intros <-. revert Hin. compute_done. }
  rewrite filter_nil, app_nil_r.
  revert Hin. unfold feature_names.
  intros Hin. repeat (apply elem_of_cons in Hin as [->|Hin]; [done|]).
  by apply elem_of_nil in Hin.
Qed.

Lemma column_length df name vals :
  frame_wf df → column df name = Some vals → length vals = length (df_index df).
Proof.
  intros Hwf Hc. apply column_named in Hc.
  unfold frame_wf in Hwf. rewrite Forall_forall in Hwf.
  apply (Hwf (name, vals)).
  eapply columns_named_label. rewrite Hc. apply list_elem_of_here.
Qed.

Lemma has_columns_features_of df : has_columns (features_of df) feature_names.
Proof.
  unfold has_columns. apply Forall_forall. intros name Hin.
  rewrite column_features_of by done. eauto.
Qed.

Lemma frame_wf_features_of df :
  frame_wf df → has_columns df feature_names → frame_wf (features_of df).
Proof.
  intros Hwf Hhas. unfold frame_wf, features_of. cbn [df_columns df_index].
  apply Forall_app. split.
  - apply Forall_fmap, Forall_forall. intros name Hin. cbn.
    destruct (has_columns_elem _ _ _ Hhas Hin) as [v Hv]. rewrite Hv.
    by eapply column_length.
  - apply Forall_singleton. cbn.
    destruct (has_columns_elem _ _ "total_rooms" Hhas) as [rooms Hrooms];
      [compute_done|].
    destruct (has_columns_elem _ _ "population" Hhas) as [pop Hpop];
      [compute_done|].
    rewrite Hrooms, Hpop, length_zip_with. cbn.
    rewrite (column_length _ _ _ Hwf Hrooms), (column_length _ _ _ Hwf Hpop). lia.
Qed.

Lemma features_of_agree df1 df2 :
  df_index df1 = df_index df2 →
  Forall (λ name, column df1 name = column df2 name) feature_names →
  features_of df1 = features_of df2.
Proof.
  intros Hidx Hcols. unfold features_of. rewrite Hidx.
  rewrite Forall_forall in Hcols.
  rewrite (Hcols "total_rooms"), (Hcols "population") by compute_done.
  do 2 f_equal. apply list_fmap_ext. intros i name Hname.
  rewrite (Hcols name); [done|]. by eapply list_elem_of_lookup_2.
Qed.

Lemma features_of_idempotent df : features_of (features_of df) = features_of df.
Proof.
  unfold features_of at 1. cbn [df_index].
  rewrite !column_features_of by compute_done. cbn [default].
  by do 2 f_equal.
Qed.

(** ** Properties of the two frames, continued *)

(** X1. The frame [preprocess_features] returns has the row index of its
    argument and, under each of the eight selected labels, the values the
    argument has under that label. *)
Theorem preprocess_features_carries_columns
  (h : gmap loc DataFrame) (r : loc) (df : DataFrame) :
  h !! r = Some df → frame_wf df → has_columns df feature_names →
  ∃ (h' : gmap loc DataFrame) (r' : loc) (out : DataFrame),
    preprocess_features r h = (h', Ok r')
    ∧ h' !! r' = Some out
    ∧ df_index out = df_index df
    ∧ frame_wf out
    ∧ Forall (λ name, is_Some (column df name)
                      ∧ column out name = column df name) feature_names.
Proof.
  intros H Hwf Hhas.
  destruct (returned_features h r df H Hwf Hhas) as (h' & r' & Hrun & Hout & _).
  exists h', r', (features_of df).
  split; [done|]. split; [done|]. split; [done|].
  split; [by apply frame_wf_features_of|].
  - apply Forall_forall. intros name Hin.
    destruct (has_columns_elem _ _ _ Hhas Hin) as [v Hv].
    split; [eauto|]. by rewrite column_features_of, Hv.
Qed.

Lemma preprocess_features_carries_columns_witness :
  ∃ (h' : gmap loc DataFrame) (r' : loc) (out : DataFrame),
    preprocess_features 1%positive sample_heap = (h', Ok r')
    ∧ h' !! r' = Some out
    ∧ column out "households" = Some [472; 463; 117]%float.
Proof.
  destruct (preprocess_features_carries_columns sample_heap 1%positive sample_housing)
    as (h' & r' & out & Hrun & Hout & _ & _ & Hcols).
  - reflexivity.
  - unfold frame_wf. compute_done.
  - unfold has_columns. compute_done.
  - exists h', r', out. split; [exact Hrun|]. split; [exact Hout|].
    rewrite Forall_forall in Hcols.
    destruct (Hcols "households") as [_ ->]; [compute_done|]. reflexivity.
Defined.

(** X2. The frame [preprocess_features] returns is a function of the row
    index and the eight selected columns: two frames that agree on these,
    whatever else they hold, give equal frames. *)
Theorem preprocess_features_depends_on_selection_only
  (h1 h2 : gmap loc DataFrame) (r1 r2 : loc) (df1 df2 : DataFrame) :
  h1 !! r1 = Some df1 → h2 !! r2 = Some df2 →
  frame_wf df1 → frame_wf df2 →
  has_columns df1 feature_names → has_columns df2 feature_names →
  df_index df1 = df_index df2 →
  Forall (λ name, column df1 name = column df2 name) feature_names →
  ∃ out, returned_frame (preprocess_features r1 h1) = Ok out
         ∧ returned_frame (preprocess_features r2 h2) = Ok out.
Proof.
  intros H1 H2 Hwf1 Hwf2 Hhas1 Hhas2 Hidx Hcols.
  destruct (returned_features h1 r1 df1 H1 Hwf1 Hhas1) as (h1' & r1' & E1 & O1 & _).
  destruct (returned_features h2 r2 df2 H2 Hwf2 Hhas2) as (h2' & r2' & E2 & O2 & _).
  exists (features_of df1). unfold returned_frame. rewrite E1, E2. cbn [fst snd].
  by rewrite O1, O2, (features_of_agree df1 df2).
Qed.

(** X3. [preprocess_features] applied to the frame it returned returns an
    equal frame: the derived column is recomputed from the same rooms and
    population. *)
Theorem preprocess_features_idempotent
  (h : gmap loc DataFrame) (r : loc) (df : DataFrame) :
  h !! r = Some df → frame_wf df → has_columns df feature_names →
  ∃ (h' : gmap loc DataFrame) (r' : loc) (out : DataFrame),
    preprocess_features r h = (h', Ok r')
    ∧ h' !! r' = Some out
    ∧ returned_frame (preprocess_features r' h') = Ok out.
Proof.
  intros H Hwf Hhas.
  destruct (returned_features h r df H Hwf Hhas) as (h' & r' & Hrun & Hout & _).
  exists h', r', (features_of df). split; [done|]. split; [done|].
  destruct (returned_features h' r' (features_of df) Hout)
    as (h2 & r2 & Hrun2 & Hout2 & _).
  { by apply frame_wf_features_of. }
  { apply has_columns_features_of. }
  unfold returned_frame. rewrite Hrun2. cbn [fst snd].
  by rewrite Hout2, features_of_idempotent.
Qed.

Lemma preprocess_features_idempotent_witness :
  ∃ (h' : gmap loc DataFrame) (r' : loc) (out : DataFrame),
    preprocess_features 1%positive sample_heap = (h', Ok r')
    ∧ h' !! r' = Some out
    ∧ returned_frame (preprocess_features r' h') = Ok out.
Proof.
  apply (preprocess_features_idempotent sample_heap 1%positive sample_housing).
  - reflexivity.
  - unfold frame_wf. compute_done.
  - unfold has_columns. compute_done.
Defined.

Lemma df_getitem_heap (h : gmap loc DataFrame) r name :
  (df_getitem r name h).1 = h.
Proof.
  unfold df_getitem, bind, deref, lift. by destruct (h !! r).
Qed.

(** X4. [preprocess_targets] writes to no frame that existed before the
    call, whether it returns or raises, and the reference it returns is to a
    new frame. *)
Theorem preprocess_targets_keeps_input
  (h : gmap loc DataFrame) (r l : loc) (threshold : float) (before : DataFrame) :
  h !! l = Some before →
  (preprocess_targets r threshold h).1 !! l = Some before
  ∧ (preprocess_targets r threshold h).2 ≠ Ok l.
Proof.
  intros Hl. assert (l ≠ fresh (dom h)) as Hne by by eapply fresh_ne.
  destruct (preprocess_targets r threshold h) as [h' out] eqn:E.
  cbn [fst snd]. revert E. unfold preprocess_targets, pd_DataFrame.
  rewrite (bind_ok _ _ _ _ _ (alloc_run _ _)).
  set (r' := fresh (dom h)) in *. set (h1 := <[r' := mkFrame [] []]> h).
  assert (h1 !! l = Some before) as Hl1
    by (unfold h1; by rewrite lookup_insert_ne).
  pose proof (df_getitem_heap h1 r "median_house_value") as Hsame.
  unfold bind at 1.
  destruct (df_getitem r "median_house_value" h1) as [h2 [s|e]];
    cbn [fst] in Hsame; subst h2; [|by intros [= <- <-]].
  assert (h1 !! r' = Some (mkFrame [] [])) as Hr' by apply lookup_insert_eq.
  unfold bind. rewrite (df_setitem_run _ _ _ _ _ Hr'), frame_setitem_blank.
  unfold ret. intros [= <- <-]. split; [|congruence].
  by rewrite lookup_insert_ne.
Qed.

Lemma preprocess_targets_keeps_input_witness :
  (preprocess_targets 1%positive default_threshold sample_heap).1 !! 1%positive
  = Some sample_housing
  ∧ (preprocess_targets 1%positive default_threshold sample_heap).2 ≠ Ok 1%positive.
Proof.
  apply (preprocess_targets_keeps_input sample_heap 1%positive 1%positive).
  reflexivity.
Defined.

Lemma preprocess_features_depends_on_selection_only_witness :
  ∃ out,
    returned_frame (preprocess_features 1%positive sample_heap) = Ok out
    ∧ returned_frame
        (preprocess_features 5%positive {[ 5%positive := sample_selected ]})
      = Ok out.
Proof.
  apply (preprocess_features_depends_on_selection_only
           sample_heap {[ 5%positive := sample_selected ]} 1%positive 5%positive
           sample_housing sample_selected).
  - reflexivity.
  - reflexivity.
  - unfold frame_wf. compute_done.
  - unfold frame_wf. compute_done.
  - unfold has_columns. compute_done.
  - unfold has_columns. compute_done.
  - reflexivity.
  - repeat constructor.
Defined.

(** X5. Features and targets made from one table go together: the two
    calls, one after the other, return two new, distinct frames, leave the table as it was, and both
    frames have the row index of the table with one value per row in every
    column. *)
Theorem features_and_targets_are_aligned
  (h : gmap loc DataFrame) (r : loc) (df : DataFrame) (prices : list float)
  (threshold : float) :
  h !! r = Some df → frame_wf df → has_columns df feature_names →
  column df "median_house_value" = Some prices →
  ∃ (h1 h' : gmap loc DataFrame) (rf rt : loc) (features targets : DataFrame),
    preprocess_features r h = (h1, Ok rf)
    ∧ preprocess_targets r threshold h1 = (h', Ok rt)
    ∧ rf ≠ rt ∧ h !! rf = None ∧ h !! rt = None
    ∧ h' !! r = Some df
    ∧ h' !! rf = Some features
    ∧ h' !! rt = Some targets
    ∧ df_index features = df_index df
    ∧ df_index targets = df_index df
    ∧ frame_wf features
    ∧ frame_wf targets.
Proof.
  intros H Hwf Hhas Hprices.
  destruct (returned_features h r df H Hwf Hhas)
    as (h1 & rf & Hrun & Hrf & Hnew & Hr1).
  set (rt := fresh (dom h1)).
  assert (rf ≠ rt) as Hne by by eapply fresh_ne.
  assert (h1 !! rt = None) as Hrt by apply not_elem_of_dom, is_fresh.
  assert (h ⊆ h1) as Hsub.
  { revert Hrun. unfold preprocess_features.
    destruct (has_columns_elem _ _ "total_rooms" Hhas) as [rooms Hrooms];
      [compute_done|].
    destruct (has_columns_elem _ _ "population" Hhas) as [pop Hpop];
      [compute_done|].
    pose proof (preprocess_features_run _ _ _ _ _ H Hwf Hhas Hrooms Hpop) as E.
    cbv zeta in E. unfold preprocess_features in E. rewrite E. intros [= <- <-].
    etrans; [|apply insert_subseteq, not_elem_of_dom, is_fresh].
    apply insert_subseteq, not_elem_of_dom, is_fresh. }
  exists h1, (<[rt := targets_frame (df_index df) prices threshold]> h1), rf, rt,
    (features_of df), (targets_frame (df_index df) prices threshold).
  split; [exact Hrun|].
  split.
  { rewrite (preprocess_targets_run _ _ _ _ Hr1).
    by rewrite (frame_getitem_column _ _ _ Hprices). }
  split; [done|]. split; [done|].
  split.
  { destruct (h !! rt) as [x|] eqn:E; [|done].
    by rewrite (lookup_weaken _ _ _ _ E Hsub) in Hrt. }
  split.
  { rewrite lookup_insert_ne; [done|]. intros <-. by rewrite Hr1 in Hrt. }
  split; [by rewrite lookup_insert_ne|].
  split; [apply lookup_insert_eq|].
  split; [done|]. split; [done|].
  split; [by apply frame_wf_features_of|].
  unfold frame_wf, targets_frame. cbn [df_columns df_index].
  apply Forall_singleton. cbn. rewrite length_fmap.
  by eapply column_length.
Qed.

Lemma features_and_targets_are_aligned_witness :
  ∃ (h1 h' : gmap loc DataFrame) (rf rt : loc) (features targets : DataFrame),
    preprocess_features 1%positive sample_heap = (h1, Ok rf)
    ∧ preprocess_targets 1%positive default_threshold h1 = (h', Ok rt)
    ∧ rf ≠ rt
    ∧ h' !! rf = Some features
    ∧ h' !! rt = Some targets
    ∧ df_index features = [7; 3; 5]
    ∧ df_index targets = [7; 3; 5].
Proof.
  destruct (features_and_targets_are_aligned sample_heap 1%positive sample_housing
              [66900; 280100; 265000]%float default_threshold)
    as (h1 & h' & rf & rt & f & t & E1 & E2 & Hne & _ & _ & _ & Hf & Ht & If & It & _).
  - reflexivity.
  - unfold frame_wf. compute_done.
  - unfold has_columns. compute_done.
  - reflexivity.
  - by exists h1, h', rf, rt, f, t.
Defined.

(** ** Feature columns, continued *)

(** X7. The set [construct_feature_columns] returns depends on which names
    are listed and on nothing else: two lists give the same set exactly when
    they list the same names, so the order of the names and their
    repetitions do not matter, and no names give no columns. *)
Theorem construct_feature_columns_same_names (names1 names2 : list string) :
  (construct_feature_columns names1 = construct_feature_columns names2
   ↔ ∀ name, name ∈ names1 ↔ name ∈ names2)
  ∧ (names1 ≡ₚ names2 →
     construct_feature_columns names1 = construct_feature_columns names2)
  ∧ construct_feature_columns (names1 ++ names2)
    = construct_feature_columns names1 ∪ construct_feature_columns names2
  ∧ construct_feature_columns [] = ∅.
Proof.
  assert (construct_feature_columns names1 = construct_feature_columns names2
          ↔ ∀ name, name ∈ names1 ↔ name ∈ names2) as Hiff.
  { split.
    - intros Heq name.
      assert (∀ l, name ∈ l ↔ numeric_column name ∈ construct_feature_columns l)
        as Hin.
      { intros l. rewrite elem_of_construct_feature_columns. split.
        - intros ?. by exists name.
        - by intros (n & Hn & ->%(inj numeric_column)). }
      by rewrite !Hin, Heq.
    - intros Hsame. apply set_eq. intros c.
      rewrite !elem_of_construct_feature_columns. by setoid_rewrite Hsame. }
  split; [exact Hiff|]. split; [|split].
  - intros Hperm. apply Hiff. intros name. by rewrite Hperm.
  - apply set_eq. intros c.
    rewrite elem_of_union, !elem_of_construct_feature_columns.
    setoid_rewrite elem_of_app. naive_solver.
  - done.
Qed.

Lemma construct_feature_columns_same_names_witness :
  construct_feature_columns ["households"; "population"; "households"]
  = construct_feature_columns ["population"; "households"].
Proof.
  destruct (construct_feature_columns_same_names
              ["households"; "population"; "households"]
              ["population"; "households"]) as [[_ Hsame] _].
  apply Hsame. intros name. rewrite !elem_of_cons, !elem_of_nil. tauto.
Defined.

(** ** float64 order *)

Lemma SFcompare_finite s1 m1 e1 s2 m2 e2 :
  SFcompare (S754_finite s1 m1 e1) (S754_finite s2 m2 e2)
  = Some match s1, s2 with
         | true, false => Lt
         | false, true => Gt
         | false, false =>
             match Z.compare e1 e2 with
             | Lt => Lt | Gt => Gt | Eq => Pos.compare m1 m2
             end
         | true, true =>
             match Z.compare e1 e2 with
             | Lt => Gt | Gt => Lt | Eq => CompOpp (Pos.compare m1 m2)
             end
         end.
Proof. done. Qed.

Ltac order_cases :=
  repeat match goal with
    | H : context [Z.compare ?x ?y] |- _ => destruct (Z.compare_spec x y); try subst
    | |- context [Z.compare ?x ?y] => destruct (Z.compare_spec x y); try subst
    | H : context [Pos.compare ?x ?y] |- _ => destruct (Pos.compare_spec x y); try subst
    | |- context [Pos.compare ?x ?y] => destruct (Pos.compare_spec x y); try subst
    end;
  simpl in *; try done; try lia.

Lemma SFleb_ltb_trans a b c :
  SFleb a b = true → SFltb b c = true → SFltb a c = true.
Proof.
  unfold SFleb, SFltb.
  destruct a as [[]|[]| |[] ma ea], b as [[]|[]| |[] mb eb],
    c as [[]|[]| |[] mc ec];
    rewrite ?SFcompare_finite; try done; cbn; try done; order_cases.
Qed.

Lemma float_gt_threshold p t1 t2 :
  PrimFloat.leb t1 t2 = true → float_gt p t2 = true → float_gt p t1 = true.
Proof.
  unfold float_gt. rewrite leb_spec, !ltb_spec. apply SFleb_ltb_trans.
Qed.

Lemma float_of_bool_1 b : float_of_bool b = 1%float → b = true.
Proof.
  destruct b; [done|]. intros H. apply (f_equal Prim2SF) in H.
  vm_compute in H. discriminate.
Qed.

(** X6. Raising the threshold of [preprocess_targets] can only lower
    targets: on one table, the two calls return frames over the same rows,
    and every row that is 1.0 at the higher threshold is 1.0 at the lower
    one. *)
Theorem preprocess_targets_monotone
  (h : gmap loc DataFrame) (r : loc) (df : DataFrame) (prices : list float)
  (lower higher : float) :
  h !! r = Some df →
  column df "median_house_value" = Some prices →
  PrimFloat.leb lower higher = true →
  ∃ (r' : loc) (at_lower at_higher : list float),
    preprocess_targets r lower h
      = (<[r' := mkFrame (df_index df)
                   [("median_house_value_is_high", at_lower)]]> h, Ok r')
    ∧ preprocess_targets r higher h
      = (<[r' := mkFrame (df_index df)
                   [("median_house_value_is_high", at_higher)]]> h, Ok r')
    ∧ length at_lower = length at_higher
    ∧ (∀ i, at_higher !! i = Some 1%float → at_lower !! i = Some 1%float).
Proof.
  intros H Hcol Hle.
  exists (fresh (dom h)),
    ((λ p, float_of_bool (float_gt p lower)) <$> prices),
    ((λ p, float_of_bool (float_gt p higher)) <$> prices).
  rewrite !(preprocess_targets_run _ _ _ _ H), (frame_getitem_column _ _ _ Hcol).
  repeat split.
  - by rewrite !length_fmap.
  - intros i. rewrite !list_lookup_fmap.
    destruct (prices !! i) as [p|]; [|done]. simpl. intros [= Hi].
    apply float_of_bool_1 in Hi.
    by rewrite (float_gt_threshold _ _ _ Hle Hi).
Qed.

Lemma preprocess_targets_monotone_witness :
  ∃ (r' : loc) (at_lower at_higher : list float),
    preprocess_targets 1%positive 100000 sample_heap
      = (<[r' := mkFrame [7; 3; 5]
                   [("median_house_value_is_high", at_lower)]]> sample_heap, Ok r')
    ∧ preprocess_targets 1%positive default_threshold sample_heap
      = (<[r' := mkFrame [7; 3; 5]
                   [("median_house_value_is_high", at_higher)]]> sample_heap, Ok r')
    ∧ (at_higher !! 1%nat = Some 1%float → at_lower !! 1%nat = Some 1%float).
Proof.
  destruct (preprocess_targets_monotone sample_heap 1%positive sample_housing
              [66900; 280100; 265000]%float 100000 default_threshold)
    as (r' & lo & hi & E1 & E2 & _ & Hrow);
    [reflexivity | reflexivity | vm_compute; reflexivity |].
  exists r', lo, hi. split; [exact E1|]. split; [exact E2|]. apply Hrow.
Defined.

(** ** Any run of a loop *)

(** An invariant that every iteration keeps when it returns, and a property
    of the state that it establishes when it raises, describe the loop
    however it ends. *)
Lemma for_each_cases {S A B} (I : S → B → Prop) (E : S → Prop) (xs : list A)
  (body : B → A → Py S B) :
  (∀ x s acc, I s acc →
     match body acc x s with
     | (s', Ok acc') => I s' acc'
     | (s', Raise _) => E s'
     end) →
  ∀ s acc, I s acc →
    match for_each xs body acc s with
    | (s', Ok acc') => I s' acc'
    | (s', Raise _) => E s'
    end.
Proof.
  intros Hbody. induction xs as [|x xs IH]; intros s acc H; [done|].
  cbn [for_each]. unfold bind at 1. specialize (Hbody x s acc H).
  destruct (body acc x s) as [s1 [acc1|e]]; [by apply IH|done].
Qed.

Section TrainingMoreProofs.
Context {L : Library}.

(** ** What every event of a run satisfies *)

Lemma keeps_ret (P : Event → Prop) {A} (a : A) : keeps P (ret a).
Proof. by intros t Ht. Qed.

Lemma keeps_lift (P : Event → Prop) {A} (o : outcome A) : keeps P (lift o).
Proof. by intros t Ht. Qed.

Lemma keeps_bind (P : Event → Prop) {A B} (c : Py (list Event) A)
  (k : A → Py (list Event) B) :
  keeps P c → (∀ a, keeps P (k a)) → keeps P (bind c k).
Proof.
  intros Hc Hk t Ht. unfold bind. specialize (Hc t Ht).
  destruct (c t) as [t' [a|e]]; [by apply Hk|done].
Qed.

Lemma keeps_bind_lift (P : Event → Prop) {A B} (o : outcome A)
  (k : A → Py (list Event) B) :
  (∀ a, o = Ok a → keeps P (k a)) → keeps P (bind (lift o) k).
Proof.
  intros Hk t Ht. unfold bind, lift. destruct o as [a|e]; [by apply Hk|done].
Qed.

Lemma keeps_for_each (P : Event → Prop) {A B} (xs : list A)
  (body : B → A → Py (list Event) B) acc :
  (∀ acc x, keeps P (body acc x)) → keeps P (for_each xs body acc).
Proof.
  intros Hbody. revert acc. induction xs as [|x xs IH]; intros acc; simpl.
  - apply keeps_ret.
  - apply keeps_bind; [apply Hbody|apply IH].
Qed.

Lemma keeps_emit (P : Event → Prop) (ev : Event) : P ev → keeps P (emit ev).
Proof.
  intros Hev t Ht. unfold emit. simpl. apply Forall_app. split; [done|].
  by apply Forall_singleton.
Qed.

Lemma keeps_new_estimator (P : Event → Prop) kind fc opt :
  P (Call_estimator kind fc opt) → keeps P (new_estimator kind fc opt).
Proof.
  intros H. unfold new_estimator.
  apply keeps_bind; [by apply keeps_emit|]. intros _.
  apply keeps_bind; [apply keeps_lift|]. intros p. apply keeps_ret.
Qed.

Lemma keeps_train (P : Event → Prop) est input_fn steps :
  P (Call_train est input_fn steps) → keeps P (train est input_fn steps).
Proof.
  intros H. unfold train.
  apply keeps_bind; [by apply keeps_emit|]. intros _.
  apply keeps_bind; [apply keeps_lift|]. intros p. apply keeps_ret.
Qed.

Lemma keeps_predict (P : Event → Prop) est input_fn :
  P (Call_predict est input_fn) → keeps P (predict est input_fn).
Proof.
  intros H. unfold predict.
  apply keeps_bind; [by apply keeps_emit|]. intros _. apply keeps_lift.
Qed.

Lemma keeps_mean_squared_error (P : Event → Prop) y_true y_pred :
  P (Call_mean_squared_error y_true y_pred) →
  keeps P (metrics_mean_squared_error y_true y_pred).
Proof.
  intros H. unfold metrics_mean_squared_error.
  apply keeps_bind; [by apply keeps_emit|]. intros _. apply keeps_lift.
Qed.

Lemma keeps_log_loss (P : Event → Prop) y_true y_pred :
  P (Call_log_loss y_true y_pred) → keeps P (metrics_log_loss y_true y_pred).
Proof.
  intros H. unfold metrics_log_loss.
  apply keeps_bind; [by apply keeps_emit|]. intros _. apply keeps_lift.
Qed.

Lemma keeps_regressor_period (P : Event → Prop) spp f1 f2 f3
  (training_targets validation_targets : DataFrame) vars period :
  (∀ est, P (Call_train est f1 spp)) →
  (∀ est, P (Call_predict est f2)) →
  (∀ est, P (Call_predict est f3)) →
  (∀ ys, P (Call_mean_squared_error ys training_targets)) →
  (∀ ys, P (Call_mean_squared_error ys validation_targets)) →
  (∀ x, P (Call_print (PeriodLine period x))) →
  keeps P (regressor_period spp f1 f2 f3 training_targets validation_targets
             vars period).
Proof.
  intros Htrain Hp2 Hp3 Hm1 Hm2 Hprint. destruct vars as [[est tr] va].
  unfold regressor_period.
  apply keeps_bind; [by apply keeps_train|]. intros est1.
  apply keeps_bind; [by apply keeps_predict|]. intros items1.
  apply keeps_bind; [apply keeps_lift|]. intros ys1.
  apply keeps_bind; [by apply keeps_predict|]. intros items2.
  apply keeps_bind; [apply keeps_lift|]. intros ys2.
  apply keeps_bind; [by apply keeps_mean_squared_error|]. intros mse1.
  apply keeps_bind; [apply keeps_lift|]. intros rmse1.
  apply keeps_bind; [by apply keeps_mean_squared_error|]. intros mse2.
  apply keeps_bind; [apply keeps_lift|]. intros rmse2.
  apply keeps_bind; [by apply keeps_emit|]. intros _. apply keeps_ret.
Qed.

Lemma keeps_classifier_period (P : Event → Prop) spp f1 f2 f3
  (training_targets validation_targets : DataFrame) vars period :
  (∀ est, P (Call_train est f1 spp)) →
  (∀ est, P (Call_predict est f2)) →
  (∀ est, P (Call_predict est f3)) →
  (∀ ps, P (Call_log_loss training_targets ps)) →
  (∀ ps, P (Call_log_loss validation_targets ps)) →
  (∀ x, P (Call_print (PeriodLine period x))) →
  keeps P (classifier_period spp f1 f2 f3 training_targets validation_targets
             vars period).
Proof.
  intros Htrain Hp2 Hp3 Hm1 Hm2 Hprint. destruct vars as [[est tr] va].
  unfold classifier_period.
  apply keeps_bind; [by apply keeps_train|]. intros est1.
  apply keeps_bind; [by apply keeps_predict|]. intros items1.
  apply keeps_bind; [apply keeps_lift|]. intros ps1.
  apply keeps_bind; [by apply keeps_predict|]. intros items2.
  apply keeps_bind; [apply keeps_lift|]. intros ps2.
  apply keeps_bind; [by apply keeps_log_loss|]. intros loss1.
  apply keeps_bind; [by apply keeps_log_loss|]. intros loss2.
  apply keeps_bind; [by apply keeps_emit|]. intros _. apply keeps_ret.
Qed.

(** The calls made after the loop. *)
Ltac keeps_tail :=
  repeat (apply keeps_bind; [by apply keeps_emit|]; intros _);
  apply keeps_ret.

Lemma keeps_expected_regressor learning_rate steps batch_size
  training_examples training_targets validation_examples validation_targets :
  keeps (expected_call LinearRegressor learning_rate steps batch_size
           training_examples training_targets validation_examples
           validation_targets)
    (train_linear_regressor_model learning_rate steps batch_size
       training_examples training_targets validation_examples validation_targets).
Proof.
  unfold train_linear_regressor_model.
  apply keeps_bind_lift. intros spp Hspp.
  apply keeps_bind; [by apply keeps_new_estimator|]. intros est0.
  apply keeps_bind; [by apply keeps_emit|]. intros _.
  apply keeps_bind; [by apply keeps_emit|]. intros _.
  apply keeps_bind.
  - apply keeps_for_each. intros vars period.
    apply keeps_regressor_period; intros; simpl; auto.
  - intros [[est tr] va]. keeps_tail.
Qed.

Lemma keeps_expected_classifier learning_rate steps batch_size
  training_examples training_targets validation_examples validation_targets :
  keeps (expected_call LinearClassifier learning_rate steps batch_size
           training_examples training_targets validation_examples
           validation_targets)
    (train_linear_classifier_model learning_rate steps batch_size
       training_examples training_targets validation_examples validation_targets).
Proof.
  unfold train_linear_classifier_model.
  apply keeps_bind_lift. intros spp Hspp.
  apply keeps_bind; [by apply keeps_new_estimator|]. intros est0.
  apply keeps_bind; [by apply keeps_emit|]. intros _.
  apply keeps_bind; [by apply keeps_emit|]. intros _.
  apply keeps_bind.
  - apply keeps_for_each. intros vars period.
    apply keeps_classifier_period; intros; simpl; auto.
  - intros [[est tr] va]. keeps_tail.
Qed.

(** X8. On every path, whatever the library does, a training function
    makes only these calls on its arguments: it constructs an estimator of
    its kind, with one feature column per name of the training examples and
    gradient descent at the given learning rate clipped at 5.0; every call
    of [train] is given [steps / 10] and the training frames in shuffled
    batches of [batch_size], repeated without end; every call of [predict]
    is given the training or the validation frames row by row, in order,
    once; the regressor scores against the two target frames with the mean
    squared error only, the classifier with the log loss only. *)
Theorem training_functions_call_as_expected
  (learning_rate : float) (steps batch_size : Z)
  (training_examples training_targets validation_examples validation_targets
     : DataFrame) :
  Forall (expected_call LinearRegressor learning_rate steps batch_size
            training_examples training_targets validation_examples
            validation_targets)
    (train_linear_regressor_model learning_rate steps batch_size
       training_examples training_targets validation_examples
       validation_targets []).1
  ∧ Forall (expected_call LinearClassifier learning_rate steps batch_size
              training_examples training_targets validation_examples
              validation_targets)
      (train_linear_classifier_model learning_rate steps batch_size
         training_examples training_targets validation_examples
         validation_targets []).1.
Proof.
  split; [by apply keeps_expected_regressor|by apply keeps_expected_classifier].
Qed.

(** ** A run that raises *)



(** ** The estimator from call to call *)

Lemma estimator_after_app est (t evs : list Event) :
  estimator_after est (t ++ evs) = estimator_after (estimator_after est t) evs.
Proof.
  revert est. induction t as [|ev t IH]; intros est; [done|].
  destruct ev; simpl; try apply IH.
  destruct (estimator_train est input_fn steps); apply IH.
Qed.

Lemma threaded_app est (t evs : list Event) :
  threaded est (t ++ evs)
  ↔ threaded est t ∧ threaded (estimator_after est t) evs.
Proof.
  revert est. induction t as [|ev t IH]; intros est; [simpl; tauto|].
  destruct ev; simpl; rewrite ?IH; try tauto.
  destruct (estimator_train est input_fn steps); rewrite IH; tauto.
Qed.

Lemma threaded_snoc est (t : list Event) ev :
  threaded est t → threaded (estimator_after est t) [ev] → threaded est (t ++ [ev]).
Proof. intros. by apply threaded_app. Qed.

Ltac thread_leaf Etrain :=
  rewrite <- ?app_assoc; simpl;
  rewrite ?threaded_app, ?estimator_after_app; simpl; rewrite ?Etrain; simpl;
  try tauto.

Lemma threaded_regressor_period est0 spp f1 f2 f3 training_targets
  validation_targets vars period (t : list Event) :
  threaded est0 t → vars.1.1 = estimator_after est0 t →
  match regressor_period spp f1 f2 f3 training_targets validation_targets
          vars period t with
  | (t', Ok vars') => threaded est0 t' ∧ vars'.1.1 = estimator_after est0 t'
  | (t', Raise _) => threaded est0 t'
  end.
Proof.
  destruct vars as [[est tr] va]. simpl. intros Ht ->.
  unfold regressor_period, train, predict, metrics_mean_squared_error, print,
    emit, bind, lift, ret. simpl.
  destruct (estimator_train (estimator_after est0 t) f1 spp) as [p|e] eqn:Etrain;
    simpl; [|thread_leaf Etrain].
  destruct (estimator_predict _ f2) as [items1|e]; [|thread_leaf Etrain].
  destruct (comprehension _ items1) as [ys1|e]; [|thread_leaf Etrain].
  destruct (estimator_predict _ f3) as [items2|e]; [|thread_leaf Etrain].
  destruct (comprehension _ items2) as [ys2|e]; [|thread_leaf Etrain].
  destruct (mean_squared_error ys1 _) as [mse1|e]; [|thread_leaf Etrain].
  destruct (math_sqrt mse1) as [rmse1|e]; [|thread_leaf Etrain].
  destruct (mean_squared_error ys2 _) as [mse2|e]; [|thread_leaf Etrain].
  destruct (math_sqrt mse2) as [rmse2|e]; thread_leaf Etrain.
Qed.

Lemma threaded_classifier_period est0 spp f1 f2 f3 training_targets
  validation_targets vars period (t : list Event) :
  threaded est0 t → vars.1.1 = estimator_after est0 t →
  match classifier_period spp f1 f2 f3 training_targets validation_targets
          vars period t with
  | (t', Ok vars') => threaded est0 t' ∧ vars'.1.1 = estimator_after est0 t'
  | (t', Raise _) => threaded est0 t'
  end.
Proof.
  destruct vars as [[est tr] va]. simpl. intros Ht ->.
  unfold classifier_period, train, predict, metrics_log_loss, print,
    emit, bind, lift, ret. simpl.
  destruct (estimator_train (estimator_after est0 t) f1 spp) as [p|e] eqn:Etrain;
    simpl; [|thread_leaf Etrain].
  destruct (estimator_predict _ f2) as [items1|e]; [|thread_leaf Etrain].
  destruct (comprehension _ items1) as [ps1|e]; [|thread_leaf Etrain].
  destruct (estimator_predict _ f3) as [items2|e]; [|thread_leaf Etrain].
  destruct (comprehension _ items2) as [ps2|e]; [|thread_leaf Etrain].
  destruct (log_loss _ ps1) as [loss1|e]; [|thread_leaf Etrain].
  destruct (log_loss _ ps2) as [loss2|e]; thread_leaf Etrain.
Qed.

(** X10. "Starting from the prior state": in any run of a training
    function whose estimator was constructed, every call of [train] is made
    on the estimator as the calls of [train] before it left it, every call
    of [predict] is made on the estimator as trained so far, and an
    estimator that is returned is the constructed one after all the calls
    of [train] of the run. *)
Theorem estimator_is_carried_from_call_to_call
  (learning_rate : float) (steps batch_size : Z)
  (training_examples training_targets validation_examples validation_targets
     : DataFrame) :
  let fc := construct_feature_columns (labels training_examples) in
  let opt := clip_gradients_by_norm (GradientDescentOptimizer learning_rate) 5 in
  (∀ params0 t out,
     estimator_init LinearRegressor fc opt = Ok params0 →
     train_linear_regressor_model learning_rate steps batch_size
       training_examples training_targets validation_examples
       validation_targets [] = (t, out) →
     let est0 := mkEstimator LinearRegressor fc opt params0 in
     threaded est0 t ∧ ∀ est, out = Ok est → est = estimator_after est0 t)
  ∧ (∀ params0 t out,
       estimator_init LinearClassifier fc opt = Ok params0 →
       train_linear_classifier_model learning_rate steps batch_size
         training_examples training_targets validation_examples
         validation_targets [] = (t, out) →
       let est0 := mkEstimator LinearClassifier fc opt params0 in
       threaded est0 t ∧ ∀ est, out = Ok est → est = estimator_after est0 t).
Proof.
  intros fc opt. split.
  - intros p0 t out Einit. unfold train_linear_regressor_model.
    unfold bind at 1, lift.
    destruct (int_truediv steps periods) as [spp|e]; [|by intros [= <- <-]].
    rewrite (bind_ok _ _ _ _ _ (new_estimator_run _ _ _ _ _ Einit)).
    rewrite (bind_ok _ _ _ _ _ (print_run _ _)).
    rewrite (bind_ok _ _ _ _ _ (print_run _ _)).
    set (est0 := mkEstimator LinearRegressor fc opt p0).
    unfold bind at 1.
    match goal with
    | |- context [for_each ?xs ?body ?acc ?t1] =>
        assert (match for_each xs body acc t1 with
                | (t', Ok vars') =>
                    threaded est0 t' ∧ vars'.1.1 = estimator_after est0 t'
                | (t', Raise _) => threaded est0 t'
                end) as Hloop;
        [|destruct (for_each xs body acc t1) as [t2 [[[est tr] va]|e]]]
    end.
    { apply (for_each_cases
               (λ t vars, threaded est0 t ∧ vars.1.1 = estimator_after est0 t)
               (threaded est0)); [|done].
      intros x s vars [H1 H2]. by apply threaded_regressor_period. }
    + destruct Hloop as [Ht2 Hest]. simpl in Hest.
      unfold print, plt, emit, bind, ret. intros [= <- <-]. cbv zeta.
      rewrite <- !app_assoc, threaded_app, estimator_after_app. simpl.
      split; [tauto|]. by intros est1 [= <-].
    + by intros [= <- <-].
  - intros p0 t out Einit. unfold train_linear_classifier_model.
    unfold bind at 1, lift.
    destruct (int_truediv steps periods) as [spp|e]; [|by intros [= <- <-]].
    rewrite (bind_ok _ _ _ _ _ (new_estimator_run _ _ _ _ _ Einit)).
    rewrite (bind_ok _ _ _ _ _ (print_run _ _)).
    rewrite (bind_ok _ _ _ _ _ (print_run _ _)).
    set (est0 := mkEstimator LinearClassifier fc opt p0).
    unfold bind at 1.
    match goal with
    | |- context [for_each ?xs ?body ?acc ?t1] =>
        assert (match for_each xs body acc t1 with
                | (t', Ok vars') =>
                    threaded est0 t' ∧ vars'.1.1 = estimator_after est0 t'
                | (t', Raise _) => threaded est0 t'
                end) as Hloop;
        [|destruct (for_each xs body acc t1) as [t2 [[[est tr] va]|e]]]
    end.
    { apply (for_each_cases
               (λ t vars, threaded est0 t ∧ vars.1.1 = estimator_after est0 t)
               (threaded est0)); [|done].
      intros x s vars [H1 H2]. by apply threaded_classifier_period. }
    + destruct Hloop as [Ht2 Hest]. simpl in Hest.
      unfold print, plt, emit, bind, ret. intros [= <- <-]. cbv zeta.
      rewrite <- !app_assoc, threaded_app, estimator_after_app. simpl.
      split; [tauto|]. by intros est1 [= <-].
    + by intros [= <- <-].
Qed.

(** ** The histories and the metric calls *)

Lemma interleave_snoc (training validation : list float) a b :
  length training = length validation →
  interleave (training ++ [a]) (validation ++ [b])
  = interleave training validation ++ [a; b].
Proof.
  intros Hlen. unfold interleave.
  rewrite zip_with_app by done. simpl. by rewrite join_app.
Qed.

Lemma math_sqrt_Ok x y : math_sqrt x = Ok y → y = PrimFloat.sqrt x.
Proof. unfold math_sqrt. destruct (PrimFloat.ltb x 0); by intros [= <-]. Qed.

Lemma scores_regressor_period spp f1 f2 f3 training_targets validation_targets
  vars period (t : list Event) :
  PrimFloat.sqrt <$> scores t = interleave vars.1.2 vars.2 →
  length vars.1.2 = length vars.2 →
  match regressor_period spp f1 f2 f3 training_targets validation_targets
          vars period t with
  | (t', Ok vars') =>
      PrimFloat.sqrt <$> scores t' = interleave vars'.1.2 vars'.2
      ∧ length vars'.1.2 = length vars'.2
  | (t', Raise _) => True
  end.
Proof.
  destruct vars as [[est tr] va]. simpl. intros Ht Hlen.
  unfold regressor_period, train, predict, metrics_mean_squared_error, print,
    emit, bind, lift, ret. simpl.
  destruct (estimator_train est f1 spp) as [p|e]; simpl; [|done].
  destruct (estimator_predict _ f2) as [items1|e]; [|done].
  destruct (comprehension _ items1) as [ys1|e]; [|done].
  destruct (estimator_predict _ f3) as [items2|e]; [|done].
  destruct (comprehension _ items2) as [ys2|e]; [|done].
  destruct (mean_squared_error ys1 _) as [mse1|e] eqn:E1; [|done].
  destruct (math_sqrt mse1) as [rmse1|e] eqn:R1; [|done].
  destruct (mean_squared_error ys2 _) as [mse2|e] eqn:E2; [|done].
  destruct (math_sqrt mse2) as [rmse2|e] eqn:R2; [|done].
  apply math_sqrt_Ok in R1, R2. subst rmse1 rmse2.
  simpl. split; [|by rewrite !length_app, Hlen].
  rewrite (interleave_snoc _ _ _ _ Hlen), <- Ht.
  unfold scores. rewrite !omap_app. simpl. rewrite E1, E2. simpl.
  rewrite !app_nil_r, <- app_assoc. by rewrite !fmap_app.
Qed.

Lemma scores_classifier_period spp f1 f2 f3 training_targets validation_targets
  vars period (t : list Event) :
  scores t = interleave vars.1.2 vars.2 →
  length vars.1.2 = length vars.2 →
  match classifier_period spp f1 f2 f3 training_targets validation_targets
          vars period t with
  | (t', Ok vars') =>
      scores t' = interleave vars'.1.2 vars'.2
      ∧ length vars'.1.2 = length vars'.2
  | (t', Raise _) => True
  end.
Proof.
  destruct vars as [[est tr] va]. simpl. intros Ht Hlen.
  unfold classifier_period, train, predict, metrics_log_loss, print,
    emit, bind, lift, ret. simpl.
  destruct (estimator_train est f1 spp) as [p|e]; simpl; [|done].
  destruct (estimator_predict _ f2) as [items1|e]; [|done].
  destruct (comprehension _ items1) as [ps1|e]; [|done].
  destruct (estimator_predict _ f3) as [items2|e]; [|done].
  destruct (comprehension _ items2) as [ps2|e]; [|done].
  destruct (log_loss _ ps1) as [loss1|e] eqn:E1; [|done].
  destruct (log_loss _ ps2) as [loss2|e] eqn:E2; [|done].
  simpl. split; [|by rewrite !length_app, Hlen].
  rewrite (interleave_snoc _ _ _ _ Hlen), <- Ht.
  unfold scores. rewrite !omap_app. simpl. rewrite E1, E2. simpl.
  by rewrite !app_nil_r, <- app_assoc.
Qed.

Lemma scores_regressor_loop spp f1 f2 f3 training_targets validation_targets
  est0 (xs : list Z) (t : list Event) :
  scores t = [] →
  match for_each xs
          (regressor_period spp f1 f2 f3 training_targets validation_targets)
          (est0, [], []) t with
  | (t', Ok vars') => PrimFloat.sqrt <$> scores t' = interleave vars'.1.2 vars'.2
  | (t', Raise _) => True
  end.
Proof.
  intros Ht.
  pose proof (for_each_cases
                (λ t vars, PrimFloat.sqrt <$> scores t = interleave vars.1.2 vars.2
                           ∧ length vars.1.2 = length vars.2)
                (λ _, True) xs
                (regressor_period spp f1 f2 f3 training_targets validation_targets)
                (λ x s vars H,
                   scores_regressor_period spp f1 f2 f3 training_targets
                     validation_targets vars x s (proj1 H) (proj2 H))
                t (est0, [], [])) as Hloop.
  simpl in Hloop. rewrite Ht in Hloop. specialize (Hloop (conj eq_refl eq_refl)).
  destruct (for_each _ _ _ _) as [t' [vars'|e]]; [|done]. apply Hloop.
Qed.

Lemma scores_classifier_loop spp f1 f2 f3 training_targets validation_targets
  est0 (xs : list Z) (t : list Event) :
  scores t = [] →
  match for_each xs
          (classifier_period spp f1 f2 f3 training_targets validation_targets)
          (est0, [], []) t with
  | (t', Ok vars') => scores t' = interleave vars'.1.2 vars'.2
  | (t', Raise _) => True
  end.
Proof.
  intros Ht.
  pose proof (for_each_cases
                (λ t vars, scores t = interleave vars.1.2 vars.2
                           ∧ length vars.1.2 = length vars.2)
                (λ _, True) xs
                (classifier_period spp f1 f2 f3 training_targets validation_targets)
                (λ x s vars H,
                   scores_classifier_period spp f1 f2 f3 training_targets
                     validation_targets vars x s (proj1 H) (proj2 H))
                t (est0, [], [])) as Hloop.
  simpl in Hloop. rewrite Ht in Hloop. specialize (Hloop (conj eq_refl eq_refl)).
  destruct (for_each _ _ _ _) as [t' [vars'|e]]; [|done]. apply Hloop.
Qed.

(** X11. With a library that returns, the regressor's histories are the
    square roots of what [mean_squared_error] returned during the run, in
    the order of the calls: training, validation, period after period.  The
    training history that is plotted is also the one printed line by line,
    period 0 to 9. *)
Theorem rmse_histories_are_roots_of_the_scores (Hlib : library_returns L)
  (learning_rate : float) (steps batch_size : Z)
  (training_examples training_targets validation_examples validation_targets
     : DataFrame) :
  is_ok (int_truediv steps periods) = true →
  ∃ t est training_rmse validation_rmse,
    train_linear_regressor_model learning_rate steps batch_size
      training_examples training_targets validation_examples validation_targets []
    = (t, Ok est)
    ∧ plotted t = [plt_ylabel "RMSE"; plt_xlabel "Periods";
                   plt_title "Root Mean Squared Error vs. Periods";
                   plt_tight_layout;
                   plt_plot training_rmse "training";
                   plt_plot validation_rmse "validation";
                   plt_legend]
    ∧ printed t
      = [Text "Training model..."; Text "RMSE (on training data):"]
        ++ zip_with PeriodLine (range 0 10) training_rmse
        ++ [Text "Model training finished."]
    ∧ PrimFloat.sqrt <$> scores t = interleave training_rmse validation_rmse
    ∧ length training_rmse = 10%nat
    ∧ length validation_rmse = 10%nat.
Proof.
  intros Hsteps. apply is_ok_Ok in Hsteps as [spp Hspp].
  set (fc := construct_feature_columns (labels training_examples)).
  set (opt := clip_gradients_by_norm (GradientDescentOptimizer learning_rate) 5).
  destruct (is_ok_Ok _ (init_returns Hlib LinearRegressor fc opt)) as [p0 Einit].
  set (est0 := mkEstimator LinearRegressor fc opt p0).
  set (t1 := [Call_estimator LinearRegressor fc opt;
              Call_print (Text "Training model...");
              Call_print (Text "RMSE (on training data):")]).
  destruct (regressor_loop_run Hlib spp
              (λ _ : unit, my_input_fn training_examples training_targets batch_size true None)
              (λ _ : unit, my_input_fn training_examples training_targets 1 false (Some 1))
              (λ _ : unit, my_input_fn validation_examples validation_targets 1 false (Some 1))
              training_targets validation_targets est0 10 t1)
    as (evs & est & tr & va & Eloop & (_ & _ & Hprint & Hplot & Htr & Hva & _)).
  pose proof (scores_regressor_loop spp
              (λ _ : unit, my_input_fn training_examples training_targets batch_size true None)
              (λ _ : unit, my_input_fn training_examples training_targets 1 false (Some 1))
              (λ _ : unit, my_input_fn validation_examples validation_targets 1 false (Some 1))
              training_targets validation_targets est0 (range 0 (Z.of_nat 10)) t1
              eq_refl) as Hscores.
  rewrite Eloop in Hscores. cbn [fst snd] in Hscores.
  eexists _, est, tr, va. split.
  - unfold train_linear_regressor_model.
    rewrite (bind_ok _ _ _ _ _ (eq_trans (lift_run _ _) (f_equal _ Hspp))).
    rewrite (bind_ok _ _ _ _ _ (new_estimator_run _ _ _ _ _ Einit)).
    rewrite (bind_ok _ _ _ _ _ (print_run _ _)).
    rewrite (bind_ok _ _ _ _ _ (print_run _ _)).
    rewrite <- !app_assoc. cbn [app]. fold t1.
    change periods with (Z.of_nat 10).
    rewrite (bind_ok _ _ _ _ _ Eloop).
    repeat (first [ rewrite (bind_ok _ _ _ _ _ (print_run _ _))
                  | rewrite (bind_ok _ _ _ _ _ (plt_run _ _)) ]).
    unfold ret. rewrite <- !app_assoc. reflexivity.
  - unfold plotted, printed, scores in *.
    rewrite omap_app in Hscores. rewrite !omap_app, Hplot, Hprint.
    subst t1. cbn [omap list_omap app] in *. rewrite app_nil_r.
    change (Z.of_nat 10) with 10. by rewrite Hscores.
Qed.

(** X12. With a library that returns, the classifier's histories are what
    [log_loss] returned during the run, in the order of the calls:
    training, validation, period after period.  The training history that
    is plotted is also the one printed line by line, period 0 to 9. *)
Theorem log_loss_histories_are_the_scores (Hlib : library_returns L)
  (learning_rate : float) (steps batch_size : Z)
  (training_examples training_targets validation_examples validation_targets
     : DataFrame) :
  is_ok (int_truediv steps periods) = true →
  ∃ t est training_log_losses validation_log_losses,
    train_linear_classifier_model learning_rate steps batch_size
      training_examples training_targets validation_examples validation_targets []
    = (t, Ok est)
    ∧ plotted t = [plt_figure; plt_ylabel "LogLoss"; plt_xlabel "Periods";
                   plt_title "LogLoss vs. Periods";
                   plt_tight_layout;
                   plt_plot training_log_losses "training";
                   plt_plot validation_log_losses "validation";
                   plt_legend]
    ∧ printed t
      = [Text "Training model..."; Text "LogLoss (on training data):"]
        ++ zip_with PeriodLine (range 0 10) training_log_losses
        ++ [Text "Model training finished."]
    ∧ scores t = interleave training_log_losses validation_log_losses
    ∧ length training_log_losses = 10%nat
    ∧ length validation_log_losses = 10%nat.
Proof.
  intros Hsteps. apply is_ok_Ok in Hsteps as [spp Hspp].
  set (fc := construct_feature_columns (labels training_examples)).
  set (opt := clip_gradients_by_norm (GradientDescentOptimizer learning_rate) 5).
  destruct (is_ok_Ok _ (init_returns Hlib LinearClassifier fc opt)) as [p0 Einit].
  set (est0 := mkEstimator LinearClassifier fc opt p0).
  set (t1 := [Call_estimator LinearClassifier fc opt;
              Call_print (Text "Training model...");
              Call_print (Text "LogLoss (on training data):")]).
  destruct (classifier_loop_run Hlib spp
              (λ _ : unit, my_input_fn training_examples training_targets batch_size true None)
              (λ _ : unit, my_input_fn training_examples training_targets 1 false (Some 1))
              (λ _ : unit, my_input_fn validation_examples validation_targets 1 false (Some 1))
              training_targets validation_targets est0 10 t1)
    as (evs & est & tr & va & Eloop & (_ & _ & Hprint & Hplot & Htr & Hva & _)).
  pose proof (scores_classifier_loop spp
              (λ _ : unit, my_input_fn training_examples training_targets batch_size true None)
              (λ _ : unit, my_input_fn training_examples training_targets 1 false (Some 1))
              (λ _ : unit, my_input_fn validation_examples validation_targets 1 false (Some 1))
              training_targets validation_targets est0 (range 0 (Z.of_nat 10)) t1
              eq_refl) as Hscores.
  rewrite Eloop in Hscores. cbn [fst snd] in Hscores.
  eexists _, est, tr, va. split.
  - unfold train_linear_classifier_model.
    rewrite (bind_ok _ _ _ _ _ (eq_trans (lift_run _ _) (f_equal _ Hspp))).
    rewrite (bind_ok _ _ _ _ _ (new_estimator_run _ _ _ _ _ Einit)).
    rewrite (bind_ok _ _ _ _ _ (print_run _ _)).
    rewrite (bind_ok _ _ _ _ _ (print_run _ _)).
    rewrite <- !app_assoc. cbn [app]. fold t1.
    change periods with (Z.of_nat 10).
    rewrite (bind_ok _ _ _ _ _ Eloop).
    repeat (first [ rewrite (bind_ok _ _ _ _ _ (print_run _ _))
                  | rewrite (bind_ok _ _ _ _ _ (plt_run _ _)) ]).
    unfold ret. rewrite <- !app_assoc. reflexivity.
  - unfold plotted, printed, scores in *.
    rewrite omap_app in Hscores. rewrite !omap_app, Hplot, Hprint.
    subst t1. cbn [omap list_omap app] in *. rewrite app_nil_r.
    change (Z.of_nat 10) with 10. by rewrite Hscores.
Qed.

(** ** Prediction items that lack a value *)

Lemma comprehension_first_failure {A B} (f : A → outcome B) good bad rest e :
  Forall (λ item, is_ok (f item) = true) good →
  f bad = Raise e →
  comprehension f (good ++ bad :: rest) = Raise e.
Proof.
  intros Hgood Hbad. induction Hgood as [|item good Hitem _ IH]; simpl.
  - by rewrite Hbad.
  - apply is_ok_Ok in Hitem as [b ->]. by rewrite IH.
Qed.

(** X13. The regressor reads ['predictions'][0] of every item that
    [predict] yields.  When, in the first period, an item of the training
    predictions has no ['predictions'] entry, the function raises
    [KeyError]; when the entry is an empty array, it raises [IndexError];
    the items before it do not matter.  The exception leaves the function
    right after that call of [predict]: no metric is computed and no period
    line is printed. *)
Theorem regressor_needs_a_prediction_per_item
  (learning_rate : float) (steps batch_size : Z)
  (training_examples training_targets validation_examples validation_targets
     : DataFrame)
  (spp : float) (params0 params1 : Params)
  (good rest : list (gmap string (list float))) (bad : gmap string (list float))
  (e : exn) :
  let fc := construct_feature_columns (labels training_examples) in
  let opt := clip_gradients_by_norm (GradientDescentOptimizer learning_rate) 5 in
  let f_train := λ _ : unit,
    my_input_fn training_examples training_targets batch_size true None in
  let f_predict := λ _ : unit,
    my_input_fn training_examples training_targets 1 false (Some 1) in
  let est0 := mkEstimator LinearRegressor fc opt params0 in
  let est1 := mkEstimator LinearRegressor fc opt params1 in
  int_truediv steps periods = Ok spp →
  estimator_init LinearRegressor fc opt = Ok params0 →
  estimator_train est0 f_train spp = Ok params1 →
  estimator_predict est1 f_predict = Ok (good ++ bad :: rest) →
  Forall (λ item, ∃ x xs, item !! "predictions" = Some (x :: xs)) good →
  (bad !! "predictions" = None ∧ e = KeyError ["predictions"])
  ∨ (bad !! "predictions" = Some []
     ∧ e = IndexError "index 0 is out of bounds") →
  train_linear_regressor_model learning_rate steps batch_size
    training_examples training_targets validation_examples validation_targets []
  = ([Call_estimator LinearRegressor fc opt;
      Call_print (Text "Training model...");
      Call_print (Text "RMSE (on training data):");
      Call_train est0 f_train spp;
      Call_predict est1 f_predict],
     Raise e).
Proof.
  intros fc opt f_train f_predict est0 est1 Hspp Einit Etrain Epredict Hgood Hbad.
  unfold train_linear_regressor_model.
  rewrite (bind_ok _ _ _ _ _ (eq_trans (lift_run _ _) (f_equal _ Hspp))).
  rewrite (bind_ok _ _ _ _ _ (new_estimator_run _ _ _ _ _ Einit)).
  rewrite (bind_ok _ _ _ _ _ (print_run _ _)).
  rewrite (bind_ok _ _ _ _ _ (print_run _ _)).
  change (range 0 periods) with (0 :: range 1 periods). cbn [for_each].
  fold fc opt f_train f_predict est0.
  apply bind_raise. apply bind_raise. unfold regressor_period.
  rewrite (bind_ok _ _ _ _ _ (train_run _ _ _ _ _ Etrain)).
  rewrite (bind_ok _ _ _ _ _ (predict_run _ _ _ _ Epredict)).
  apply bind_raise. rewrite lift_run. f_equal.
  apply comprehension_first_failure.
  - eapply Forall_impl; [exact Hgood|]. intros item (x & xs & Hitem).
    unfold dict_getitem. by rewrite Hitem.
  - unfold dict_getitem. by destruct Hbad as [[-> ->]|[-> ->]].
Qed.

(** X14. The classifier reads ['probabilities'] of every item that
    [predict] yields, and nothing else of it.  When, in the first period,
    an item of the training predictions has no ['probabilities'] entry, the
    function raises [KeyError] right after that call of [predict]; the
    items before it do not matter. *)
Theorem classifier_needs_probabilities_per_item
  (learning_rate : float) (steps batch_size : Z)
  (training_examples training_targets validation_examples validation_targets
     : DataFrame)
  (spp : float) (params0 params1 : Params)
  (good rest : list (gmap string (list float))) (bad : gmap string (list float)) :
  let fc := construct_feature_columns (labels training_examples) in
  let opt := clip_gradients_by_norm (GradientDescentOptimizer learning_rate) 5 in
  let f_train := λ _ : unit,
    my_input_fn training_examples training_targets batch_size true None in
  let f_predict := λ _ : unit,
    my_input_fn training_examples training_targets 1 false (Some 1) in
  let est0 := mkEstimator LinearClassifier fc opt params0 in
  let est1 := mkEstimator LinearClassifier fc opt params1 in
  int_truediv steps periods = Ok spp →
  estimator_init LinearClassifier fc opt = Ok params0 →
  estimator_train est0 f_train spp = Ok params1 →
  estimator_predict est1 f_predict = Ok (good ++ bad :: rest) →
  Forall (λ item, is_Some (item !! "probabilities")) good →
  bad !! "probabilities" = None →
  train_linear_classifier_model learning_rate steps batch_size
    training_examples training_targets validation_examples validation_targets []
  = ([Call_estimator LinearClassifier fc opt;
      Call_print (Text "Training model...");
      Call_print (Text "LogLoss (on training data):");
      Call_train est0 f_train spp;
      Call_predict est1 f_predict],
     Raise (KeyError ["probabilities"])).
Proof.
  intros fc opt f_train f_predict est0 est1 Hspp Einit Etrain Epredict Hgood Hbad.
  unfold train_linear_classifier_model.
  rewrite (bind_ok _ _ _ _ _ (eq_trans (lift_run _ _) (f_equal _ Hspp))).
  rewrite (bind_ok _ _ _ _ _ (new_estimator_run _ _ _ _ _ Einit)).
  rewrite (bind_ok _ _ _ _ _ (print_run _ _)).
  rewrite (bind_ok _ _ _ _ _ (print_run _ _)).
  change (range 0 periods) with (0 :: range 1 periods). cbn [for_each].
  fold fc opt f_train f_predict est0.
  apply bind_raise. apply bind_raise. unfold classifier_period.
  rewrite (bind_ok _ _ _ _ _ (train_run _ _ _ _ _ Etrain)).
  rewrite (bind_ok _ _ _ _ _ (predict_run _ _ _ _ Epredict)).
  apply bind_raise. rewrite lift_run. f_equal.
  apply comprehension_first_failure.
  - eapply Forall_impl; [exact Hgood|]. intros item [ps Hitem].
    unfold dict_getitem. by rewrite Hitem.
  - unfold dict_getitem. by rewrite Hbad.
Qed.

(** ** Nothing is called after a failure *)

Lemma Forall_removelast {A} (P : A → Prop) (l : list A) :
  Forall P l → Forall P (removelast l).
Proof.
  induction 1 as [|x l Hx Hl IH]; [done|]. simpl.
  destruct l; [done|]. by constructor.
Qed.

Lemma stops_ret {A} (a : A) : stops_at_failure (ret a).
Proof. by intros t Ht. Qed.

Lemma stops_lift {A} (o : outcome A) : stops_at_failure (lift o).
Proof.
  intros t Ht. unfold lift. destruct o as [a|e]; [done|].
  by apply Forall_removelast.
Qed.

Lemma stops_bind {A B} (c : Py (list Event) A) (k : A → Py (list Event) B) :
  stops_at_failure c → (∀ a, stops_at_failure (k a)) → stops_at_failure (bind c k).
Proof.
  intros Hc Hk t Ht. unfold bind. specialize (Hc t Ht).
  destruct (c t) as [t' [a|e]]; [by apply Hk|done].
Qed.

Lemma stops_for_each {A B} (xs : list A) (body : B → A → Py (list Event) B) acc :
  (∀ acc x, stops_at_failure (body acc x)) → stops_at_failure (for_each xs body acc).
Proof.
  intros Hbody. revert acc. induction xs as [|x xs IH]; intros acc; simpl.
  - apply stops_ret.
  - apply stops_bind; [apply Hbody|apply IH].
Qed.

(** A recorded call whose outcome is the outcome of the computation. *)
Lemma stops_call {A} (ev : Event) (o : outcome A) :
  call_failure ev = raised o → stops_at_failure (emit ev;;; lift o).
Proof.
  intros Hev t Ht. unfold bind, emit, lift. destruct o as [a|e]; simpl in Hev.
  - apply Forall_app. split; [done|]. by apply Forall_singleton.
  - by rewrite removelast_last.
Qed.

Lemma stops_emit (ev : Event) : call_failure ev = None → stops_at_failure (emit ev).
Proof.
  intros Hev t Ht. unfold emit. apply Forall_app. split; [done|].
  by apply Forall_singleton.
Qed.

Lemma stops_new_estimator kind fc opt : stops_at_failure (new_estimator kind fc opt).
Proof.
  intros t Ht. pose proof (stops_call (Call_estimator kind fc opt)
                             (estimator_init kind fc opt) eq_refl t Ht) as H.
  unfold new_estimator. unfold bind, emit, lift, ret in *.
  by destruct (estimator_init kind fc opt).
Qed.

Lemma stops_train est f steps : stops_at_failure (train est f steps).
Proof.
  intros t Ht. pose proof (stops_call (Call_train est f steps)
                             (estimator_train est f steps) eq_refl t Ht) as H.
  unfold train. unfold bind, emit, lift, ret in *.
  by destruct (estimator_train est f steps).
Qed.

Ltac stop :=
  repeat match goal with
    | |- stops_at_failure (ret _) => apply stops_ret
    | |- stops_at_failure (lift _) => apply stops_lift
    | |- stops_at_failure (new_estimator _ _ _) => apply stops_new_estimator
    | |- stops_at_failure (train _ _ _) => apply stops_train
    | |- stops_at_failure (predict _ _) => by apply stops_call
    | |- stops_at_failure (metrics_mean_squared_error _ _) => by apply stops_call
    | |- stops_at_failure (metrics_log_loss _ _) => by apply stops_call
    | |- stops_at_failure (print _) => by apply stops_emit
    | |- stops_at_failure (plt _) => by apply stops_emit
    | |- stops_at_failure (bind (for_each _ _ _) _) =>
        apply stops_bind;
        [apply stops_for_each; intros ? ?|intros [[? ?] ?]]
    | |- stops_at_failure (bind _ _) => apply stops_bind; [|intros ?]
    end.

Lemma stops_regressor_period spp f1 f2 f3 tt vt vars period :
  stops_at_failure (regressor_period spp f1 f2 f3 tt vt vars period).
Proof. destruct vars as [[est tr] va]. unfold regressor_period. stop. Qed.

Lemma stops_classifier_period spp f1 f2 f3 tt vt vars period :
  stops_at_failure (classifier_period spp f1 f2 f3 tt vt vars period).
Proof. destruct vars as [[est tr] va]. unfold classifier_period. stop. Qed.

Lemma stops_outcome {A} (c : Py (list Event) A) :
  stops_at_failure c →
  Forall (λ ev, call_failure ev = None) (removelast (c []).1).
Proof.
  intros Hc. specialize (Hc [] (Forall_nil_2 _)).
  destruct (c []) as [t [a|e]]; [by apply Forall_removelast|done].
Qed.

(** X15. No call follows a failure: in any run of a training function,
    every call of the estimator and of the metrics before the last recorded
    call returned.  A call that raised is the last thing the function did;
    it is not retried, and the period is not completed. *)
Theorem no_call_follows_a_failure
  (learning_rate : float) (steps batch_size : Z)
  (training_examples training_targets validation_examples validation_targets
     : DataFrame) :
  Forall (λ ev, call_failure ev = None)
    (removelast
       (train_linear_regressor_model learning_rate steps batch_size
          training_examples training_targets validation_examples
          validation_targets []).1)
  ∧ Forall (λ ev, call_failure ev = None)
      (removelast
         (train_linear_classifier_model learning_rate steps batch_size
            training_examples training_targets validation_examples
            validation_targets []).1).
Proof.
  split; apply stops_outcome.
  - unfold train_linear_regressor_model. stop. apply stops_regressor_period.
  - unfold train_linear_classifier_model. stop. apply stops_classifier_period.
Qed.

End TrainingMoreProofs.

(** ** More of the training functions on the sample data *)

Lemma estimator_is_carried_from_call_to_call_witness :
  let est0 :=
    mkEstimator (Params := nat) LinearRegressor
      (construct_feature_columns (labels sample_housing))
      (clip_gradients_by_norm (GradientDescentOptimizer 0.5) 5) 0%nat in
  ∃ t est,
    train_linear_regressor_model (L := toy_library) 0.5 500 5
      sample_housing sample_targets sample_housing sample_targets []
    = (t, Ok est)
    ∧ length (train_requests t) = 10%nat
    ∧ step_of <$> t
      = [Construct; LogStep; LogStep]
        ++ mjoin (replicate 10 [TrainStep; PredictStep; PredictStep;
                                ScoreStep; ScoreStep; LogStep])
        ++ [LogStep] ++ replicate 7 PlotStep
    ∧ threaded (L := toy_library) est0 t
    ∧ est = estimator_after (L := toy_library) est0 t
    ∧ est_params est = 10%nat.
Proof.
  intros est0.
  destruct (train_linear_regressor_model_run (L := toy_library) toy_library_returns
              0.5 500 5 sample_housing sample_targets sample_housing sample_targets
              50%float [])
    as (p0 & evs & est & tr & va & Einit & E & (Hsteps & Hreq & _ & _ & _ & _ & Hfit));
    [vm_compute; reflexivity|].
  injection Einit as <-.
  destruct (estimator_is_carried_from_call_to_call (L := toy_library)
              0.5 500 5 sample_housing sample_targets sample_housing sample_targets)
    as [Hregressor _].
  destruct (Hregressor 0%nat _ _ eq_refl E) as [Hthreaded Hest].
  eexists _, est. split; [exact E|].
  split; [by rewrite train_requests_run, Hreq|].
  split; [by rewrite !fmap_app, Hsteps|].
  split; [exact Hthreaded|]. split; [by apply Hest|].
  cbn in Hfit. by injection Hfit as <-.
Defined.

Lemma rmse_histories_are_roots_of_the_scores_witness :
  ∃ t est training_rmse validation_rmse,
    train_linear_regressor_model (L := toy_library) 0.5 500 5
      sample_housing sample_targets sample_housing sample_targets []
    = (t, Ok est)
    ∧ PrimFloat.sqrt <$> scores t = interleave training_rmse validation_rmse
    ∧ plt_plot training_rmse "training" ∈ plotted t
    ∧ length training_rmse = 10%nat.
Proof.
  destruct (rmse_histories_are_roots_of_the_scores (L := toy_library)
              toy_library_returns
              0.5 500 5 sample_housing sample_targets sample_housing sample_targets)
    as (t & est & tr & va & E & Hplot & _ & Hscores & Htr & _);
    [vm_compute; reflexivity|].
  exists t, est, tr, va. rewrite Hplot. repeat split; try assumption.
  do 4 right. left.
Defined.

Lemma log_loss_histories_are_the_scores_witness :
  ∃ t est training_log_losses validation_log_losses,
    train_linear_classifier_model (L := toy_library) 0.5 500 5
      sample_housing sample_targets sample_housing sample_targets []
    = (t, Ok est)
    ∧ scores t = interleave training_log_losses validation_log_losses
    ∧ plt_plot training_log_losses "training" ∈ plotted t
    ∧ length training_log_losses = 10%nat.
Proof.
  destruct (log_loss_histories_are_the_scores (L := toy_library)
              toy_library_returns
              0.5 500 5 sample_housing sample_targets sample_housing sample_targets)
    as (t & est & tr & va & E & Hplot & _ & Hscores & Htr & _);
    [vm_compute; reflexivity|].
  exists t, est, tr, va. rewrite Hplot. repeat split; try assumption.
  do 5 right. left.
Defined.

Lemma regressor_needs_a_prediction_per_item_witness :
  (train_linear_regressor_model (L := careless_library) 0.5 500 5
     sample_housing sample_targets sample_housing sample_targets []).2
  = Raise (KeyError ["predictions"]).
Proof.
  rewrite (regressor_needs_a_prediction_per_item (L := careless_library)
             0.5 500 5 sample_housing sample_targets sample_housing sample_targets
             50%float 0%nat 1%nat
             [ {[ "predictions" := [2%float];
                  "probabilities" := [0.25; 0.75]%float ]} ] [] ∅
             (KeyError ["predictions"])).
  - reflexivity.
  - vm_compute. reflexivity.
  - reflexivity.
  - reflexivity.
  - reflexivity.
  - apply Forall_singleton. by exists 2%float, [].
  - left. split; reflexivity.
Defined.

Lemma classifier_needs_probabilities_per_item_witness :
  (train_linear_classifier_model (L := careless_library) 0.5 500 5
     sample_housing sample_targets sample_housing sample_targets []).2
  = Raise (KeyError ["probabilities"]).
Proof.
  rewrite (classifier_needs_probabilities_per_item (L := careless_library)
             0.5 500 5 sample_housing sample_targets sample_housing sample_targets
             50%float 0%nat 1%nat
             [ {[ "predictions" := [2%float];
                  "probabilities" := [0.25; 0.75]%float ]} ] [] ∅).
  - reflexivity.
  - vm_compute. reflexivity.
  - reflexivity.
  - reflexivity.
  - reflexivity.
  - apply Forall_singleton. by eexists.
  - reflexivity.
Defined.
